(** * cf4ocl: the OpenCL context wrapper ([src/lib/context.c])

    A shallow embedding of the context wrapper of cf4ocl.  The C code works
    on a heap of wrapper objects and talks to three collaborators: GLib
    (allocation, [GError], defensive checks), the OpenCL runtime, and the
    other wrapper modules of cf4ocl (generic wrapper, device wrapper,
    device selection).  The embedding is a state monad over a [world]
    (heap, allocation counter, trace of collaborator calls) with a fault
    outcome for undefined behaviour; the OpenCL runtime and the selection
    engine are an environment [Env] whose answers may depend on the whole
    history of calls. *)

From Stdlib Require Import ZArith Lia.
From stdpp Require Import gmap strings list.

Local Open Scope Z_scope.

(** ** Data model *)

(** Pointers and opaque OpenCL handles are machine words; [NULL] is 0. *)
Definition NULL : Z := 0.

(** LP64 sizes of the two handle types the file takes [sizeof] of. *)
Definition sizeof_cl_device_id : Z := 8.
Definition sizeof_cl_context_properties : Z := 8.

(** OpenCL constants ([CL/cl.h]). *)
Definition CL_SUCCESS : Z := 0.
Definition CL_CONTEXT_PLATFORM : Z := 4228.   (* 0x1084 *)

(** [cl_uint] and [guint] are 32-bit unsigned. *)
Definition to_cl_uint (n : Z) : Z := n mod 2 ^ 32.

(** *** GError *)

Inductive GQuark := CL4_ERROR | GQuark_other (q : Z).

(** The error codes of [common.h] this file raises; their numeric values
    stay abstract. *)
Inductive cl4_error_code :=
| CL4_ERROR_DEVICE_NOT_FOUND
| CL4_ERROR_OCL
| CL4_ERROR_CODE (n : Z).

(** Arguments of a printf-style message; [ArgOclErr s] stands for the text
    [cl4_err(s)]. *)
Inductive fmt_arg := ArgStr (s : string) | ArgInt (n : Z) | ArgOclErr (status : Z).

Record GError := mkGError {
  domain : GQuark;
  code : cl4_error_code;
  message : string;
  message_args : list fmt_arg
}.

(** A [GError** err] argument: [None] is a NULL [err] (error reporting is
    ignored), [Some None] a location holding NULL, [Some (Some e)] a
    location holding the error [e]. *)
Definition errloc := option (option GError).

(** [err == NULL || *err == NULL] *)
Definition err_null_or_unset (err : errloc) : bool :=
  match err with
  | None | Some None => true
  | Some (Some _) => false
  end.

(** [err == NULL || *err != NULL] *)
Definition err_null_or_set (err : errloc) : bool :=
  match err with
  | None | Some (Some _) => true
  | Some None => false
  end.

(** *** Heap objects *)

(** [CL4Wrapper]: the wrapped OpenCL object and the reference count. *)
Record CL4Wrapper := mkWrapper {
  cl_object : Z;
  ref_count : Z
}.

(** [struct cl4_context]. *)
Record cl4_context := mkContext {
  base : CL4Wrapper;
  platform : Z;
  num_devices : Z;
  devices : Z
}.

(** A device wrapper: the parent wrapper and the cached platform of the
    device (the only information key this file asks for). *)
Record cl4_device := mkDevice {
  dev_base : CL4Wrapper;
  dev_platform : option Z
}.

(** GLib's [GPtrArray]: [pdata] points to the array of element pointers. *)
Record GPtrArray := mkPtrArray {
  pdata : Z;
  len : Z
}.

(** [CL4WrapperInfo]: the answer to an information query, [size] in bytes. *)
Record CL4WrapperInfo := mkInfo {
  value : list Z;
  size : Z
}.

(** A heap block.  [BArray] is an array of machine words (device wrapper
    pointers, [cl_device_id]s or [cl_context_properties]); a cell is [None]
    while it is uninitialised. *)
Inductive block :=
| BContext (c : cl4_context)
| BDevice (d : cl4_device)
| BPlatform (p : CL4Wrapper)
| BPtrArray (a : GPtrArray)
| BArray (cells : list (option Z)).

(** *** Device selection filters *)

Inductive devsel_function :=
| cl4_devsel_dep_platform
| devsel_fn (addr : Z).

Inductive cl4_devsel_filter :=
| IndepFilter (function : devsel_function) (data : Z)
| DepFilter (function : devsel_function) (data : Z).

(** [CL4DevSelFilters]: the ordered chain of filters. *)
Definition CL4DevSelFilters := list cl4_devsel_filter.

(** *** Trace of collaborator calls *)

Inductive event :=
| EvCritical (check : string)
| EvWarning (check : string)
| EvSelect (filters : CL4DevSelFilters)
| EvDeviceInfo (device : Z)
| EvContextInfo (context : Z)
| EvCreateContext (properties : Z) (props : list (option Z)) (num : Z)
    (devs : list (option Z)) (pfn_notify user_data : Z) (context status : Z)
| EvRetainContext (context status : Z)
| EvReleaseContext (context : Z)
| EvDeviceUnref (device : Z)
| EvReleaseDevice (device_id : Z)
| EvPlatformUnref (platform : Z)
| EvReleasePlatform (platform_id : Z).

Inductive fault :=
| NullDeref
| InvalidAccess (p : Z)
| OutOfBounds (p : Z) (i : Z)
| UninitRead (p : Z) (i : Z)
| InvalidFree (p : Z)
| AssertFailed (what : string).

Record world := mkWorld {
  heap : gmap Z block;
  next : Z;
  trace : list event
}.

(** ** The environment: OpenCL runtime and selection engine

    Each answer may depend on the calls made so far. *)
Record Env := mkEnv {
  (** the candidate devices (native handles) a filter chain selects *)
  env_select : list event -> CL4DevSelFilters -> list Z + GError;
  (** [clGetDeviceInfo(device, CL_DEVICE_PLATFORM)] *)
  env_device_platform : list event -> Z -> Z + GError;
  (** [clCreateContext(properties, num, devices, pfn_notify, user_data)]:
      the context and the status *)
  env_create_context :
    list event -> list (option Z) -> Z -> list (option Z) -> Z -> Z -> Z * Z;
  (** [clRetainContext(context)] *)
  env_retain_context : list event -> Z -> Z;
  (** [clGetContextInfo(context, CL_CONTEXT_DEVICES)] *)
  env_context_devices : list event -> Z -> CL4WrapperInfo + GError
}.

(** ** The monad *)

Inductive outcome (A : Type) :=
| Done (a : A) (w : world)
| Fault (f : fault) (w : world).
Arguments Done {A} a w.
Arguments Fault {A} f w.

Definition M (A : Type) := world -> outcome A.

Definition ret {A} (a : A) : M A := fun w => Done a w.

Definition bind {A B} (m : M A) (k : A -> M B) : M B :=
  fun w => match m w with
           | Done a w' => k a w'
           | Fault f w' => Fault f w'
           end.

Declare Scope cmd_scope.
Delimit Scope cmd_scope with cmd.
Notation "x <- c1 ;; c2" := (bind c1 (fun x => c2))
  (at level 100, c1 at next level, right associativity) : cmd_scope.
Notation "c1 ;; c2" := (bind c1 (fun _ => c2))
  (at level 100, right associativity) : cmd_scope.
Local Open Scope cmd_scope.

Definition fail {A} (f : fault) : M A := fun w => Fault f w.

Definition emit (e : event) : M unit :=
  fun w => Done tt (mkWorld (heap w) (next w) (trace w ++ [e])).

Definition get_trace : M (list event) := fun w => Done (trace w) w.

(** *** Memory *)

Definition load (p : Z) : M block :=
  fun w => if p =? NULL then Fault NullDeref w
           else match heap w !! p with
                | Some b => Done b w
                | None => Fault (InvalidAccess p) w
                end.

Definition store (p : Z) (b : block) : M unit :=
  fun w => Done tt (mkWorld (<[p := b]> (heap w)) (next w) (trace w)).

Definition alloc (b : block) : M Z :=
  fun w => Done (next w) (mkWorld (<[next w := b]> (heap w)) (next w + 1) (trace w)).

Definition dealloc (p : Z) : M unit :=
  fun w => match heap w !! p with
           | Some _ => Done tt (mkWorld (delete p (heap w)) (next w) (trace w))
           | None => Fault (InvalidFree p) w
           end.

Definition load_context (p : Z) : M cl4_context :=
  b <- load p ;;
  match b with BContext c => ret c | _ => fail (InvalidAccess p) end.

Definition load_device (p : Z) : M cl4_device :=
  b <- load p ;;
  match b with BDevice d => ret d | _ => fail (InvalidAccess p) end.

Definition load_platform (p : Z) : M CL4Wrapper :=
  b <- load p ;;
  match b with BPlatform d => ret d | _ => fail (InvalidAccess p) end.

Definition load_ptr_array (p : Z) : M GPtrArray :=
  b <- load p ;;
  match b with BPtrArray a => ret a | _ => fail (InvalidAccess p) end.

Definition load_array (p : Z) : M (list (option Z)) :=
  b <- load p ;;
  match b with BArray l => ret l | _ => fail (InvalidAccess p) end.

(** [p[i]] as an rvalue. *)
Definition read_cell (p : Z) (i : Z) : M Z :=
  l <- load_array p ;;
  if i <? 0 then fail (OutOfBounds p i)
  else match l !! Z.to_nat i with
       | Some (Some v) => ret v
       | Some None => fail (UninitRead p i)
       | None => fail (OutOfBounds p i)
       end.

(** [p[i] = v]. *)
Definition write_cell (p : Z) (i : Z) (v : Z) : M unit :=
  l <- load_array p ;;
  if (i <? 0) || (Z.of_nat (length l) <=? i) then fail (OutOfBounds p i)
  else store p (BArray (<[Z.to_nat i := Some v]> l)).

(** Field assignments on a context wrapper. *)
Definition set_cl_object (h : Z) (c : cl4_context) : cl4_context :=
  mkContext (mkWrapper h (ref_count (base c))) (platform c) (num_devices c) (devices c).
Definition set_ref_count (n : Z) (c : cl4_context) : cl4_context :=
  mkContext (mkWrapper (cl_object (base c)) n) (platform c) (num_devices c) (devices c).
Definition set_platform (p : Z) (c : cl4_context) : cl4_context :=
  mkContext (base c) p (num_devices c) (devices c).
Definition set_num_devices (n : Z) (c : cl4_context) : cl4_context :=
  mkContext (base c) (platform c) n (devices c).
Definition set_devices (d : Z) (c : cl4_context) : cl4_context :=
  mkContext (base c) (platform c) (num_devices c) d.

Definition update_context (ctx : Z) (f : cl4_context -> cl4_context) : M unit :=
  c <- load_context ctx ;;
  store ctx (BContext (f c)).

(** ** GLib *)

(** [g_return_if_fail] / [g_return_val_if_fail]: a failed check logs a
    critical message; the caller then returns at once. *)
Definition g_critical (check : string) : M unit := emit (EvCritical check).

(** [g_warn_if_fail(cond)] *)
Definition g_warn_if_fail (cond : bool) (check : string) : M unit :=
  if cond then ret tt else emit (EvWarning check).

(** [g_assert(cond)]: aborts the program when the condition fails. *)
Definition g_assert (cond : bool) (check : string) : M unit :=
  if cond then ret tt else fail (AssertFailed check).

(** [g_new0(T*, n)]: zeroed array of [n] pointers, NULL when [n] is 0. *)
Definition g_new0 (n : Z) : M Z :=
  if n =? 0 then ret NULL
  else alloc (BArray (replicate (Z.to_nat n) (Some 0))).

(** [g_slice_alloc(block_size)] for arrays of 8-byte words: the memory is
    not initialised; NULL when the size is 0. *)
Definition g_slice_alloc (block_size : Z) : M Z :=
  if block_size =? 0 then ret NULL
  else alloc (BArray (replicate (Z.to_nat (block_size / 8)) None)).

(** [g_free(mem)]: nothing happens for NULL. *)
Definition g_free (mem : Z) : M unit :=
  if mem =? NULL then ret tt else dealloc mem.

(** [g_slice_free1(block_size, mem_block)]: nothing happens for NULL. *)
Definition g_slice_free1 (block_size : Z) (mem_block : Z) : M unit :=
  if mem_block =? NULL then ret tt else dealloc mem_block.

(** [g_ptr_array_free(array, free_segment)]: with [free_segment] false the
    element array survives and is returned. *)
Definition g_ptr_array_free (array : Z) (free_segment : bool) : M Z :=
  if array =? NULL then g_critical "array" ;; ret NULL
  else
    a <- load_ptr_array array ;;
    dealloc array ;;
    if free_segment then g_free (pdata a) ;; ret NULL
    else ret (pdata a).

(** [g_propagate_error(dest, src)] *)
Definition g_propagate_error (dest : errloc) (src : GError) : M errloc :=
  match dest with
  | None => ret None
  | Some None => ret (Some (Some src))
  | Some (Some e) => emit (EvWarning "GError set over the top of a previous GError") ;;
                     ret (Some (Some e))
  end.

(** [g_set_error(err, domain, code, format, ...)] *)
Definition g_set_error (err : errloc) (d : GQuark) (c : cl4_error_code)
    (msg : string) (args : list fmt_arg) : M errloc :=
  g_propagate_error err (mkGError d c msg args).

(** ** The collaborating cf4ocl modules *)

Section Context_wrapper.

Variable env : Env.

(** Modelled from the spec: [cl4_wrapper_init] of the generic wrapper
    module, which is not among the sources.  A fresh wrapper has reference
    count 1; the wrapped object is still NULL. *)
Definition cl4_wrapper_init (w : CL4Wrapper) : CL4Wrapper :=
  mkWrapper NULL 1.

(** Modelled from the spec: [cl4_wrapper_unref] of the generic wrapper
    module ("release": the count goes down by one; when it reaches 0 the
    native handle is handed to the caller's destructor, otherwise nothing
    is returned).  Here on the parent wrapper of a context object. *)
Definition cl4_wrapper_unref (wrapper : Z) : M Z :=
  if wrapper =? NULL then g_critical "wrapper != NULL" ;; ret NULL
  else
    c <- load_context wrapper ;;
    let n := ref_count (base c) - 1 in
    store wrapper (BContext (set_ref_count n c)) ;;
    if n =? 0 then ret (cl_object (base c)) else ret NULL.

(** Modelled from the spec: [cl4_wrapper_release_cl_object], which calls
    the release function on the OpenCL object and ignores its status.  The
    only release function this file passes is [clReleaseContext]. *)
Definition cl4_wrapper_release_cl_object (cl_obj : Z) : M unit :=
  emit (EvReleaseContext cl_obj).

(** Modelled from the spec: [cl4_device_new] of the device wrapper module
    ("wrap": one new wrapper per handle, reference count 1, never fails). *)
Definition cl4_device_new (device : Z) : M Z :=
  alloc (BDevice (mkDevice (mkWrapper device 1) None)).

(** Modelled from the spec: [cl4_device_unwrap] ("unwrap": the native handle,
    the count is not affected). *)
Definition cl4_device_unwrap (dev : Z) : M Z :=
  d <- load_device dev ;;
  ret (cl_object (dev_base d)).

(** Modelled from the spec: [cl4_device_unref] ("release" on a device
    wrapper: the count goes down by one; at 0 the wrapper is freed and the
    native handle released). *)
Definition cl4_device_unref (dev : Z) : M unit :=
  emit (EvDeviceUnref dev) ;;
  d <- load_device dev ;;
  let n := ref_count (dev_base d) - 1 in
  if n =? 0 then
    dealloc dev ;;
    emit (EvReleaseDevice (cl_object (dev_base d)))
  else
    store dev (BDevice (mkDevice (mkWrapper (cl_object (dev_base d)) n) (dev_platform d))).

(** Modelled from the spec: [cl4_platform_unref] ("release" on a platform
    wrapper). *)
Definition cl4_platform_unref (platf : Z) : M unit :=
  emit (EvPlatformUnref platf) ;;
  p <- load_platform platf ;;
  let n := ref_count p - 1 in
  if n =? 0 then
    dealloc platf ;;
    emit (EvReleasePlatform (cl_object p))
  else
    store platf (BPlatform (mkWrapper (cl_object p) n)).

(** Modelled from the spec: [cl4_device_info_value(device,
    CL_DEVICE_PLATFORM, err)] and its [_scalar] form, of the device wrapper
    module.  The device wrapper caches the platform once it was asked for;
    otherwise the OpenCL runtime is queried.  The result is the platform or
    the error that [err] receives.  [context.c] reads through the returned
    pointer before it tests the error; as its error checks after the read
    presume, the read is taken to be harmless when the query failed. *)
Definition cl4_device_info_value (device : Z) : M (Z + GError) :=
  d <- load_device device ;;
  match dev_platform d with
  | Some p => ret (inl p)
  | None =>
      tr <- get_trace ;;
      emit (EvDeviceInfo (cl_object (dev_base d))) ;;
      match env_device_platform env tr (cl_object (dev_base d)) with
      | inl p => store device (BDevice (mkDevice (dev_base d) (Some p))) ;;
                 ret (inl p)
      | inr e => ret (inr e)
      end
  end.

(** Modelled from the spec: [cl4_context_info(ctx, CL_CONTEXT_DEVICES, err)]
    ("context_info": the native context metadata query, a byte buffer
    tagged with its size, or an error). *)
Definition cl4_context_info (ctx : Z) : M (CL4WrapperInfo + GError) :=
  c <- load_context ctx ;;
  tr <- get_trace ;;
  emit (EvContextInfo (cl_object (base c))) ;;
  ret (env_context_devices env tr (cl_object (base c))).

(** Modelled from the spec: [cl4_context_unwrap] ("unwrap" on a context
    wrapper). *)
Definition cl4_context_unwrap (ctx : Z) : M Z :=
  c <- load_context ctx ;;
  ret (cl_object (base c)).

(** Wraps the selected native devices, one wrapper each, in heap order. *)
Fixpoint wrap_selected (ids : list Z) : M (list Z) :=
  match ids with
  | [] => ret []
  | id :: rest =>
      d <- cl4_device_new id ;;
      ds <- wrap_selected rest ;;
      ret (d :: ds)
  end.

(** Modelled from the spec: [cl4_devsel_select] of the selection engine.
    The engine evaluates the chain and returns the candidate list as a
    [GPtrArray] of device wrappers owned by the list, or NULL and an error. *)
Definition cl4_devsel_select (filters : CL4DevSelFilters) : M (Z * option GError) :=
  tr <- get_trace ;;
  emit (EvSelect filters) ;;
  match env_select env tr filters with
  | inr e => ret (NULL, Some e)
  | inl ids =>
      ds <- wrap_selected ids ;;
      segment <- (if ds is [] then ret NULL else alloc (BArray (Some <$> ds))) ;;
      arr <- alloc (BPtrArray (mkPtrArray segment (Z.of_nat (length ds)))) ;;
      ret (arr, None)
  end.

(** [clCreateContext]: the runtime reads the property list and the device
    list. *)
Definition clCreateContext (properties : Z) (num : Z) (devs : list (option Z))
    (pfn_notify user_data : Z) : M (Z * Z) :=
  props <- load_array properties ;;
  tr <- get_trace ;;
  let r := env_create_context env tr props num devs pfn_notify user_data in
  emit (EvCreateContext properties props num devs pfn_notify user_data (fst r) (snd r)) ;;
  ret r.

(** [clRetainContext] *)
Definition clRetainContext (context : Z) : M Z :=
  tr <- get_trace ;;
  let st := env_retain_context env tr context in
  emit (EvRetainContext context st) ;;
  ret st.

(** ** [context.c] *)

(** [cl4_context_device_wrappers_new(num_devices)] *)
Definition cl4_context_device_wrappers_new (n : Z) : M Z := g_new0 n.

(** [cl4_context_new_internal]: a new context wrapper object with empty
    fields and a reference count of 1. *)
Definition cl4_context_new_internal : M Z :=
  ctx <- alloc (BContext (mkContext (mkWrapper NULL 0) NULL 0 NULL)) ;;
  update_context ctx (fun c =>
    mkContext (cl4_wrapper_init (base c)) (platform c) (num_devices c) (devices c)) ;;
  update_context ctx (set_platform NULL) ;;
  update_context ctx (set_num_devices 0) ;;
  update_context ctx (set_devices NULL) ;;
  ret ctx.

(** [cl4_context_properties_default_free(properties, ctx_props)] *)
Definition cl4_context_properties_default_free (properties ctx_props : Z) : M unit :=
  if properties =? NULL
  then g_slice_free1 (3 * sizeof_cl_context_properties) ctx_props
  else ret tt.

(** [cl4_context_properties_default(properties, device, err)]: the
    properties to use and the updated [err]. *)
Definition cl4_context_properties_default (properties device : Z) (err : errloc)
    : M (Z * errloc) :=
  if device =? NULL then g_critical "device != NULL" ;; ret (NULL, err) else
  if negb (err_null_or_unset err) then
    g_critical "err == NULL || *err == NULL" ;; ret (NULL, err) else
  if properties =? NULL then
    ctx_props <- g_slice_alloc (3 * sizeof_cl_context_properties) ;;
    r <- cl4_device_info_value device ;;
    match r with
    | inr err_internal =>
        err <- g_propagate_error err err_internal ;;
        (* error_handler: *)
        g_assert (err_null_or_set err) "err == NULL || *err != NULL" ;;
        ret (ctx_props, err)
    | inl platf =>
        write_cell ctx_props 0 CL_CONTEXT_PLATFORM ;;
        write_cell ctx_props 1 platf ;;
        write_cell ctx_props 2 0 ;;
        g_assert (err_null_or_unset err) "err == NULL || *err == NULL" ;;
        ret (ctx_props, err)
    end
  else
    g_assert (err_null_or_unset err) "err == NULL || *err == NULL" ;;
    ret (properties, err).

(** The loop of [cl4_context_init_devices]:
    [ctx->devices[i] = cl4_device_new(info_devs->value[i])]. *)
Fixpoint init_devices_loop (ctx : Z) (info_devs : CL4WrapperInfo) (i : Z) (count : nat)
    : M unit :=
  match count with
  | O => ret tt
  | S k =>
      match value info_devs !! Z.to_nat i with
      | None => fail (OutOfBounds NULL i)
      | Some id =>
          d <- cl4_device_new id ;;
          c <- load_context ctx ;;
          write_cell (devices c) i d ;;
          init_devices_loop ctx info_devs (i + 1) k
      end
  end.

(** [cl4_context_init_devices(ctx, err)]: returns the updated [err]. *)
Definition cl4_context_init_devices (ctx : Z) (err : errloc) : M errloc :=
  if negb (err_null_or_unset err) then
    g_critical "err == NULL || *err == NULL" ;; ret err else
  if ctx =? NULL then g_critical "ctx != NULL" ;; ret err else
  c <- load_context ctx ;;
  if devices c =? NULL then
    r <- cl4_context_info ctx ;;
    match r with
    | inr err_internal =>
        err <- g_propagate_error err err_internal ;;
        (* error_handler: *)
        g_assert (err_null_or_set err) "err == NULL || *err != NULL" ;;
        ret err
    | inl info_devs =>
        update_context ctx
          (set_num_devices (to_cl_uint (size info_devs / sizeof_cl_device_id))) ;;
        c <- load_context ctx ;;
        arr <- cl4_context_device_wrappers_new (num_devices c) ;;
        update_context ctx (set_devices arr) ;;
        init_devices_loop ctx info_devs 0 (Z.to_nat (num_devices c)) ;;
        g_assert (err_null_or_unset err) "err == NULL || *err == NULL" ;;
        ret err
    end
  else
    g_assert (err_null_or_unset err) "err == NULL || *err == NULL" ;;
    ret err.

(** [g_slice_free(CL4Context, mem)] *)
Definition g_slice_free (mem : Z) : M unit :=
  if mem =? NULL then ret tt else dealloc mem.

(** [cl4_context_destroy(ctx)]: the loop releasing the devices. *)
Fixpoint destroy_devices_loop (ctx : Z) (i : Z) (count : nat) : M unit :=
  match count with
  | O => ret tt
  | S k =>
      c <- load_context ctx ;;
      d <- read_cell (devices c) i ;;
      (if d =? NULL then ret tt else cl4_device_unref d) ;;
      destroy_devices_loop ctx (i + 1) k
  end.

Definition cl4_context_destroy (ctx : Z) : M unit :=
  if ctx =? NULL then g_critical "ctx != NULL" else
  context <- cl4_wrapper_unref ctx ;;
  if context =? NULL then ret tt
  else
    c <- load_context ctx ;;
    (if devices c =? NULL then ret tt
     else
       destroy_devices_loop ctx 0 (Z.to_nat (num_devices c)) ;;
       g_free (devices c)) ;;
    c <- load_context ctx ;;
    (if platform c =? NULL then ret tt else cl4_platform_unref (platform c)) ;;
    g_slice_free ctx ;;
    cl4_wrapper_release_cl_object context.

(** [cl4_context_new_from_filters_full]: the code after label [finish]. *)
Definition filters_finish (properties ctx devs cl_devices ctx_props : Z) (err : errloc)
    : M (Z * errloc) :=
  cl4_context_properties_default_free properties ctx_props ;;
  a <- load_ptr_array devs ;;
  g_slice_free1 (len a * sizeof_cl_device_id) cl_devices ;;
  g_ptr_array_free devs false ;;
  ret (ctx, err).

(** [cl4_context_new_from_filters_full]: the code after label
    [error_handler], which falls through to [finish]. *)
Definition filters_error_handler (properties ctx devs cl_devices ctx_props : Z)
    (err : errloc) : M (Z * errloc) :=
  g_assert (err_null_or_set err) "err == NULL || *err != NULL" ;;
  cl4_context_destroy ctx ;;
  (if devs =? NULL then ret tt
   else a <- load_ptr_array devs ;; g_free (pdata a)) ;;
  filters_finish properties NULL devs cl_devices ctx_props err.

(** [cl4_context_new_from_filters_full]: the loop that compares platforms
    and unwraps the selected devices.  [Some e] is a jump to
    [error_handler] with [err_internal] holding [e]. *)
Fixpoint filters_unwrap_loop (devs cl_devices p_base : Z) (i : Z) (count : nat)
    : M (option GError) :=
  match count with
  | O => ret None
  | S k =>
      a <- load_ptr_array devs ;;
      d0 <- read_cell (pdata a) 0 ;;
      r <- cl4_device_info_value d0 ;;
      match r with
      | inr err_internal => ret (Some err_internal)
      | inl p_cmp =>
          g_warn_if_fail (p_cmp =? p_base) "p_cmp == p_base" ;;
          di <- read_cell (pdata a) i ;;
          id <- cl4_device_unwrap di ;;
          write_cell cl_devices i id ;;
          filters_unwrap_loop devs cl_devices p_base (i + 1) k
      end
  end.

(** [cl4_context_new_from_filters_full], from "Determine context
    properties" to the end of the function; [a] is the selected array
    [devs] points to. *)
Definition filters_create (properties ctx devs : Z) (a : GPtrArray) (cl_devices : Z)
    (pfn_notify user_data : Z) (err : errloc) : M (Z * errloc) :=
  d0 <- read_cell (pdata a) 0 ;;
  pd <- cl4_context_properties_default properties d0 (Some None) ;;
  let ctx_props := fst pd in
  match snd pd with
  | Some (Some err_internal) =>
      err <- g_propagate_error err err_internal ;;
      filters_error_handler properties ctx devs cl_devices ctx_props err
  | _ =>
  ids <- load_array cl_devices ;;
  cr <- clCreateContext ctx_props (len a) ids pfn_notify user_data ;;
  update_context ctx (set_cl_object (fst cr)) ;;
  if negb (CL_SUCCESS =? snd cr) then
    err <- g_set_error err CL4_ERROR CL4_ERROR_OCL
             "Function '%s': unable to create cl_context (OpenCL error %d: %s)."
             [ArgStr "cl4_context_new_from_filters_full"; ArgInt (snd cr);
              ArgOclErr (snd cr)] ;;
    filters_error_handler properties ctx devs cl_devices ctx_props err
  else
  update_context ctx (set_num_devices (len a)) ;;
  update_context ctx (set_devices (pdata a)) ;;
  g_assert (err_null_or_unset err) "err == NULL || *err == NULL" ;;
  filters_finish properties ctx devs cl_devices ctx_props err
  end.

Definition cl4_context_new_from_filters_full (properties : Z)
    (filters : option CL4DevSelFilters) (pfn_notify user_data : Z) (err : errloc)
    : M (Z * errloc) :=
  match filters with
  | None => g_critical "filters != NULL" ;; ret (NULL, err)
  | Some chain =>
  if negb (err_null_or_unset err) then
    g_critical "err == NULL || *err == NULL" ;; ret (NULL, err) else
  ctx <- cl4_context_new_internal ;;
  sel <- cl4_devsel_select chain ;;
  let devs := fst sel in
  match snd sel with
  | Some err_internal =>
      err <- g_propagate_error err err_internal ;;
      filters_error_handler properties ctx devs NULL NULL err
  | None =>
  a <- load_ptr_array devs ;;
  if len a =? 0 then
    err <- g_set_error err CL4_ERROR CL4_ERROR_DEVICE_NOT_FOUND
             "Function '%s': no device found for selected filters."
             [ArgStr "cl4_context_new_from_filters_full"] ;;
    filters_error_handler properties ctx devs NULL NULL err
  else
  cl_devices <- g_slice_alloc (len a * sizeof_cl_device_id) ;;
  d0 <- read_cell (pdata a) 0 ;;
  r <- cl4_device_info_value d0 ;;
  match r with
  | inr err_internal =>
      err <- g_propagate_error err err_internal ;;
      filters_error_handler properties ctx devs cl_devices NULL err
  | inl p_base =>
  r <- filters_unwrap_loop devs cl_devices p_base 0 (Z.to_nat (len a)) ;;
  match r with
  | Some err_internal =>
      err <- g_propagate_error err err_internal ;;
      filters_error_handler properties ctx devs cl_devices NULL err
  | None =>
  filters_create properties ctx devs a cl_devices pfn_notify user_data err
  end end end end.

(** [cl4_context_new_from_filters(filters, err)] *)
Definition cl4_context_new_from_filters (filters : option CL4DevSelFilters)
    (err : errloc) : M (Z * errloc) :=
  cl4_context_new_from_filters_full NULL filters NULL NULL err.

(** [cl4_context_new_from_cldevices_full]: the loop wrapping the devices.
    [false] is the early return of a failed [g_return_val_if_fail]. *)
Fixpoint cldevices_wrap_loop (ctx : Z) (devs : list Z) (i : Z) (count : nat) : M bool :=
  match count with
  | O => ret true
  | S k =>
      match devs !! Z.to_nat i with
      | None => fail (OutOfBounds NULL i)
      | Some id =>
          if id =? NULL then g_critical "devices[i] != NULL" ;; ret false
          else
            d <- cl4_device_new id ;;
            c <- load_context ctx ;;
            write_cell (devices c) i d ;;
            cldevices_wrap_loop ctx devs (i + 1) k
      end
  end.

(** [cl4_context_new_from_cldevices_full], from "Get a set of default
    context properties" to the end of the function. *)
Definition cldevices_create (properties ctx num : Z) (devs : list Z)
    (pfn_notify user_data : Z) (err : errloc) : M (Z * errloc) :=
  c <- load_context ctx ;;
  d0 <- read_cell (devices c) 0 ;;
  pd <- cl4_context_properties_default properties d0 (Some None) ;;
  let ctx_props := fst pd in
  cr <- clCreateContext ctx_props num (Some <$> devs) pfn_notify user_data ;;
  update_context ctx (set_cl_object (fst cr)) ;;
  if negb (CL_SUCCESS =? snd cr) then
    err <- g_set_error err CL4_ERROR CL4_ERROR_OCL
             "Function '%s': unable to create cl_context (OpenCL error %d: %s)."
             [ArgStr "cl4_context_new_from_cldevices_full"; ArgInt (snd cr);
              ArgOclErr (snd cr)] ;;
    (* error_handler: *)
    g_assert (err_null_or_set err) "err == NULL || *err != NULL" ;;
    cl4_context_destroy ctx ;;
    (* finish: *)
    cl4_context_properties_default_free properties ctx_props ;;
    ret (NULL, err)
  else
    g_assert (err_null_or_unset err) "err == NULL || *err == NULL" ;;
    (* finish: *)
    cl4_context_properties_default_free properties ctx_props ;;
    ret (ctx, err).

Definition cl4_context_new_from_cldevices_full (properties : Z) (num : Z)
    (devs : option (list Z)) (pfn_notify user_data : Z) (err : errloc)
    : M (Z * errloc) :=
  if negb (0 <? num) then g_critical "num_devices > 0" ;; ret (NULL, err) else
  match devs with
  | None => g_critical "devices != NULL" ;; ret (NULL, err)
  | Some devs =>
  if negb (err_null_or_unset err) then
    g_critical "err == NULL || *err == NULL" ;; ret (NULL, err) else
  ctx <- cl4_context_new_internal ;;
  update_context ctx (set_num_devices num) ;;
  arr <- cl4_context_device_wrappers_new num ;;
  update_context ctx (set_devices arr) ;;
  ok <- cldevices_wrap_loop ctx devs 0 (Z.to_nat num) ;;
  if negb ok then ret (NULL, err) else
  cldevices_create properties ctx num devs pfn_notify user_data err
  end.

Definition cl4_context_new_from_clcontext (context : Z) (err : errloc)
    : M (Z * errloc) :=
  if context =? NULL then g_critical "context != NULL" ;; ret (NULL, err) else
  if negb (err_null_or_unset err) then
    g_critical "err == NULL || *err == NULL" ;; ret (NULL, err) else
  ctx <- cl4_context_new_internal ;;
  update_context ctx (set_cl_object context) ;;
  ocl_status <- clRetainContext context ;;
  if negb (CL_SUCCESS =? ocl_status) then
    err <- g_set_error err CL4_ERROR CL4_ERROR_OCL
             "Function '%s': unable to retain cl_context (OpenCL error %d: %s)."
             [ArgStr "cl4_context_new_from_clcontext"; ArgInt ocl_status;
              ArgOclErr ocl_status] ;;
    (* error_handler: *)
    g_assert (err_null_or_set err) "err == NULL || *err != NULL" ;;
    cl4_context_destroy ctx ;;
    ret (NULL, err)
  else
    g_assert (err_null_or_unset err) "err == NULL || *err == NULL" ;;
    ret (ctx, err).

(** [cl4_context_new_from_indep_filter(filter, data, err)]; [filter] is
    [None] for a NULL function pointer. *)
Definition cl4_context_new_from_indep_filter (filter : option devsel_function)
    (data : Z) (err : errloc) : M (Z * errloc) :=
  if negb (err_null_or_unset err) then
    g_critical "err == NULL || *err == NULL" ;; ret (NULL, err) else
  let filters : CL4DevSelFilters := [] in
  let filters :=
    match filter with
    | Some f => filters ++ [IndepFilter f data]
    | None => filters
    end in
  let filters := filters ++ [DepFilter cl4_devsel_dep_platform NULL] in
  r <- cl4_context_new_from_filters (Some filters) (Some None) ;;
  match snd r with
  | Some (Some err_internal) =>
      err <- g_propagate_error err err_internal ;;
      g_assert (err_null_or_set err) "err == NULL || *err != NULL" ;;
      ret (fst r, err)
  | _ =>
      g_assert (err_null_or_unset err) "err == NULL || *err == NULL" ;;
      ret (fst r, err)
  end.

(** [cl4_context_get_device(ctx, index, err)] *)
Definition cl4_context_get_device (ctx : Z) (index : Z) (err : errloc)
    : M (Z * errloc) :=
  if negb (err_null_or_unset err) then
    g_critical "err == NULL || *err == NULL" ;; ret (NULL, err) else
  if ctx =? NULL then g_critical "ctx != NULL" ;; ret (NULL, err) else
  c <- load_context ctx ;;
  err_internal <- (if devices c =? NULL
                   then cl4_context_init_devices ctx (Some None)
                   else ret (Some None)) ;;
  match err_internal with
  | Some (Some e) =>
      err <- g_propagate_error err e ;;
      (* error_handler: *)
      g_assert (err_null_or_set err) "err == NULL || *err != NULL" ;;
      ret (NULL, err)
  | _ =>
      c <- load_context ctx ;;
      if negb (index <? num_devices c) then
        g_critical "index < ctx->num_devices" ;; ret (NULL, err)
      else
        g_assert (err_null_or_unset err) "err == NULL || *err == NULL" ;;
        device_ret <- read_cell (devices c) index ;;
        ret (device_ret, err)
  end.

(** [cl4_context_num_devices(ctx, err)] *)
Definition cl4_context_num_devices (ctx : Z) (err : errloc) : M (Z * errloc) :=
  if ctx =? NULL then g_critical "ctx != NULL" ;; ret (0, err) else
  if negb (err_null_or_unset err) then
    g_critical "err == NULL || *err == NULL" ;; ret (0, err) else
  c <- load_context ctx ;;
  err <- (if devices c =? NULL then cl4_context_init_devices ctx err else ret err) ;;
  c <- load_context ctx ;;
  ret (num_devices c, err).

End Context_wrapper.

(** ** Specification vocabulary *)

Definition wp {A} (m : M A) (Q : A -> world -> Prop) (w : world) : Prop :=
  match m w with
  | Done a w' => Q a w'
  | Fault _ _ => False
  end.

(** The value [g_propagate_error] leaves in an unset error output. *)
Definition propagated (err : errloc) (e : GError) : errloc :=
  match err with
  | None => None
  | Some _ => Some (Some e)
  end.

(** The state of the context wrapper [ctx] (holding [c] in world [w0]) once
    its device list of [n] devices was materialised from the handles [ids]:
    the device array is the block allocated first, followed by one fresh
    device wrapper per handle; nothing else changed. *)
Definition materialized (w0 : world) (ctx : Z) (c : cl4_context) (ids : list Z)
    (n : Z) (w' : world) : Prop :=
  let arr := if decide (n = 0) then NULL else next w0 in
  heap w' !! ctx = Some (BContext (mkContext (base c) (platform c) n arr)) /\
  (n ≠ 0 -> heap w' !! arr = Some (BArray (Some <$> seqZ (next w0 + 1) n))) /\
  (forall j, 0 <= j < n ->
     exists id, ids !! Z.to_nat j = Some id /\
       heap w' !! (next w0 + 1 + j) =
         Some (BDevice (mkDevice (mkWrapper id 1) None))) /\
  (forall p, p < next w0 -> p ≠ ctx -> heap w' !! p = heap w0 !! p) /\
  next w' = (if decide (n = 0) then next w0 else next w0 + 1 + n).

(** What one [cl4_device_unref] leaves of the device wrapper at [d]. *)
Definition unref_block (h : gmap Z block) (d : Z) : option block :=
  match h !! d with
  | Some (BDevice dv) =>
      if ref_count (dev_base dv) - 1 =? 0 then None
      else Some (BDevice (mkDevice (mkWrapper (cl_object (dev_base dv))
                                              (ref_count (dev_base dv) - 1))
                                   (dev_platform dv)))
  | o => o
  end.

(** The events of releasing slot [d] of a device array: nothing for a NULL
    slot, else one unref, followed by the native release when the count of
    the wrapper reaches 0. *)
Definition unref_events (h : gmap Z block) (d : Z) : list event :=
  if d =? NULL then []
  else match h !! d with
       | Some (BDevice dv) =>
           EvDeviceUnref d ::
           (if ref_count (dev_base dv) - 1 =? 0
            then [EvReleaseDevice (cl_object (dev_base dv))] else [])
       | _ => []
       end.

(** The same for the optional platform wrapper. *)
Definition platform_unref_events (h : gmap Z block) (p : Z) : list event :=
  if p =? NULL then []
  else match h !! p with
       | Some (BPlatform pw) =>
           EvPlatformUnref p ::
           (if ref_count pw - 1 =? 0 then [EvReleasePlatform (cl_object pw)] else [])
       | _ => []
       end.

(** The heap after one [cl4_device_unref] of the device wrapper at [d]. *)
Definition unref_heap (h : gmap Z block) (d : Z) : gmap Z block :=
  match unref_block h d with
  | Some b => <[d := b]> h
  | None => delete d h
  end.

(** What one [cl4_platform_unref] leaves of the platform wrapper at [p]. *)
Definition unref_platform_block (h : gmap Z block) (p : Z) : option block :=
  match h !! p with
  | Some (BPlatform pw) =>
      if ref_count pw - 1 =? 0 then None
      else Some (BPlatform (mkWrapper (cl_object pw) (ref_count pw - 1)))
  | o => o
  end.

Definition is_device (h : gmap Z block) (d : Z) : Prop :=
  exists dv, h !! d = Some (BDevice dv).

(** The device wrappers [ds] a context wrapper owns: none while the device
    array is absent, else the [num_devices] slots of the device array;
    non-NULL slots hold distinct live device wrappers. *)
Definition owns_devices (h : gmap Z block) (c : cl4_context) (ds : list Z) : Prop :=
  (if decide (devices c = NULL) then ds = []
   else h !! devices c = Some (BArray (Some <$> ds)) /\
        Z.of_nat (length ds) = num_devices c) /\
  NoDup (filter (fun d => d ≠ NULL) ds) /\
  (forall d, d ∈ ds -> d ≠ NULL -> is_device h d).

(** The optional platform wrapper is live. *)
Definition owns_platform (h : gmap Z block) (c : cl4_context) : Prop :=
  platform c ≠ NULL -> exists pw, h !! platform c = Some (BPlatform pw).

(** The wrapper [cl4_context_new_internal] builds. *)
Definition empty_context : cl4_context := mkContext (mkWrapper NULL 1) NULL 0 NULL.

(** The error [cl4_context_new_from_clcontext] creates when the retain fails. *)
Definition retain_error (ocl_status : Z) : GError :=
  mkGError CL4_ERROR CL4_ERROR_OCL
    "Function '%s': unable to retain cl_context (OpenCL error %d: %s)."
    [ArgStr "cl4_context_new_from_clcontext"; ArgInt ocl_status; ArgOclErr ocl_status].

(** The error the filtered constructor creates for an empty candidate list. *)
Definition device_not_found_error : GError :=
  mkGError CL4_ERROR CL4_ERROR_DEVICE_NOT_FOUND
    "Function '%s': no device found for selected filters."
    [ArgStr "cl4_context_new_from_filters_full"].

(** The error a constructor creates when [clCreateContext] fails. *)
Definition create_error (func : string) (ocl_status : Z) : GError :=
  mkGError CL4_ERROR CL4_ERROR_OCL
    "Function '%s': unable to create cl_context (OpenCL error %d: %s)."
    [ArgStr func; ArgInt ocl_status; ArgOclErr ocl_status].

(** The answer of [cl4_device_info_value] for a device wrapper holding [dv]:
    the cached platform, else what the runtime says. *)
Definition platform_answer (env : Env) (tr : list event) (dv : cl4_device) : Z + GError :=
  match dev_platform dv with
  | Some p => inl p
  | None => env_device_platform env tr (cl_object (dev_base dv))
  end.

(** The runtime is asked only when nothing is cached. *)
Definition query_events (dv : cl4_device) : list event :=
  match dev_platform dv with
  | Some _ => []
  | None => [EvDeviceInfo (cl_object (dev_base dv))]
  end.

(** A successful answer is cached in the device wrapper. *)
Definition cache_platform (device : Z) (dv : cl4_device) (r : Z + GError)
    (hp : gmap Z block) : gmap Z block :=
  match dev_platform dv, r with
  | None, inl p => <[device := BDevice (mkDevice (dev_base dv) (Some p))]> hp
  | _, _ => hp
  end.

(** The default property list for platform [p]. *)
Definition default_properties (p : Z) : list (option Z) :=
  [Some CL_CONTEXT_PLATFORM; Some p; Some 0].

(** The heap after [cl4_context_properties_default_free]. *)
Definition free_default (properties ctx_props : Z) (hp : gmap Z block) : gmap Z block :=
  if properties =? NULL then delete ctx_props hp else hp.

(** The device wrappers [ds] wrap the handles [ids], one each, with
    reference count 1. *)
Definition wraps (hp : gmap Z block) (ds ids : list Z) : Prop :=
  length ds = length ids /\
  (forall j d id, ds !! j = Some d -> ids !! j = Some id ->
     d ≠ NULL /\ exists plat, hp !! d = Some (BDevice (mkDevice (mkWrapper id 1) plat))).

(** A wrapper [ctx] over the OpenCL context [h] whose device array [arr]
    holds the distinct device wrappers [ds], one per handle of [ids]. *)
Definition built (hp : gmap Z block) (ctx h arr : Z) (ds ids : list Z) : Prop :=
  hp !! ctx = Some (BContext (mkContext (mkWrapper h 1) NULL (Z.of_nat (length ds)) arr)) /\
  arr ≠ NULL /\ hp !! arr = Some (BArray (Some <$> ds)) /\
  NoDup ds /\ wraps hp ds ids.

(** The property list the explicit-devices constructor hands to
    [clCreateContext] when [properties] is NULL: the default list for the
    platform of the first device, or uninitialised memory when the platform
    query fails. *)
Definition synthesized_properties (r : Z + GError) : list (option Z) :=
  match r with
  | inl p => default_properties p
  | inr _ => [None; None; None]
  end.

(** The state of the explicit-devices constructor right before
    [clCreateContext]: the wrapper [next w] with its device array and
    wrappers, and the property list [cells] at [ctx_props]. *)
Definition cldevices_staged (w : world) (num : Z) (devs : list Z) (ctx_props : Z)
    (cells : list (option Z)) (w3 : world) : Prop :=
  heap w3 !! next w =
    Some (BContext (mkContext (mkWrapper NULL 1) NULL num (next w + 1))) /\
  heap w3 !! (next w + 1) = Some (BArray (Some <$> seqZ (next w + 2) num)) /\
  wraps (heap w3) (seqZ (next w + 2) num) devs /\
  ctx_props ≠ NULL /\ heap w3 !! ctx_props = Some (BArray cells) /\
  (ctx_props < next w \/ next w + 2 + num <= ctx_props) /\
  (forall p, p < next w -> heap w3 !! p = heap w !! p).

(** The state of the filtered constructor after its loop: the empty
    wrapper [next w], the selected device wrappers (the first one with its
    platform cached), the candidate list with its element array, and the
    array of unwrapped handles. *)
Definition filters_selected (w : world) (ids : list Z) (p_base : Z) (w2 : world) : Prop :=
  let n0 := next w in
  let m := Z.of_nat (length ids) in
  heap w2 !! n0 = Some (BContext empty_context) /\
  wraps (heap w2) (seqZ (n0 + 1) m) ids /\
  (exists id0, ids !! 0%nat = Some id0 /\
     heap w2 !! (n0 + 1) = Some (BDevice (mkDevice (mkWrapper id0 1) (Some p_base)))) /\
  heap w2 !! (n0 + 1 + m) = Some (BArray (Some <$> seqZ (n0 + 1) m)) /\
  heap w2 !! (n0 + 2 + m) = Some (BPtrArray (mkPtrArray (n0 + 1 + m) m)) /\
  heap w2 !! (n0 + 3 + m) = Some (BArray (Some <$> ids)) /\
  (forall p, p < n0 -> heap w2 !! p = heap w !! p).

(** What a run returned, and the world it left. *)
Definition returned {A} (o : outcome A) : option A :=
  match o with
  | Done a _ => Some a
  | Fault _ _ => None
  end.

Definition final {A} (o : outcome A) : world :=
  match o with
  | Done _ w => w
  | Fault _ w => w
  end.

Definition is_warning (e : event) : bool :=
  if e is EvWarning _ then true else false.

Definition is_device_unref (e : event) : bool :=
  if e is EvDeviceUnref _ then true else false.

(** Every allocated address lies below the allocation counter. *)
Definition heap_bounded (w : world) : Prop :=
  forall p, next w <= p -> heap w !! p = None.

(** The filter chain [cl4_context_new_from_indep_filter] builds: the given
    independent filter, if any, followed by the same-platform filter. *)
Definition indep_filter_chain (filter : option devsel_function) (data : Z)
    : CL4DevSelFilters :=
  (if filter is Some f then [IndepFilter f data] else [])
  ++ [DepFilter cl4_devsel_dep_platform NULL].

(** A computation that, whenever it returns, leaves the heap below the
    allocation counter and never moves the counter back. *)
Definition keeps_bound {A} (m : M A) : Prop :=
  forall w a w', heap_bounded w -> m w = Done a w' ->
    heap_bounded w' /\ next w <= next w'.

(** The events of releasing the device wrappers at [d], [d + 1], ... that
    hold the last reference to the handles [ids]. *)
Fixpoint release_events (d : Z) (ids : list Z) : list event :=
  match ids with
  | [] => []
  | id :: rest => EvDeviceUnref d :: EvReleaseDevice id :: release_events (d + 1) rest
  end.

(** ** Test doubles of the environment *)

Definition query_failed : GError :=
  mkGError (GQuark_other 7) (CL4_ERROR_CODE 7) "query failed" [].

(** Two devices 101 and 102 on the platforms 11 and 12; context creation
    yields context 500, whose retain succeeds and whose device-list query
    answers the two devices. *)
Definition test_env : Env :=
  mkEnv
    (fun _ _ => inl [101; 102])
    (fun _ d => inl (if d =? 101 then 11 else 12))
    (fun _ _ _ _ _ _ => (500, CL_SUCCESS))
    (fun _ _ => CL_SUCCESS)
    (fun _ _ => inl (mkInfo [101; 102] 16)).

(** The same runtime, except that the device-list query fails the first
    time it is asked. *)
Definition flaky_env : Env :=
  mkEnv
    (env_select test_env) (env_device_platform test_env)
    (env_create_context test_env) (env_retain_context test_env)
    (fun tr _ => if existsb (fun e => if e is EvContextInfo _ then true else false) tr
                 then inl (mkInfo [101; 102] 16)
                 else inr query_failed).

(** The same runtime, except that the selection engine finds no device. *)
Definition no_device_env : Env :=
  mkEnv
    (fun _ _ => inl []) (env_device_platform test_env)
    (env_create_context test_env) (env_retain_context test_env)
    (env_context_devices test_env).

(** The same runtime, except that [clCreateContext] fails with
    [CL_OUT_OF_RESOURCES] and returns no context. *)
Definition create_fails_env : Env :=
  mkEnv
    (env_select test_env) (env_device_platform test_env)
    (fun _ _ _ _ _ _ => (NULL, -5))
    (env_retain_context test_env) (env_context_devices test_env).

(** The same runtime, except that the selection engine fails. *)
Definition select_fails_env : Env :=
  mkEnv
    (fun _ _ => inr query_failed) (env_device_platform test_env)
    (env_create_context test_env) (env_retain_context test_env)
    (env_context_devices test_env).

(** The same runtime, except that the platform of a device cannot be
    queried. *)
Definition platform_fails_env : Env :=
  mkEnv
    (env_select test_env) (fun _ _ => inr query_failed)
    (env_create_context test_env) (env_retain_context test_env)
    (env_context_devices test_env).

(** A heap with one context wrapper over context 500, not yet materialised. *)
Definition lazy_world : world :=
  mkWorld {[ 1 := BContext (mkContext (mkWrapper 500 1) NULL 0 NULL) ]} 2 [].

(** The same after one successful device-list query. *)
Definition materialized_world : world :=
  mkWorld (<[ 1 := BContext (mkContext (mkWrapper 500 1) NULL 2 2) ]>
           (<[ 2 := BArray [Some 3; Some 4] ]>
           (<[ 3 := BDevice (mkDevice (mkWrapper 101 1) None) ]>
           {[ 4 := BDevice (mkDevice (mkWrapper 102 1) None) ]}))) 5
          [EvContextInfo 500].

(** The same runtime as [test_env], except that [clRetainContext] fails. *)
Definition retain_fails_env : Env :=
  mkEnv
    (env_select test_env) (env_device_platform test_env)
    (env_create_context test_env) (fun _ _ => -34)
    (env_context_devices test_env).

(** The same runtime, except that the context reports an empty device
    list. *)
Definition zero_device_env : Env :=
  mkEnv
    (env_select test_env) (env_device_platform test_env)
    (env_create_context test_env) (env_retain_context test_env)
    (fun _ _ => inl (mkInfo [] 0)).

(** ** Proof rules *)

Lemma bind_done {A B} (m : M A) (k : A -> M B) w a w' :
  m w = Done a w' -> bind m k w = k a w'.
Proof. unfold bind. by intros ->. Qed.

Lemma bind_inv {A B} (m : M A) (k : A -> M B) w b w' :
  bind m k w = Done b w' -> exists a w0, m w = Done a w0 /\ k a w0 = Done b w'.
Proof. unfold bind. destruct (m w) as [a w0|]; [eauto|done]. Qed.

Lemma bind_assoc {A B C} (m : M A) (k : A -> M B) (k' : B -> M C) w :
  bind (bind m k) k' w = bind m (fun a => bind (k a) k') w.
Proof. unfold bind. by destruct (m w). Qed.

Lemma bind_ext {A B} (m : M A) (k k' : A -> M B) w :
  (forall a w', k a w' = k' a w') -> bind m k w = bind m k' w.
Proof. intros H. unfold bind. by destruct (m w). Qed.

Lemma wp_ext {A} (m m' : M A) Q w : m w = m' w -> wp m' Q w -> wp m Q w.
Proof. unfold wp. by intros ->. Qed.

Lemma wp_ret {A} (a : A) Q w : Q a w -> wp (ret a) Q w.
Proof. done. Qed.

Lemma wp_bind {A B} (m : M A) (k : A -> M B) Q w :
  wp m (fun a w' => wp (k a) Q w') w -> wp (bind m k) Q w.
Proof. unfold wp, bind. by destruct (m w). Qed.

Lemma wp_mono {A} (m : M A) (P Q : A -> world -> Prop) w :
  wp m P w -> (forall a w', P a w' -> Q a w') -> wp m Q w.
Proof. unfold wp. destruct (m w); auto. Qed.

Lemma wp_done {A} (m : M A) Q w a w' : m w = Done a w' -> Q a w' -> wp m Q w.
Proof. unfold wp. by intros ->. Qed.

Lemma wp_elim {A} (m : M A) Q w :
  wp m Q w -> exists a w', m w = Done a w' /\ Q a w'.
Proof. unfold wp. destruct (m w); [eauto|done]. Qed.

Lemma wp_emit e Q w :
  Q tt (mkWorld (heap w) (next w) (trace w ++ [e])) -> wp (emit e) Q w.
Proof. done. Qed.

Lemma wp_get_trace Q w : Q (trace w) w -> wp get_trace Q w.
Proof. done. Qed.

Lemma wp_load p b Q w :
  p ≠ NULL -> heap w !! p = Some b -> Q b w -> wp (load p) Q w.
Proof.
  intros Hp Hb HQ. unfold wp, load.
  destruct (Z.eqb_spec p NULL); [done|]. by rewrite Hb.
Qed.

Lemma wp_store p b Q w :
  Q tt (mkWorld (<[p := b]> (heap w)) (next w) (trace w)) -> wp (store p b) Q w.
Proof. done. Qed.

Lemma wp_alloc b Q w :
  Q (next w) (mkWorld (<[next w := b]> (heap w)) (next w + 1) (trace w)) ->
  wp (alloc b) Q w.
Proof. done. Qed.

Lemma wp_dealloc p b Q w :
  heap w !! p = Some b ->
  Q tt (mkWorld (delete p (heap w)) (next w) (trace w)) -> wp (dealloc p) Q w.
Proof. intros Hb HQ. unfold wp, dealloc. by rewrite Hb. Qed.

Lemma wp_load_context p c Q w :
  p ≠ NULL -> heap w !! p = Some (BContext c) -> Q c w -> wp (load_context p) Q w.
Proof.
  intros Hp Hb HQ. apply wp_bind. eapply wp_load; [done..|]. by apply wp_ret.
Qed.

Lemma wp_load_device p d Q w :
  p ≠ NULL -> heap w !! p = Some (BDevice d) -> Q d w -> wp (load_device p) Q w.
Proof.
  intros Hp Hb HQ. apply wp_bind. eapply wp_load; [done..|]. by apply wp_ret.
Qed.

Lemma wp_load_platform p d Q w :
  p ≠ NULL -> heap w !! p = Some (BPlatform d) -> Q d w -> wp (load_platform p) Q w.
Proof.
  intros Hp Hb HQ. apply wp_bind. eapply wp_load; [done..|]. by apply wp_ret.
Qed.

Lemma wp_load_ptr_array p a Q w :
  p ≠ NULL -> heap w !! p = Some (BPtrArray a) -> Q a w -> wp (load_ptr_array p) Q w.
Proof.
  intros Hp Hb HQ. apply wp_bind. eapply wp_load; [done..|]. by apply wp_ret.
Qed.

Lemma wp_load_array p l Q w :
  p ≠ NULL -> heap w !! p = Some (BArray l) -> Q l w -> wp (load_array p) Q w.
Proof.
  intros Hp Hb HQ. apply wp_bind. eapply wp_load; [done..|]. by apply wp_ret.
Qed.

Lemma wp_update_context p f c Q w :
  p ≠ NULL -> heap w !! p = Some (BContext c) ->
  Q tt (mkWorld (<[p := BContext (f c)]> (heap w)) (next w) (trace w)) ->
  wp (update_context p f) Q w.
Proof.
  intros Hp Hb HQ. apply wp_bind. eapply wp_load_context; [done..|]. by apply wp_store.
Qed.

Lemma wp_read_cell p i l v Q w :
  p ≠ NULL -> heap w !! p = Some (BArray l) -> 0 <= i ->
  l !! Z.to_nat i = Some (Some v) -> Q v w -> wp (read_cell p i) Q w.
Proof.
  intros Hp Hb Hi Hl HQ. apply wp_bind. eapply wp_load_array; [done..|].
  destruct (Z.ltb_spec i 0); [lia|]. rewrite Hl. by apply wp_ret.
Qed.

Lemma wp_write_cell p i l v Q w :
  p ≠ NULL -> heap w !! p = Some (BArray l) -> 0 <= i < Z.of_nat (length l) ->
  Q tt (mkWorld (<[p := BArray (<[Z.to_nat i := Some v]> l)]> (heap w)) (next w) (trace w)) ->
  wp (write_cell p i v) Q w.
Proof.
  intros Hp Hb Hi HQ. apply wp_bind. eapply wp_load_array; [done..|].
  destruct (Z.ltb_spec i 0); [lia|].
  destruct (Z.leb_spec (Z.of_nat (length l)) i); [lia|]. by apply wp_store.
Qed.

Lemma wp_g_assert c s Q w : c = true -> Q tt w -> wp (g_assert c s) Q w.
Proof. by intros ->. Qed.

Lemma wp_g_free_null Q w : Q tt w -> wp (g_free NULL) Q w.
Proof. done. Qed.

Lemma wp_g_free p b Q w :
  p ≠ NULL -> heap w !! p = Some b ->
  Q tt (mkWorld (delete p (heap w)) (next w) (trace w)) -> wp (g_free p) Q w.
Proof.
  intros Hp Hb HQ. unfold g_free. destruct (Z.eqb_spec p NULL); [done|].
  by eapply wp_dealloc.
Qed.

Lemma wp_g_propagate_error err e Q w :
  err_null_or_unset err = true -> Q (propagated err e) w ->
  wp (g_propagate_error err e) Q w.
Proof. by destruct err as [[?|]|]. Qed.

Lemma propagated_null_or_set err e : err_null_or_set (propagated err e) = true.
Proof. by destruct err as [[?|]|]. Qed.

Lemma cells_seqZ (cells : list (option Z)) m n :
  length cells = Z.to_nat n ->
  (forall j, 0 <= j < n -> cells !! Z.to_nat j = Some (Some (m + j))) ->
  cells = Some <$> seqZ m n.
Proof.
  intros Hl Hc. apply list_eq. intros i. rewrite list_lookup_fmap.
  destruct (decide (Z.of_nat i < n)) as [Hi|Hi].
  - rewrite lookup_seqZ_lt by done. specialize (Hc (Z.of_nat i)).
    rewrite Nat2Z.id in Hc. rewrite Hc by lia. done.
  - rewrite lookup_seqZ_ge by lia. apply lookup_ge_None_2. lia.
Qed.

Lemma to_cl_uint_range n : 0 <= to_cl_uint n < 2 ^ 32.
Proof. unfold to_cl_uint. apply Z.mod_pos_bound. lia. Qed.

Section Proofs.
Variable env : Env.

Lemma wp_cl4_context_info ctx c Q w :
  ctx ≠ NULL -> heap w !! ctx = Some (BContext c) ->
  Q (env_context_devices env (trace w) (cl_object (base c)))
    (mkWorld (heap w) (next w) (trace w ++ [EvContextInfo (cl_object (base c))])) ->
  wp (cl4_context_info env ctx) Q w.
Proof.
  intros Hp Hb HQ. apply wp_bind. eapply wp_load_context; [done..|].
  apply wp_bind, wp_get_trace, wp_bind, wp_emit. by apply wp_ret.
Qed.

(** Failure of the device-list query: nothing is written. *)
Lemma init_devices_fails ctx c err e w :
  ctx ≠ NULL -> heap w !! ctx = Some (BContext c) -> devices c = NULL ->
  err_null_or_unset err = true ->
  env_context_devices env (trace w) (cl_object (base c)) = inr e ->
  cl4_context_init_devices env ctx err w =
  Done (propagated err e)
       (mkWorld (heap w) (next w) (trace w ++ [EvContextInfo (cl_object (base c))])).
Proof.
  intros Hp Hb Hd He Hq.
  enough (wp (cl4_context_init_devices env ctx err)
            (fun r w' => r = propagated err e /\
               w' = mkWorld (heap w) (next w)
                      (trace w ++ [EvContextInfo (cl_object (base c))])) w) as H.
  { apply wp_elim in H as (a & w' & -> & -> & ->). done. }
  unfold cl4_context_init_devices. rewrite He. cbn [negb].
  destruct (Z.eqb_spec ctx NULL); [done|].
  apply wp_bind. eapply wp_load_context; [done..|]. rewrite Hd. cbn.
  apply wp_bind. eapply wp_cl4_context_info; [done..|]. rewrite Hq.
  apply wp_bind. apply wp_g_propagate_error; [done|].
  apply wp_bind. apply wp_g_assert; [apply propagated_null_or_set|].
  by apply wp_ret.
Qed.

(** The loop of [cl4_context_init_devices] wraps [count] handles, starting
    at index [i], into fresh device wrappers and stores them in the device
    array of the context. *)
Lemma wp_init_devices_loop ctx c info count : forall i w cells,
  ctx ≠ NULL -> devices c ≠ NULL ->
  heap w !! ctx = Some (BContext c) ->
  heap w !! devices c = Some (BArray cells) ->
  ctx < next w -> devices c < next w -> 0 < next w ->
  0 <= i ->
  i + Z.of_nat count <= Z.of_nat (length cells) ->
  i + Z.of_nat count <= Z.of_nat (length (value info)) ->
  wp (init_devices_loop ctx info i count)
     (fun _ w' =>
        next w' = next w + Z.of_nat count /\ trace w' = trace w /\
        (exists cells',
            heap w' !! devices c = Some (BArray cells') /\
            length cells' = length cells /\
            (forall j, 0 <= j -> ~ (i <= j < i + Z.of_nat count) ->
                       cells' !! Z.to_nat j = cells !! Z.to_nat j) /\
            (forall j, i <= j < i + Z.of_nat count ->
                       cells' !! Z.to_nat j = Some (Some (next w + (j - i))))) /\
        (forall j, i <= j < i + Z.of_nat count ->
           exists id, value info !! Z.to_nat j = Some id /\
             heap w' !! (next w + (j - i)) =
               Some (BDevice (mkDevice (mkWrapper id 1) None))) /\
        (forall p, p < next w -> p ≠ devices c -> heap w' !! p = heap w !! p)) w.
Proof.
  intros i w cells Hctx Harr. revert i w cells.
  induction count as [|k IH]; intros i w cells Hc Ha Hlt1 Hlt2 Hnx Hi Hlen Hval.
  - apply wp_ret. repeat split; [lia|..].
    + exists cells. repeat split; [done..|intros; lia].
    + intros; lia.
  - cbn [init_devices_loop].
    assert (ctx ≠ devices c) as Hca by (intros E; rewrite E in Hc; congruence).
    destruct (value info !! Z.to_nat i) as [id|] eqn:Hid; last first.
    { apply lookup_ge_None in Hid. lia. }
    apply wp_bind, wp_alloc.
    apply wp_bind. eapply wp_load_context; [done| |].
    { cbn. rewrite lookup_insert_ne by lia. done. }
    apply wp_bind. eapply wp_write_cell;
      [done|cbn; rewrite lookup_insert_ne by lia; done|lia|].
    cbn [heap next trace].
    eapply wp_mono.
    { apply (IH (i + 1) _ (<[Z.to_nat i := Some (next w)]> cells)); cbn [heap next trace].
      - rewrite lookup_insert_ne by done. rewrite lookup_insert_ne by lia. done.
      - by rewrite lookup_insert_eq.
      - lia.
      - lia.
      - lia.
      - lia.
      - rewrite length_insert. lia.
      - lia. }
    cbn [heap next trace].
    intros _ w' (Hn' & Ht' & (cells' & Hc' & Hl' & Hout & Hin) & Hdev & Hframe).
    split; [lia|]. split; [done|]. split; [|split].
    + exists cells'. split; [done|]. split; [by rewrite Hl', length_insert|]. split.
      * intros j Hj0 Hj. rewrite Hout by lia.
        apply list_lookup_insert_ne. lia.
      * intros j Hj. destruct (decide (j = i)) as [->|Hne].
        -- rewrite Hout by lia. rewrite list_lookup_insert_eq by lia.
           do 2 f_equal. lia.
        -- rewrite Hin by lia. do 2 f_equal. lia.
    + intros j Hj. destruct (decide (j = i)) as [->|Hne].
      * exists id. split; [done|].
        rewrite Hframe by lia. rewrite lookup_insert_ne by lia.
        replace (next w + (i - i)) with (next w) by lia.
        by rewrite lookup_insert_eq.
      * destruct (Hdev j) as (id' & Hid' & Hd'); [lia|].
        exists id'. split; [done|]. rewrite <- Hd'. f_equal. lia.
    + intros p Hp Hpa. rewrite Hframe by lia.
      rewrite lookup_insert_ne by done. rewrite lookup_insert_ne by lia. done.
Qed.

(** Success of the device-list query: the device list is materialised. *)
Lemma wp_init_devices_ok ctx c err info w :
  0 < ctx < next w -> heap w !! ctx = Some (BContext c) -> devices c = NULL ->
  err_null_or_unset err = true ->
  env_context_devices env (trace w) (cl_object (base c)) = inl info ->
  to_cl_uint (size info / sizeof_cl_device_id) <= Z.of_nat (length (value info)) ->
  wp (cl4_context_init_devices env ctx err)
     (fun r w' =>
        r = err /\
        trace w' = trace w ++ [EvContextInfo (cl_object (base c))] /\
        materialized w ctx c (value info)
          (to_cl_uint (size info / sizeof_cl_device_id)) w') w.
Proof.
  intros Hp Hb Hd He Hq Hlen.
  pose proof (to_cl_uint_range (size info / sizeof_cl_device_id)) as Hn.
  remember (to_cl_uint (size info / sizeof_cl_device_id)) as n eqn:En.
  unfold cl4_context_init_devices. rewrite He. cbn [negb].
  destruct (Z.eqb_spec ctx NULL) as [E|_]; [unfold NULL in E; lia|].
  assert (ctx ≠ NULL) as Hctx by (unfold NULL; lia).
  apply wp_bind. eapply wp_load_context; [done..|]. rewrite Hd. cbn [Z.eqb NULL].
  apply wp_bind. eapply wp_cl4_context_info; [done..|]. rewrite Hq.
  apply wp_bind. eapply wp_update_context; [done..|]. rewrite <- En.
  apply wp_bind. eapply wp_load_context; [done|cbn; apply lookup_insert_eq|].
  cbn [num_devices set_num_devices].
  apply wp_bind. unfold cl4_context_device_wrappers_new, g_new0.
  destruct (Z.eqb_spec n 0) as [E0|E0].
  - apply wp_ret.
    apply wp_bind. eapply wp_update_context; [done|cbn; apply lookup_insert_eq|].
    rewrite E0. cbn [Z.to_nat init_devices_loop heap next trace].
    apply wp_bind, wp_ret. apply wp_bind, wp_g_assert; [done|]. apply wp_ret.
    split; [done|]. split; [done|]. unfold materialized. cbn [heap next trace].
    rewrite !decide_True by done.
    split; [|split; [done|split; [intros; lia|split; [|done]]]].
    + rewrite lookup_insert_eq. done.
    + intros p _ Hne. by rewrite !lookup_insert_ne.
  - apply wp_alloc.
    apply wp_bind. eapply wp_update_context; [done| |].
    { cbn. rewrite lookup_insert_ne by lia. apply lookup_insert_eq. }
    cbn [heap next trace set_devices set_num_devices base platform num_devices].
    apply wp_bind. eapply wp_mono.
    { eapply (wp_init_devices_loop ctx (mkContext (base c) (platform c) n (next w))
                info (Z.to_nat n) 0 _ (replicate (Z.to_nat n) (Some 0)));
        cbn [heap next trace devices]; try lia.
      - unfold NULL; lia.
      - apply lookup_insert_eq.
      - rewrite lookup_insert_ne by lia. apply lookup_insert_eq.
      - rewrite length_replicate. lia. }
    cbn [heap next trace devices].
    intros _ w' (Hn' & Ht' & (cells' & Hc' & Hl' & _ & Hin) & Hdev & Hframe).
    apply wp_bind, wp_g_assert; [done|]. apply wp_ret.
    split; [done|]. split; [done|]. unfold materialized.
    rewrite !decide_False by done.
    split; [|split; [|split; [|split]]].
    + rewrite Hframe by lia. apply lookup_insert_eq.
    + intros _. rewrite Hc'. do 2 f_equal. apply cells_seqZ.
      { rewrite Hl', length_replicate. done. }
      intros j Hj. rewrite Hin by lia. do 2 f_equal. lia.
    + intros j Hj. destruct (Hdev j) as (id & Hid & Hd'); [lia|].
      exists id. split; [done|]. rewrite <- Hd'. f_equal. lia.
    + intros p Hp' Hne. rewrite Hframe by lia.
      rewrite lookup_insert_ne by done. rewrite lookup_insert_ne by lia.
      by rewrite lookup_insert_ne.
    + lia.
Qed.

Lemma wp_eq {A} (m : M A) w a w' :
  wp m (fun r v => r = a /\ v = w') w -> m w = Done a w'.
Proof. intros H. apply wp_elim in H as (? & ? & -> & -> & ->). done. Qed.

(** *** The accessors on a materialised device list *)

Lemma num_devices_cached ctx c err w :
  ctx ≠ NULL -> heap w !! ctx = Some (BContext c) -> devices c ≠ NULL ->
  err_null_or_unset err = true ->
  cl4_context_num_devices env ctx err w = Done (num_devices c, err) w.
Proof.
  intros Hp Hb Hd He. apply wp_eq. unfold cl4_context_num_devices.
  destruct (Z.eqb_spec ctx NULL); [done|]. rewrite He. cbn [negb].
  apply wp_bind. eapply wp_load_context; [done..|].
  destruct (Z.eqb_spec (devices c) NULL); [done|].
  apply wp_bind, wp_ret. apply wp_bind. eapply wp_load_context; [done..|].
  by apply wp_ret.
Qed.

Lemma get_device_cached_out_of_range ctx c index err w :
  ctx ≠ NULL -> heap w !! ctx = Some (BContext c) -> devices c ≠ NULL ->
  err_null_or_unset err = true -> num_devices c <= index ->
  cl4_context_get_device env ctx index err w =
  Done (NULL, err)
       (mkWorld (heap w) (next w) (trace w ++ [EvCritical "index < ctx->num_devices"])).
Proof.
  intros Hp Hb Hd He Hi. apply wp_eq. unfold cl4_context_get_device.
  destruct (Z.eqb_spec ctx NULL); [done|]. rewrite He. cbn [negb].
  apply wp_bind. eapply wp_load_context; [done..|].
  destruct (Z.eqb_spec (devices c) NULL); [done|].
  apply wp_bind, wp_ret. apply wp_bind. eapply wp_load_context; [done..|].
  destruct (Z.ltb_spec index (num_devices c)); [lia|]. cbn [negb].
  apply wp_bind, wp_emit, wp_ret. done.
Qed.

Lemma get_device_cached_in_range ctx c index err cells d w :
  ctx ≠ NULL -> heap w !! ctx = Some (BContext c) -> devices c ≠ NULL ->
  err_null_or_unset err = true -> 0 <= index < num_devices c ->
  heap w !! devices c = Some (BArray cells) ->
  cells !! Z.to_nat index = Some (Some d) ->
  cl4_context_get_device env ctx index err w = Done (d, err) w.
Proof.
  intros Hp Hb Hd He Hi Ha Hc. apply wp_eq. unfold cl4_context_get_device.
  destruct (Z.eqb_spec ctx NULL); [done|]. rewrite He. cbn [negb].
  apply wp_bind. eapply wp_load_context; [done..|].
  destruct (Z.eqb_spec (devices c) NULL); [done|].
  apply wp_bind, wp_ret. apply wp_bind. eapply wp_load_context; [done..|].
  destruct (Z.ltb_spec index (num_devices c)); [|lia]. cbn [negb].
  apply wp_bind, wp_g_assert; [done|].
  apply wp_bind. eapply wp_read_cell; [done|done|lia|done|]. by apply wp_ret.
Qed.

(** *** The accessors on a device list not yet materialised *)

Lemma num_devices_lazy_fails ctx c err e w :
  ctx ≠ NULL -> heap w !! ctx = Some (BContext c) -> devices c = NULL ->
  err_null_or_unset err = true ->
  env_context_devices env (trace w) (cl_object (base c)) = inr e ->
  cl4_context_num_devices env ctx err w =
  Done (num_devices c, propagated err e)
       (mkWorld (heap w) (next w) (trace w ++ [EvContextInfo (cl_object (base c))])).
Proof.
  intros Hp Hb Hd He Hq. unfold cl4_context_num_devices.
  destruct (Z.eqb_spec ctx NULL); [done|]. rewrite He. cbn [negb].
  apply wp_eq.
  apply wp_bind. eapply wp_load_context; [done..|].
  rewrite Hd. cbn [Z.eqb NULL].
  apply wp_bind. eapply wp_done; [by eapply init_devices_fails|].
  apply wp_bind. eapply wp_load_context; [done..|]. by apply wp_ret.
Qed.

Lemma get_device_lazy_fails ctx c index err e w :
  ctx ≠ NULL -> heap w !! ctx = Some (BContext c) -> devices c = NULL ->
  err_null_or_unset err = true ->
  env_context_devices env (trace w) (cl_object (base c)) = inr e ->
  cl4_context_get_device env ctx index err w =
  Done (NULL, propagated err e)
       (mkWorld (heap w) (next w) (trace w ++ [EvContextInfo (cl_object (base c))])).
Proof.
  intros Hp Hb Hd He Hq. unfold cl4_context_get_device.
  destruct (Z.eqb_spec ctx NULL); [done|]. rewrite He. cbn [negb].
  apply wp_eq.
  apply wp_bind. eapply wp_load_context; [done..|].
  rewrite Hd. cbn [Z.eqb NULL].
  apply wp_bind. eapply wp_done; [by eapply init_devices_fails|].
  cbn [propagated].
  apply wp_bind, wp_g_propagate_error; [done|].
  apply wp_bind, wp_g_assert; [apply propagated_null_or_set|]. by apply wp_ret.
Qed.

Lemma wp_num_devices_lazy ctx c err info w :
  0 < ctx < next w -> heap w !! ctx = Some (BContext c) -> devices c = NULL ->
  err_null_or_unset err = true ->
  env_context_devices env (trace w) (cl_object (base c)) = inl info ->
  to_cl_uint (size info / sizeof_cl_device_id) <= Z.of_nat (length (value info)) ->
  wp (cl4_context_num_devices env ctx err)
     (fun r w' =>
        r = (to_cl_uint (size info / sizeof_cl_device_id), err) /\
        trace w' = trace w ++ [EvContextInfo (cl_object (base c))] /\
        materialized w ctx c (value info)
          (to_cl_uint (size info / sizeof_cl_device_id)) w') w.
Proof.
  intros Hp Hb Hd He Hq Hlen. unfold cl4_context_num_devices.
  destruct (Z.eqb_spec ctx NULL) as [E|_]; [unfold NULL in E; lia|].
  assert (ctx ≠ NULL) as Hctx by (unfold NULL; lia).
  rewrite He. cbn [negb].
  apply wp_bind. eapply wp_load_context; [done..|].
  rewrite Hd. cbn [Z.eqb NULL].
  apply wp_bind. eapply wp_mono; [by eapply wp_init_devices_ok|].
  intros r w' (-> & Ht & Hm).
  apply wp_bind. eapply wp_load_context; [done|apply Hm|].
  apply wp_ret. done.
Qed.

Lemma wp_get_device_lazy ctx c index err info w :
  0 < ctx < next w -> heap w !! ctx = Some (BContext c) -> devices c = NULL ->
  err_null_or_unset err = true ->
  env_context_devices env (trace w) (cl_object (base c)) = inl info ->
  to_cl_uint (size info / sizeof_cl_device_id) <= Z.of_nat (length (value info)) ->
  0 <= index ->
  wp (cl4_context_get_device env ctx index err)
     (fun r w' =>
        let n := to_cl_uint (size info / sizeof_cl_device_id) in
        r = (if index <? n then next w + 1 + index else NULL, err) /\
        trace w' = trace w ++ [EvContextInfo (cl_object (base c))] ++
                   (if index <? n then [] else [EvCritical "index < ctx->num_devices"]) /\
        exists w1, materialized w ctx c (value info) n w1 /\
                   heap w' = heap w1 /\ next w' = next w1) w.
Proof.
  intros Hp Hb Hd He Hq Hlen Hi. unfold cl4_context_get_device.
  destruct (Z.eqb_spec ctx NULL) as [E|_]; [unfold NULL in E; lia|].
  assert (ctx ≠ NULL) as Hctx by (unfold NULL; lia).
  rewrite He. cbn [negb].
  apply wp_bind. eapply wp_load_context; [done..|].
  rewrite Hd. cbn [Z.eqb NULL].
  apply wp_bind. eapply wp_mono; [by eapply wp_init_devices_ok|].
  intros r w' (-> & Ht & Hm).
  apply wp_bind. eapply wp_load_context; [done|apply Hm|].
  cbn [num_devices devices].
  destruct (Z.ltb_spec index (to_cl_uint (size info / sizeof_cl_device_id))) as [Hlt|Hge];
    cbn [negb].
  - apply wp_bind, wp_g_assert; [done|].
    pose proof Hm as (Hc' & Harr & Hdevs & Hframe & Hnx).
    rewrite decide_False in Harr by lia.
    rewrite decide_False by lia.
    apply wp_bind. eapply wp_read_cell; [unfold NULL; lia|apply Harr; lia|done| |].
    { rewrite list_lookup_fmap, lookup_seqZ_lt by lia. rewrite Z2Nat.id by lia. done. }
    apply wp_ret. split; [done|]. split; [by rewrite Ht|].
    by exists w'.
  - apply wp_bind, wp_emit, wp_ret. cbn [heap next trace].
    split; [done|]. split; [by rewrite Ht, <- app_assoc|]. by exists w'.
Qed.

(** *** Destruction *)

Lemma wp_cl4_device_unref d dv Q w :
  d ≠ NULL -> heap w !! d = Some (BDevice dv) ->
  Q tt (mkWorld (unref_heap (heap w) d) (next w)
               (trace w ++ unref_events (heap w) d)) ->
  wp (cl4_device_unref d) Q w.
Proof.
  intros Hd Hb. unfold unref_heap, unref_block, unref_events. rewrite Hb.
  destruct (Z.eqb_spec d NULL); [done|]. intros HQ.
  unfold cl4_device_unref. apply wp_bind, wp_emit.
  apply wp_bind. eapply wp_load_device; [done..|].
  destruct (ref_count (dev_base dv) - 1 =? 0).
  - apply wp_bind. eapply wp_dealloc; [done|]. apply wp_emit.
    cbn [heap next trace]. by rewrite <- app_assoc.
  - by apply wp_store.
Qed.

Lemma unref_heap_lookup_ne h d p : p ≠ d -> unref_heap h d !! p = h !! p.
Proof.
  intros Hne. unfold unref_heap.
  destruct (unref_block h d); by rewrite ?lookup_insert_ne, ?lookup_delete_ne.
Qed.

Lemma unref_heap_lookup_eq h d : unref_heap h d !! d = unref_block h d.
Proof.
  unfold unref_heap.
  destruct (unref_block h d) eqn:E; by rewrite ?lookup_insert_eq, ?lookup_delete_eq.
Qed.

Lemma unref_events_ext h h' p : h' !! p = h !! p -> unref_events h' p = unref_events h p.
Proof. unfold unref_events. by intros ->. Qed.

Lemma unref_block_ext h h' p : h' !! p = h !! p -> unref_block h' p = unref_block h p.
Proof. unfold unref_block. by intros ->. Qed.

Lemma is_device_not_context h d p c :
  is_device h d -> h !! p = Some (BContext c) -> d ≠ p.
Proof. intros [dv Hd] Hp ->. congruence. Qed.

Lemma is_device_not_array h d p l :
  is_device h d -> h !! p = Some (BArray l) -> d ≠ p.
Proof. intros [dv Hd] Hp ->. congruence. Qed.

Lemma is_device_not_platform h d p l :
  is_device h d -> h !! p = Some (BPlatform l) -> d ≠ p.
Proof. intros [dv Hd] Hp ->. congruence. Qed.

(** The loop of [cl4_context_destroy] over the slots [rest] that remain
    from index [i] on. *)
Lemma wp_destroy_devices_loop ctx c ds : forall rest i w,
  ctx ≠ NULL -> devices c ≠ NULL ->
  heap w !! ctx = Some (BContext c) ->
  heap w !! devices c = Some (BArray (Some <$> ds)) ->
  0 <= i -> drop (Z.to_nat i) ds = rest ->
  NoDup (filter (fun d => d ≠ NULL) rest) ->
  (forall d, d ∈ rest -> d ≠ NULL -> is_device (heap w) d) ->
  wp (destroy_devices_loop ctx i (length rest))
     (fun _ w' =>
        next w' = next w /\
        trace w' = trace w ++ concat (unref_events (heap w) <$> rest) /\
        (forall d, d ∈ rest -> d ≠ NULL -> heap w' !! d = unref_block (heap w) d) /\
        (forall p, p ∉ rest -> heap w' !! p = heap w !! p)) w.
Proof.
  intros rest. induction rest as [|d rest IH]; intros i w Hctx Harr Hc Ha Hi Hdrop Hnd Hlive.
  - apply wp_ret. cbn. rewrite app_nil_r.
    split; [done|]. split; [done|]. split; [by intros ? ?%elem_of_nil|done].
  - cbn [length destroy_devices_loop].
    assert (ds !! Z.to_nat i = Some d) as Hcell.
    { rewrite <- (Nat.add_0_r (Z.to_nat i)), <- lookup_drop, Hdrop. done. }
    assert (drop (Z.to_nat (i + 1)) ds = rest) as Hdrop'.
    { replace (Z.to_nat (i + 1)) with (S (Z.to_nat i)) by lia.
      rewrite (drop_S _ _ _ Hcell) in Hdrop. congruence. }
    apply wp_bind. eapply wp_load_context; [done..|].
    apply wp_bind. eapply wp_read_cell; [done|done|done| |].
    { rewrite list_lookup_fmap, Hcell. done. }
    apply wp_bind.
    destruct (Z.eqb_spec d NULL) as [->|Hd].
    + apply wp_ret. eapply wp_mono.
      { eapply (IH (i + 1) w); try done; [lia|].
        intros d' Hd'. apply Hlive. by right. }
      intros _ w' (Hn & Ht & Hdev & Hframe).
      split; [done|]. split; [by rewrite Ht|]. split.
      * intros d' [->|Hin]%elem_of_cons Hne; [done|]. by apply Hdev.
      * intros p Hp. apply Hframe. intros Hin. apply Hp. by right.
    + rewrite filter_cons_True in Hnd by done. apply NoDup_cons in Hnd as [Hnin Hnd].
      destruct (Hlive d) as [dv Hdv]; [by left|done|].
      assert (d ≠ ctx) as Hdc by (eapply is_device_not_context; [by exists dv|done]).
      assert (d ≠ devices c) as Hda by (eapply is_device_not_array; [by exists dv|done]).
      eapply wp_cl4_device_unref; [done..|].
      assert (forall d', d' ∈ rest -> d' ≠ NULL -> d' ≠ d) as Hother.
      { intros d' Hin Hne ->. apply Hnin. apply list_elem_of_filter. done. }
      eapply wp_mono.
      { eapply (IH (i + 1)); cbn [heap next trace]; try done.
        - by rewrite unref_heap_lookup_ne.
        - by rewrite unref_heap_lookup_ne.
        - lia.
        - intros d' Hin Hne. destruct (Hlive d') as [dv' Hdv']; [by right|done|].
          exists dv'. rewrite unref_heap_lookup_ne by auto. done. }
      cbn [heap next trace].
      intros _ w' (Hn & Ht & Hdev & Hframe).
      split; [done|]. split; [|split].
      * rewrite Ht, <- app_assoc. f_equal. cbn [fmap list_fmap concat]. f_equal.
        f_equal. apply list_fmap_ext. intros k d' Hk.
        unfold unref_events. destruct (Z.eqb_spec d' NULL); [done|].
        rewrite unref_heap_lookup_ne; [done|].
        apply Hother; [|done]. by eapply list_elem_of_lookup_2.
      * intros d' [->|Hin]%elem_of_cons Hne.
        -- destruct (decide (d ∈ rest)) as [Hin|Hnin'].
           ++ exfalso. by eapply Hother.
           ++ rewrite Hframe by done. apply unref_heap_lookup_eq.
        -- rewrite Hdev by done. apply unref_block_ext.
           apply unref_heap_lookup_ne. by apply Hother.
      * intros p Hp. rewrite Hframe.
        -- apply unref_heap_lookup_ne. intros ->. apply Hp. by left.
        -- intros Hin. apply Hp. by right.
Qed.

Lemma wp_cl4_platform_unref p pw Q w :
  p ≠ NULL -> heap w !! p = Some (BPlatform pw) ->
  Q tt (mkWorld (match unref_platform_block (heap w) p with
                 | Some b => <[p := b]> (heap w)
                 | None => delete p (heap w)
                 end) (next w)
               (trace w ++ platform_unref_events (heap w) p) ) ->
  wp (cl4_platform_unref p) Q w.
Proof.
  intros Hd Hb. unfold unref_platform_block, platform_unref_events. rewrite Hb.
  destruct (Z.eqb_spec p NULL); [done|]. intros HQ.
  unfold cl4_platform_unref. apply wp_bind, wp_emit.
  apply wp_bind. eapply wp_load_platform; [done..|].
  destruct (ref_count pw - 1 =? 0).
  - apply wp_bind. eapply wp_dealloc; [done|]. apply wp_emit.
    cbn [heap next trace]. by rewrite <- app_assoc.
  - by apply wp_store.
Qed.

(** [cl4_context_destroy] on a wrapper whose count stays above 0. *)
Lemma cl4_context_destroy_shared ctx c w :
  ctx ≠ NULL -> heap w !! ctx = Some (BContext c) -> ref_count (base c) ≠ 1 ->
  cl4_context_destroy ctx w =
  Done tt (mkWorld (<[ctx := BContext (set_ref_count (ref_count (base c) - 1) c)]> (heap w))
                   (next w) (trace w)).
Proof.
  intros Hp Hb Hrc. apply wp_eq. unfold cl4_context_destroy, cl4_wrapper_unref.
  destruct (Z.eqb_spec ctx NULL); [done|].
  apply wp_bind, wp_bind. eapply wp_load_context; [done..|].
  apply wp_bind, wp_store.
  destruct (Z.eqb_spec (ref_count (base c) - 1) 0); [lia|].
  apply wp_ret. cbn [Z.eqb NULL]. by apply wp_ret.
Qed.

(** [cl4_context_destroy] on the last reference of a wrapper. *)
Lemma wp_cl4_context_destroy_last ctx c ds w :
  ctx ≠ NULL -> heap w !! ctx = Some (BContext c) ->
  ref_count (base c) = 1 -> cl_object (base c) ≠ NULL ->
  owns_devices (heap w) c ds -> owns_platform (heap w) c ->
  wp (cl4_context_destroy ctx)
     (fun _ w' =>
        next w' = next w /\
        trace w' = trace w ++ concat (unref_events (heap w) <$> ds)
                     ++ platform_unref_events (heap w) (platform c)
                     ++ [EvReleaseContext (cl_object (base c))] /\
        heap w' !! ctx = None /\
        (devices c ≠ NULL -> heap w' !! devices c = None) /\
        (forall d, d ∈ ds -> d ≠ NULL -> heap w' !! d = unref_block (heap w) d) /\
        (platform c ≠ NULL ->
         heap w' !! platform c = unref_platform_block (heap w) (platform c)) /\
        (forall p, p ∉ ds -> p ≠ ctx ->
                   p ≠ devices c \/ devices c = NULL ->
                   p ≠ platform c \/ platform c = NULL ->
                   heap w' !! p = heap w !! p)) w.
Proof.
  intros Hp Hb Hrc Hobj (Harr & Hnd & Hlive) Hplat.
  unfold cl4_context_destroy, cl4_wrapper_unref.
  destruct (Z.eqb_spec ctx NULL); [done|].
  apply wp_bind, wp_bind. eapply wp_load_context; [done..|].
  apply wp_bind, wp_store. rewrite Hrc. cbn [Z.sub Z.add Z.opp Z.pos_sub Z.eqb].
  apply wp_ret. destruct (Z.eqb_spec (cl_object (base c)) NULL); [done|].
  set (c0 := set_ref_count 0 c).
  apply wp_bind. eapply wp_load_context; [done|cbn; apply lookup_insert_eq|].
  cbn [heap next trace].
  assert (forall d, d ∈ ds -> d ≠ NULL -> d ≠ ctx) as Hdctx.
  { intros d Hin Hne. eapply is_device_not_context; [by apply Hlive|done]. }
  assert (ctx ∉ ds) as Hctx_ds.
  { intros Hin. by apply (Hdctx ctx). }
  (* the device array *)
  assert (wp (if devices c0 =? NULL then ret tt
              else destroy_devices_loop ctx 0 (Z.to_nat (num_devices c0)) ;;
                   g_free (devices c0))%cmd
             (fun _ w' =>
                next w' = next w /\
                trace w' = trace w ++ concat (unref_events (heap w) <$> ds) /\
                heap w' !! ctx = Some (BContext c0) /\
                (devices c ≠ NULL -> heap w' !! devices c = None) /\
                (forall d, d ∈ ds -> d ≠ NULL -> heap w' !! d = unref_block (heap w) d) /\
                (forall p, p ∉ ds -> p ≠ ctx -> p ≠ devices c \/ devices c = NULL ->
                           heap w' !! p = heap w !! p))
             (mkWorld (<[ctx := BContext c0]> (heap w)) (next w) (trace w))) as Hloop.
  { cbn [devices c0 set_ref_count num_devices].
    destruct (Z.eqb_spec (devices c) NULL) as [Hd|Hd].
    - rewrite decide_True in Harr by done. subst ds. apply wp_ret.
      cbn [heap next trace fmap list_fmap concat]. rewrite app_nil_r.
      split; [done|]. split; [done|]. split; [apply lookup_insert_eq|].
      split; [done|]. split; [by intros ? ?%elem_of_nil|].
      intros p _ Hne _. by rewrite lookup_insert_ne.
    - rewrite decide_False in Harr by done. destruct Harr as [Ha Hlen].
      assert (ctx ≠ devices c) as Hca by (intros E; rewrite E in Hb; congruence).
      assert (devices c ∉ ds) as Harr_ds.
      { intros Hin. eapply is_device_not_array; [by apply Hlive|done..]. }
      apply wp_bind. rewrite <- Hlen, Nat2Z.id. eapply wp_mono.
      { eapply (wp_destroy_devices_loop ctx c0 ds ds 0);
          cbn [heap next trace devices c0 set_ref_count]; try done.
        - apply lookup_insert_eq.
        - by rewrite lookup_insert_ne.
        - intros d Hin Hne. destruct (Hlive d Hin Hne) as [dv Hdv]. exists dv.
          rewrite lookup_insert_ne; [done|]. intros ->. by apply (Hdctx d). }
      cbn [heap next trace].
      intros _ w' (Hn & Ht & Hdev & Hframe).
      eapply wp_g_free; [done| |].
      { rewrite Hframe by done. by rewrite lookup_insert_ne. }
      cbn [heap next trace].
      split; [done|]. split; [|split; [|split; [|split]]].
      + rewrite Ht. f_equal. f_equal. apply list_fmap_ext. intros k d Hk.
        unfold unref_events. destruct (Z.eqb_spec d NULL); [done|].
        rewrite lookup_insert_ne; [done|]. intros ->.
        apply (Hdctx d); [by eapply list_elem_of_lookup_2|done..].
      + rewrite lookup_delete_ne by done. rewrite Hframe by done. apply lookup_insert_eq.
      + intros _. apply lookup_delete_eq.
      + intros d Hin Hne. rewrite lookup_delete_ne.
        * rewrite Hdev by done. apply unref_block_ext. rewrite lookup_insert_ne; [done|].
          intros ->. by apply (Hdctx d).
        * intros E. subst d. done.
      + intros p Hpd Hpc [Hpa|Hpa]; [|done]. rewrite lookup_delete_ne by done.
        rewrite Hframe by done. by rewrite lookup_insert_ne. }
  apply wp_bind. eapply wp_mono; [exact Hloop|]. clear Hloop.
  intros _ w1 (Hn1 & Ht1 & Hc1 & Ha1 & Hd1 & Hf1).
  apply wp_bind. eapply wp_load_context; [done..|].
  cbn [platform c0 set_ref_count].
  assert (platform c ≠ NULL ->
          (platform c ∉ ds) /\ platform c ≠ ctx /\ platform c ≠ devices c) as Hpl.
  { intros Hne. destruct (Hplat Hne) as [pw Hpw]. split; [|split].
    - intros Hin. eapply is_device_not_platform; [by apply Hlive|done..].
    - intros E. rewrite E in Hpw. congruence.
    - intros E. destruct (decide (devices c = NULL)) as [Hd|Hd]; [congruence|].
      destruct Harr as [Ha _]. rewrite E in Hpw. congruence. }
  apply wp_bind.
  assert (wp (if platform c =? NULL then ret tt else cl4_platform_unref (platform c))
             (fun _ w' =>
                next w' = next w /\
                trace w' = trace w1 ++ platform_unref_events (heap w) (platform c) /\
                heap w' !! ctx = Some (BContext c0) /\
                (platform c ≠ NULL ->
                 heap w' !! platform c = unref_platform_block (heap w) (platform c)) /\
                (forall p, p ≠ platform c \/ platform c = NULL ->
                           heap w' !! p = heap w1 !! p)) w1) as Hp1.
  { unfold platform_unref_events.
    destruct (Z.eqb_spec (platform c) NULL) as [Hpn|Hpn].
    - apply wp_ret. by rewrite app_nil_r.
    - destruct (Hpl Hpn) as (Hp1 & Hp2 & Hp3). destruct (Hplat Hpn) as [pw Hpw].
      assert (heap w1 !! platform c = Some (BPlatform pw)) as Hpw1.
      { rewrite Hf1; [done..|by left]. }
      eapply wp_cl4_platform_unref; [done..|].
      cbn [heap next trace]. unfold platform_unref_events, unref_platform_block.
      destruct (Z.eqb_spec (platform c) NULL); [done|]. rewrite Hpw1, Hpw.
      split; [done|]. split; [done|].
      destruct (ref_count pw - 1 =? 0).
      + split; [by rewrite lookup_delete_ne|]. split; [by rewrite lookup_delete_eq|].
        intros p [Hne|Hne]; [|done]. by rewrite lookup_delete_ne.
      + split; [by rewrite lookup_insert_ne|]. split; [by rewrite lookup_insert_eq|].
        intros p [Hne|Hne]; [|done]. by rewrite lookup_insert_ne. }
  eapply wp_mono; [exact Hp1|]. clear Hp1.
  intros _ w2 (Hn2 & Ht2 & Hc2 & Hpl2 & Hf2).
  apply wp_bind. unfold g_slice_free. destruct (Z.eqb_spec ctx NULL); [done|].
  eapply wp_dealloc; [done|]. apply wp_emit. cbn [heap next trace].
  split; [done|]. split; [by rewrite Ht2, Ht1, <- !app_assoc|].
  split; [apply lookup_delete_eq|]. split; [|split; [|split]].
  - intros Hd. assert (ctx ≠ devices c) as Hca.
    { intros E. rewrite decide_False in Harr by done. destruct Harr as [Ha _].
      rewrite E in Hb. congruence. }
    rewrite lookup_delete_ne by done.
    destruct (decide (platform c = NULL)) as [Hpn|Hpn].
    + rewrite Hf2 by (by right). by apply Ha1.
    + rewrite Hf2; [by apply Ha1|]. left. intros E. by apply (Hpl Hpn).
  - intros d Hin Hne. rewrite lookup_delete_ne by (intros E; apply (Hdctx d); done).
    rewrite Hf2; [by apply Hd1|].
    destruct (decide (platform c = NULL)) as [Hpn|Hpn]; [by right|left].
    intros E. subst d. destruct (Hpl Hpn) as [Hnin _]. done.
  - intros Hpn. rewrite lookup_delete_ne; [by apply Hpl2|].
    intros E. destruct (Hpl Hpn) as (_ & Hpc & _). done.
  - intros p Hp1 Hp2 Hp3 Hp4. rewrite lookup_delete_ne by done.
    rewrite Hf2 by done. by apply Hf1.
Qed.

(** *** Construction *)

Lemma wp_cl4_context_new_internal Q w :
  next w ≠ NULL ->
  Q (next w) (mkWorld (<[next w := BContext empty_context]> (heap w))
                      (next w + 1) (trace w)) ->
  wp cl4_context_new_internal Q w.
Proof.
  intros Hn HQ. unfold cl4_context_new_internal.
  apply wp_bind, wp_alloc.
  do 4 (apply wp_bind; eapply wp_update_context;
        [done|cbn; apply lookup_insert_eq|]; cbn [heap next trace];
        rewrite insert_insert_eq).
  by apply wp_ret.
Qed.

Lemma wp_g_set_error err d c msg args Q w :
  err_null_or_unset err = true ->
  Q (propagated err (mkGError d c msg args)) w ->
  wp (g_set_error err d c msg args) Q w.
Proof. apply wp_g_propagate_error. Qed.

Lemma wp_clRetainContext context Q w :
  Q (env_retain_context env (trace w) context)
    (mkWorld (heap w) (next w)
       (trace w ++ [EvRetainContext context (env_retain_context env (trace w) context)])) ->
  wp (clRetainContext env context) Q w.
Proof.
  intros HQ. unfold clRetainContext. apply wp_bind, wp_get_trace.
  apply wp_bind, wp_emit. by apply wp_ret.
Qed.

(** Wrapping an external context whose retain succeeds. *)
Lemma new_from_clcontext_ok context err w :
  context ≠ NULL -> err_null_or_unset err = true -> 0 < next w ->
  env_retain_context env (trace w) context = CL_SUCCESS ->
  cl4_context_new_from_clcontext env context err w =
  Done (next w, err)
       (mkWorld (<[next w := BContext (set_cl_object context empty_context)]> (heap w))
                (next w + 1)
                (trace w ++ [EvRetainContext context CL_SUCCESS])).
Proof.
  intros Hc He Hn Hr. apply wp_eq. unfold cl4_context_new_from_clcontext.
  destruct (Z.eqb_spec context NULL); [done|]. rewrite He. cbn [negb].
  apply wp_bind, wp_cl4_context_new_internal; [unfold NULL; lia|].
  apply wp_bind. eapply wp_update_context;
    [unfold NULL; lia|cbn; apply lookup_insert_eq|].
  cbn [heap next trace]. rewrite insert_insert_eq.
  apply wp_bind, wp_clRetainContext. cbn [heap next trace]. rewrite Hr.
  cbn [CL_SUCCESS Z.eqb negb].
  apply wp_bind, wp_g_assert; [done|]. by apply wp_ret.
Qed.

(** Wrapping an external context whose retain fails: the wrapper is
    destroyed again, which releases the context once. *)
Lemma new_from_clcontext_fails context err w :
  context ≠ NULL -> err_null_or_unset err = true -> 0 < next w ->
  env_retain_context env (trace w) context ≠ CL_SUCCESS ->
  cl4_context_new_from_clcontext env context err w =
  Done (NULL, propagated err (retain_error (env_retain_context env (trace w) context)))
       (mkWorld (delete (next w) (heap w)) (next w + 1)
                (trace w ++ [EvRetainContext context (env_retain_context env (trace w) context);
                             EvReleaseContext context])).
Proof.
  intros Hc He Hn Hr. apply wp_eq. unfold cl4_context_new_from_clcontext.
  destruct (Z.eqb_spec context NULL); [done|]. rewrite He. cbn [negb].
  apply wp_bind, wp_cl4_context_new_internal; [unfold NULL; lia|].
  apply wp_bind. eapply wp_update_context;
    [unfold NULL; lia|cbn; apply lookup_insert_eq|].
  cbn [heap next trace]. rewrite insert_insert_eq.
  apply wp_bind, wp_clRetainContext. cbn [heap next trace].
  destruct (Z.eqb_spec CL_SUCCESS (env_retain_context env (trace w) context)) as [E|_];
    [congruence|]. cbn [negb].
  apply wp_bind, wp_g_set_error; [done|].
  apply wp_bind, wp_g_assert; [apply propagated_null_or_set|].
  apply wp_bind.
  unfold cl4_context_destroy, cl4_wrapper_unref.
  destruct (Z.eqb_spec (next w) NULL) as [E|_]; [unfold NULL in E; lia|].
  apply wp_bind, wp_bind. eapply wp_load_context;
    [unfold NULL; lia|cbn; apply lookup_insert_eq|].
  apply wp_bind, wp_store. cbn [heap next trace base set_cl_object empty_context ref_count
                                 cl_object Z.sub Z.add Z.opp Z.pos_sub Z.eqb].
  rewrite insert_insert_eq.
  apply wp_ret. destruct (Z.eqb_spec context NULL); [done|].
  apply wp_bind. eapply wp_load_context;
    [unfold NULL; lia|cbn; apply lookup_insert_eq|].
  cbn [devices platform set_ref_count NULL Z.eqb].
  apply wp_bind, wp_ret.
  apply wp_bind. eapply wp_load_context;
    [unfold NULL; lia|cbn; apply lookup_insert_eq|].
  cbn [devices platform set_ref_count NULL Z.eqb].
  apply wp_bind, wp_ret. apply wp_bind. unfold g_slice_free.
  destruct (Z.eqb_spec (next w) NULL) as [E|_]; [unfold NULL in E; lia|].
  eapply wp_dealloc; [cbn; apply lookup_insert_eq|].
  apply wp_emit. apply wp_ret. cbn [heap next trace].
  rewrite delete_insert_eq, <- app_assoc. done.
Qed.

Lemma wp_g_slice_free1_null sz Q w : Q tt w -> wp (g_slice_free1 sz NULL) Q w.
Proof. done. Qed.

Lemma wp_g_slice_free1 sz p b Q w :
  p ≠ NULL -> heap w !! p = Some b ->
  Q tt (mkWorld (delete p (heap w)) (next w) (trace w)) -> wp (g_slice_free1 sz p) Q w.
Proof.
  intros Hp Hb HQ. unfold g_slice_free1. destruct (Z.eqb_spec p NULL); [done|].
  by eapply wp_dealloc.
Qed.

Lemma wp_g_ptr_array_free_segment_kept p a Q w :
  p ≠ NULL -> heap w !! p = Some (BPtrArray a) ->
  Q (pdata a) (mkWorld (delete p (heap w)) (next w) (trace w)) ->
  wp (g_ptr_array_free p false) Q w.
Proof.
  intros Hp Hb HQ. unfold g_ptr_array_free. destruct (Z.eqb_spec p NULL); [done|].
  apply wp_bind. eapply wp_load_ptr_array; [done..|].
  apply wp_bind. eapply wp_dealloc; [done|]. by apply wp_ret.
Qed.

(** [cl4_context_destroy] on a fresh wrapper that has no OpenCL context
    yet: the count drops to 0 and nothing is released. *)
Lemma wp_cl4_context_destroy_no_object ctx c Q w :
  ctx ≠ NULL -> heap w !! ctx = Some (BContext c) -> cl_object (base c) = NULL ->
  Q tt (mkWorld (<[ctx := BContext (set_ref_count (ref_count (base c) - 1) c)]> (heap w))
                (next w) (trace w)) ->
  wp (cl4_context_destroy ctx) Q w.
Proof.
  intros Hp Hb Ho HQ. unfold cl4_context_destroy, cl4_wrapper_unref.
  destruct (Z.eqb_spec ctx NULL); [done|].
  apply wp_bind, wp_bind. eapply wp_load_context; [done..|].
  apply wp_bind, wp_store. rewrite Ho.
  destruct (ref_count (base c) - 1 =? 0); apply wp_ret; by apply wp_ret.
Qed.

(** A materialised device list is owned by its wrapper. *)
Lemma materialized_owns_devices w0 ctx c ids n w' :
  0 <= n -> 0 < next w0 ->
  materialized w0 ctx c ids n w' ->
  owns_devices (heap w') (mkContext (base c) (platform c) n
                            (if decide (n = 0) then NULL else next w0))
               (seqZ (next w0 + 1) n).
Proof.
  intros Hn Hnx (Hc & Harr & Hdev & _ & _). unfold owns_devices. cbn [devices num_devices].
  split; [|split].
  - destruct (decide (n = 0)) as [->|Hn0].
    + rewrite decide_True by done. done.
    + rewrite decide_False by (unfold NULL; lia).
      split; [by apply Harr|]. rewrite length_seqZ. lia.
  - apply NoDup_filter, NoDup_seqZ.
  - intros d [Hd1 Hd2]%elem_of_seqZ _.
    destruct (Hdev (d - (next w0 + 1))) as (id & _ & Hd); [lia|].
    eexists. rewrite <- Hd. f_equal. lia.
Qed.

(** Without NULL handles the wrapping loop of the explicit-devices
    constructor is the loop of the lazy materialisation. *)
Lemma cldevices_wrap_loop_no_null ctx devs sz count : forall i w,
  0 <= i ->
  (forall j, i <= j < i + Z.of_nat count -> devs !! Z.to_nat j ≠ Some NULL) ->
  cldevices_wrap_loop ctx devs i count w =
  (init_devices_loop ctx (mkInfo devs sz) i count ;; ret true)%cmd w.
Proof.
  induction count as [|k IH]; intros i w Hi Hnn; [reflexivity|].
  cbn [cldevices_wrap_loop init_devices_loop value].
  destruct (devs !! Z.to_nat i) as [id|] eqn:Hid; [|done].
  destruct (Z.eqb_spec id NULL) as [->|Hne].
  { exfalso. apply (Hnn i); [lia|done]. }
  rewrite bind_assoc. apply bind_ext. intros d w1.
  rewrite bind_assoc. apply bind_ext. intros c w2.
  rewrite bind_assoc. apply bind_ext. intros _ w3.
  apply IH; [lia|]. intros j Hj. apply Hnn. lia.
Qed.

(** The explicit-devices constructor up to the end of its loop: the
    device list is materialised from the given handles. *)
Lemma wp_new_from_cldevices_prefix properties num devs pfn_notify user_data err Q w :
  0 < num -> num <= Z.of_nat (length devs) ->
  (forall j, 0 <= j < num -> devs !! Z.to_nat j ≠ Some NULL) ->
  err_null_or_unset err = true -> 0 < next w ->
  (forall w2,
      materialized (mkWorld (<[next w := BContext empty_context]> (heap w))
                            (next w + 1) (trace w))
                   (next w) empty_context devs num w2 ->
      trace w2 = trace w ->
      wp (cldevices_create env properties (next w) num devs pfn_notify user_data err) Q w2) ->
  wp (cl4_context_new_from_cldevices_full env properties num (Some devs)
        pfn_notify user_data err) Q w.
Proof.
  intros Hnum Hlen Hnn He Hnx HQ. unfold cl4_context_new_from_cldevices_full.
  destruct (Z.ltb_spec 0 num); [|lia]. cbn [negb]. rewrite He. cbn [negb].
  assert (next w ≠ NULL) as Hn0 by (unfold NULL; lia).
  apply wp_bind, wp_cl4_context_new_internal; [done|].
  apply wp_bind. eapply wp_update_context; [done|cbn; apply lookup_insert_eq|].
  cbn [heap next trace]. rewrite insert_insert_eq.
  apply wp_bind. unfold cl4_context_device_wrappers_new, g_new0.
  destruct (Z.eqb_spec num 0); [lia|]. apply wp_alloc. cbn [heap next trace].
  apply wp_bind. eapply wp_update_context; [done| |].
  { cbn. rewrite lookup_insert_ne by lia. apply lookup_insert_eq. }
  cbn [heap next trace set_devices set_num_devices empty_context base platform
       num_devices devices].
  apply wp_bind. eapply wp_ext.
  { apply (cldevices_wrap_loop_no_null _ _ 0); [done|].
    intros j Hj. apply Hnn. lia. }
  apply wp_bind. eapply wp_mono.
  { eapply (wp_init_devices_loop (next w)
              (mkContext (mkWrapper NULL 1) NULL num (next w + 1))
              (mkInfo devs 0) (Z.to_nat num) 0 _ (replicate (Z.to_nat num) (Some 0)));
      cbn [heap next trace devices value]; try lia.
    - unfold NULL; lia.
    - apply lookup_insert_eq.
    - rewrite lookup_insert_ne by lia. apply lookup_insert_eq.
    - rewrite length_replicate. lia. }
  cbn [heap next trace devices value].
  intros _ w' (Hn' & Ht' & (cells' & Hc' & Hl' & _ & Hin) & Hdev & Hframe).
  apply wp_ret. cbn [negb]. apply HQ; [|done].
  unfold materialized. cbn [heap next trace empty_context base platform].
  rewrite !decide_False by lia.
  split; [|split; [|split; [|split]]].
  - rewrite Hframe by lia. apply lookup_insert_eq.
  - intros _. rewrite Hc'. do 2 f_equal. apply cells_seqZ.
    { rewrite Hl', length_replicate. done. }
    intros j Hj. rewrite Hin by lia. do 2 f_equal. lia.
  - intros j Hj. destruct (Hdev j) as (id & Hid & Hd'); [lia|].
    exists id. split; [done|]. rewrite <- Hd'. f_equal. lia.
  - intros p Hp' Hne. rewrite Hframe by lia.
    rewrite !lookup_insert_ne by lia. done.
  - lia.
Qed.

Lemma world_eta w : mkWorld (heap w) (next w) (trace w) = w.
Proof. by destruct w. Qed.

Lemma wp_cl4_device_info_value device dv Q w :
  device ≠ NULL -> heap w !! device = Some (BDevice dv) ->
  Q (platform_answer env (trace w) dv)
    (mkWorld (cache_platform device dv (platform_answer env (trace w) dv) (heap w))
             (next w) (trace w ++ query_events dv)) ->
  wp (cl4_device_info_value env device) Q w.
Proof.
  intros Hd Hb. unfold platform_answer, cache_platform, query_events.
  unfold cl4_device_info_value. intros HQ.
  apply wp_bind. eapply wp_load_device; [done..|].
  destruct (dev_platform dv) as [p|].
  - apply wp_ret. by rewrite app_nil_r, world_eta in HQ.
  - apply wp_bind, wp_get_trace. apply wp_bind, wp_emit. cbn [heap next trace].
    destruct (env_device_platform env (trace w) (cl_object (dev_base dv))) as [p|e].
    + apply wp_bind, wp_store. by apply wp_ret.
    + by apply wp_ret.
Qed.

Lemma properties_default_given properties device w :
  properties ≠ NULL -> device ≠ NULL ->
  cl4_context_properties_default env properties device (Some None) w =
  Done (properties, Some None) w.
Proof.
  intros Hp Hd. unfold cl4_context_properties_default.
  destruct (Z.eqb_spec device NULL); [done|]. cbn [err_null_or_unset negb].
  destruct (Z.eqb_spec properties NULL); [done|]. done.
Qed.

Lemma properties_default_synthesized device dv w :
  device ≠ NULL -> heap w !! device = Some (BDevice dv) ->
  device ≠ next w -> next w ≠ NULL ->
  cl4_context_properties_default env NULL device (Some None) w =
  let r := platform_answer env (trace w) dv in
  Done (next w, match r with inl _ => Some None | inr e => Some (Some e) end)
       (mkWorld (<[next w := BArray (match r with
                                     | inl p => default_properties p
                                     | inr _ => [None; None; None]
                                     end)]>
                   (cache_platform device dv r (heap w)))
                (next w + 1) (trace w ++ query_events dv)).
Proof.
  intros Hd Hb Hne Hnx. cbn zeta. apply wp_eq.
  unfold cl4_context_properties_default.
  destruct (Z.eqb_spec device NULL); [done|]. cbn [err_null_or_unset negb Z.eqb NULL].
  apply wp_bind. unfold g_slice_alloc. cbn -[alloc wp]. apply wp_alloc.
  apply wp_bind. eapply wp_cl4_device_info_value; [done| |].
  { cbn. by rewrite lookup_insert_ne. }
  cbn [heap next trace].
  assert (forall r hp, cache_platform device dv r (<[next w := BArray [None; None; None]]> hp)
                     = <[next w := BArray [None; None; None]]> (cache_platform device dv r hp))
    as Hcomm.
  { intros r hp. unfold cache_platform. destruct (dev_platform dv), r; try done.
    by apply insert_insert_ne. }
  rewrite Hcomm.
  destruct (platform_answer env (trace w) dv) as [p|e].
  - apply wp_bind. eapply wp_write_cell; [done|cbn; apply lookup_insert_eq|cbn; lia|].
    cbn [heap next trace]. rewrite insert_insert_eq.
    apply wp_bind. eapply wp_write_cell;
      [done|cbn; apply lookup_insert_eq|simpl length; lia|].
    cbn [heap next trace]. rewrite insert_insert_eq.
    apply wp_bind. eapply wp_write_cell;
      [done|cbn; apply lookup_insert_eq|simpl length; lia|].
    cbn [heap next trace]. rewrite insert_insert_eq.
    done.
  - done.
Qed.

Lemma wp_clCreateContext properties pcells num devs pfn_notify user_data Q w :
  properties ≠ NULL -> heap w !! properties = Some (BArray pcells) ->
  (let r := env_create_context env (trace w) pcells num devs pfn_notify user_data in
   Q r (mkWorld (heap w) (next w)
          (trace w ++ [EvCreateContext properties pcells num devs pfn_notify user_data
                         (fst r) (snd r)]))) ->
  wp (clCreateContext env properties num devs pfn_notify user_data) Q w.
Proof.
  intros Hp Hb HQ. unfold clCreateContext.
  apply wp_bind. eapply wp_load_array; [done..|].
  apply wp_bind, wp_get_trace. apply wp_bind, wp_emit. by apply wp_ret.
Qed.

Lemma built_owns hp ctx h arr ds ids :
  built hp ctx h arr ds ids ->
  owns_devices hp (mkContext (mkWrapper h 1) NULL (Z.of_nat (length ds)) arr) ds /\
  owns_platform hp (mkContext (mkWrapper h 1) NULL (Z.of_nat (length ds)) arr).
Proof.
  intros (Hc & Harr & Ha & Hnd & Hlen & Hdev). split; [|by intros ?].
  unfold owns_devices. cbn [devices num_devices]. rewrite decide_False by done.
  split; [done|]. split; [by apply NoDup_filter|].
  intros d [j Hj]%list_elem_of_lookup _.
  destruct (ids !! j) as [id|] eqn:Hid.
  - destruct (Hdev j d id Hj Hid) as [_ [plat Hd]]. by eexists.
  - apply lookup_ge_None in Hid. apply lookup_lt_Some in Hj. lia.
Qed.

(** The explicit-devices constructor from the determination of the
    properties on, given what [cl4_context_properties_default] does. *)
Lemma wp_cldevices_create properties ctx c ds d0 ctx_props e_int pcells num devs
    pfn_notify user_data err Q w2 w3 :
  ctx ≠ NULL -> heap w2 !! ctx = Some (BContext c) ->
  devices c ≠ NULL -> heap w2 !! devices c = Some (BArray (Some <$> ds)) ->
  ds !! 0%nat = Some d0 ->
  cl4_context_properties_default env properties d0 (Some None) w2
    = Done (ctx_props, e_int) w3 ->
  heap w3 !! ctx = Some (BContext c) ->
  ctx_props ≠ NULL -> heap w3 !! ctx_props = Some (BArray pcells) ->
  err_null_or_unset err = true ->
  (let r := env_create_context env (trace w3) pcells num (Some <$> devs)
              pfn_notify user_data in
   let w4 := mkWorld (<[ctx := BContext (set_cl_object (fst r) c)]> (heap w3)) (next w3)
               (trace w3 ++ [EvCreateContext ctx_props pcells num (Some <$> devs)
                               pfn_notify user_data (fst r) (snd r)]) in
   if CL_SUCCESS =? snd r
   then Q (ctx, err)
          (mkWorld (free_default properties ctx_props (heap w4)) (next w4) (trace w4))
   else wp (cl4_context_destroy ctx ;;
            cl4_context_properties_default_free properties ctx_props ;;
            ret (NULL, propagated err
                         (create_error "cl4_context_new_from_cldevices_full" (snd r))))%cmd
           Q w4) ->
  wp (cldevices_create env properties ctx num devs pfn_notify user_data err) Q w2.
Proof.
  intros Hctx Hc Harr Ha Hd0 Hpd Hc3 Hp Hp3 He HQ. unfold cldevices_create.
  apply wp_bind. eapply wp_load_context; [done..|].
  apply wp_bind. eapply wp_read_cell; [done|done|done| |].
  { change (Z.to_nat 0) with 0%nat. rewrite list_lookup_fmap, Hd0. done. }
  apply wp_bind. eapply wp_done; [exact Hpd|]. cbn [fst snd].
  apply wp_bind. eapply wp_clCreateContext; [done..|].
  cbn zeta in *. cbn [fst snd heap next trace] in *.
  destruct (env_create_context env (trace w3) pcells num (Some <$> devs)
              pfn_notify user_data) as [h st]. cbn [fst snd] in *.
  apply wp_bind. eapply wp_update_context; [done..|]. cbn [heap next trace].
  assert (ctx_props ≠ ctx) as Hpc by (intros E; rewrite E in Hp3; congruence).
  destruct (CL_SUCCESS =? st); cbn [negb].
  - apply wp_bind, wp_g_assert; [done|].
    apply wp_bind. unfold cl4_context_properties_default_free, free_default in *.
    destruct (properties =? NULL).
    + eapply wp_g_slice_free1; [done| |by apply wp_ret].
      cbn. by rewrite lookup_insert_ne.
    + apply wp_ret. by apply wp_ret.
  - apply wp_bind, wp_g_set_error; [done|].
    apply wp_bind, wp_g_assert; [apply propagated_null_or_set|]. done.
Qed.

Lemma cache_platform_lookup_ne device dv r hp p :
  p ≠ device -> cache_platform device dv r hp !! p = hp !! p.
Proof.
  intros Hne. unfold cache_platform.
  destruct (dev_platform dv), r; try done. by rewrite lookup_insert_ne.
Qed.

Lemma cache_platform_lookup_eq device dv r hp :
  hp !! device = Some (BDevice dv) ->
  exists plat, cache_platform device dv r hp !! device
               = Some (BDevice (mkDevice (dev_base dv) plat)).
Proof.
  intros Hd. unfold cache_platform. destruct dv as [b [p|]]; cbn.
  - by exists (Some p).
  - destruct r as [p|e]; [|by exists None].
    exists (Some p). by rewrite lookup_insert_eq.
Qed.

(** The explicit-devices constructor up to [clCreateContext]. *)
Lemma wp_new_from_cldevices properties pcells num devs id0 pfn_notify user_data err Q w :
  0 < num -> Z.of_nat (length devs) = num ->
  (forall j, 0 <= j < num -> devs !! Z.to_nat j ≠ Some NULL) ->
  devs !! 0%nat = Some id0 ->
  err_null_or_unset err = true -> 0 < next w ->
  (properties ≠ NULL ->
   0 < properties < next w /\ heap w !! properties = Some (BArray pcells)) ->
  let synth := properties =? NULL in
  let ctx_props := if synth then next w + 2 + num else properties in
  let cells := if synth
               then synthesized_properties (env_device_platform env (trace w) id0)
               else pcells in
  let tr3 := trace w ++ (if synth then [EvDeviceInfo id0] else []) in
  (forall w3,
      cldevices_staged w num devs ctx_props cells w3 ->
      trace w3 = tr3 ->
      next w3 = next w + 2 + num + (if synth then 1 else 0) ->
      let a := env_create_context env tr3 cells num (Some <$> devs)
                 pfn_notify user_data in
      let w4 := mkWorld
                  (<[next w := BContext (mkContext (mkWrapper (fst a) 1) NULL num
                                                   (next w + 1))]> (heap w3))
                  (next w3)
                  (tr3 ++ [EvCreateContext ctx_props cells num (Some <$> devs)
                             pfn_notify user_data (fst a) (snd a)]) in
      if CL_SUCCESS =? snd a
      then Q (next w, err)
             (mkWorld (free_default properties ctx_props (heap w4)) (next w4) (trace w4))
      else wp (cl4_context_destroy (next w) ;;
               cl4_context_properties_default_free properties ctx_props ;;
               ret (NULL, propagated err
                            (create_error "cl4_context_new_from_cldevices_full" (snd a))))%cmd
              Q w4) ->
  wp (cl4_context_new_from_cldevices_full env properties num (Some devs)
        pfn_notify user_data err) Q w.
Proof.
  intros Hnum Hlen Hnn Hid0 He Hnx Hprops synth ctx_props cells tr3 HQ.
  apply wp_new_from_cldevices_prefix; [done|lia|done..|].
  intros w2 (Hc2 & Ha2 & Hd2 & Hf2 & Hn2) Ht2. cbn [heap next trace] in *.
  rewrite !decide_False in * by lia.
  specialize (Ha2 ltac:(lia)).
  replace (next w + 1 + 1) with (next w + 2) in * by lia.
  assert (forall j, 0 <= j < num ->
            exists id, devs !! Z.to_nat j = Some id /\
              heap w2 !! (next w + 2 + j) = Some (BDevice (mkDevice (mkWrapper id 1) None)))
    as Hd2'.
  { intros j Hj. destruct (Hd2 j Hj) as (id & Hid & Hb). exists id. split; [done|].
    rewrite <- Hb. f_equal; lia. }
  clear Hd2.
  assert (seqZ (next w + 2) num !! 0%nat = Some (next w + 2)) as Hfirst.
  { rewrite lookup_seqZ_lt by lia. f_equal. lia. }
  assert (heap w2 !! (next w + 2) = Some (BDevice (mkDevice (mkWrapper id0 1) None))) as Hdv0.
  { destruct (Hd2' 0) as (id & Hid & Hb); [lia|].
    change (Z.to_nat 0) with 0%nat in Hid. rewrite Hid0 in Hid. injection Hid as <-.
    rewrite <- Hb. f_equal; lia. }
  assert (next w ≠ NULL /\ next w + 1 ≠ NULL /\ next w + 2 ≠ NULL) as (Hn0 & Hn1 & Hn2')
    by (unfold NULL; lia).
  assert (forall p, p < next w -> heap w2 !! p = heap w !! p) as Hframe2.
  { intros p Hp. rewrite Hf2 by lia. by rewrite lookup_insert_ne by lia. }
  destruct (Z.eqb_spec properties NULL) as [->|Hpn];
    subst synth ctx_props cells tr3; cbv iota in HQ; cbn zeta in HQ.
  - (* default properties *)
    pose proof (properties_default_synthesized (next w + 2) _ w2 Hn2' Hdv0
                  ltac:(lia) ltac:(unfold NULL; lia)) as Hpd.
    cbn zeta in Hpd. unfold platform_answer, query_events in Hpd.
    cbn [dev_platform dev_base cl_object] in Hpd. rewrite Hn2, Ht2 in Hpd.
    set (r := env_device_platform env (trace w) id0) in *.
    replace (next w + 1 + 1 + num) with (next w + 2 + num) in Hpd by lia.
    eapply wp_cldevices_create; [exact Hn0|exact Hc2|exact Hn1|exact Ha2|exact Hfirst
                                |exact Hpd| | | |done|].
    + cbn [heap]. rewrite lookup_insert_ne by lia.
      rewrite cache_platform_lookup_ne by lia. done.
    + unfold NULL; lia.
    + cbn [heap]. apply lookup_insert_eq.
    + cbn [heap next trace].
      match type of Hpd with _ = Done _ ?w3 => apply (HQ w3) end;
        cbn [heap next trace]; [|done|lia].
      unfold cldevices_staged. cbn [heap next trace].
      split; [|split; [|split; [|split; [|split; [|split]]]]].
      * rewrite lookup_insert_ne by lia. by rewrite cache_platform_lookup_ne by lia.
      * rewrite lookup_insert_ne by lia. by rewrite cache_platform_lookup_ne by lia.
      * split; [rewrite length_seqZ; lia|].
        intros j d id [-> Hj]%lookup_seqZ Hid. split; [unfold NULL; lia|].
        destruct (Hd2' (Z.of_nat j)) as (id' & Hid' & Hb); [lia|].
        rewrite Nat2Z.id, Hid in Hid'. injection Hid' as <-.
        rewrite lookup_insert_ne by lia.
        destruct (decide (j = 0%nat)) as [->|Hj0].
        -- destruct (cache_platform_lookup_eq (next w + 2) _ r _ Hdv0) as [plat Hplat].
           exists plat. change (Z.of_nat 0) with 0. rewrite Z.add_0_r, Hplat.
           rewrite Hid0 in Hid. by injection Hid as <-.
        -- exists None. rewrite cache_platform_lookup_ne by lia. done.
      * unfold NULL; lia.
      * apply lookup_insert_eq.
      * lia.
      * intros p Hp. rewrite lookup_insert_ne by lia.
        rewrite cache_platform_lookup_ne by lia. by apply Hframe2.
  - (* the caller's properties *)
    destruct (Hprops Hpn) as [Hpr Hpb].
    eapply wp_cldevices_create; [exact Hn0|exact Hc2|exact Hn1|exact Ha2|exact Hfirst
                                |by apply properties_default_given
                                |exact Hc2|done| |done|].
    + by rewrite Hframe2 by lia.
    + rewrite app_nil_r in HQ. cbn zeta. rewrite Ht2.
      apply (HQ w2); [|done|lia].
      unfold cldevices_staged.
      split; [done|]. split; [done|]. split; [|split; [done|split; [|split; [lia|done]]]].
      * split; [rewrite length_seqZ; lia|].
        intros j d id [-> Hj]%lookup_seqZ Hid. split; [unfold NULL; lia|].
        destruct (Hd2' (Z.of_nat j)) as (id' & Hid' & Hb); [lia|].
        rewrite Nat2Z.id, Hid in Hid'. injection Hid' as <-. by exists None.
      * by rewrite Hframe2 by lia.
Qed.

Lemma free_default_lookup_ne properties ctx_props hp p :
  p ≠ ctx_props -> free_default properties ctx_props hp !! p = hp !! p.
Proof.
  intros Hne. unfold free_default. destruct (properties =? NULL); [|done].
  by rewrite lookup_delete_ne.
Qed.

Lemma wraps_ext hp hp' ds ids :
  wraps hp ds ids -> (forall d, d ∈ ds -> hp' !! d = hp !! d) -> wraps hp' ds ids.
Proof.
  intros [Hl Hw] Hext. split; [done|]. intros j d id Hd Hid.
  destruct (Hw j d id Hd Hid) as [Hne [plat Hp]]. split; [done|].
  exists plat. rewrite Hext; [done|]. by eapply list_elem_of_lookup_2.
Qed.

(** The staged wrapper becomes a built one once it holds the context. *)
Lemma staged_built w num devs ctx_props cells w3 h properties :
  0 < next w -> 0 <= num ->
  cldevices_staged w num devs ctx_props cells w3 ->
  built (free_default properties ctx_props
           (<[next w := BContext (mkContext (mkWrapper h 1) NULL num (next w + 1))]> (heap w3)))
        (next w) h (next w + 1) (seqZ (next w + 2) num) devs.
Proof.
  intros Hnx Hnum (Hc & Ha & Hw & Hpn & Hp & Hrange & Hframe).
  unfold built. rewrite length_seqZ, Z2Nat.id by lia.
  split; [|split; [|split; [|split]]].
  - rewrite free_default_lookup_ne by lia. apply lookup_insert_eq.
  - unfold NULL; lia.
  - rewrite free_default_lookup_ne by lia. by rewrite lookup_insert_ne by lia.
  - apply NoDup_seqZ.
  - eapply wraps_ext; [exact Hw|]. intros d [Hd1 Hd2]%elem_of_seqZ.
    rewrite free_default_lookup_ne by lia. by rewrite lookup_insert_ne by lia.
Qed.

(** The explicit-devices constructor when [clCreateContext] succeeds. *)
Lemma wp_new_from_cldevices_ok properties pcells num devs id0 pfn_notify user_data err w :
  0 < num -> Z.of_nat (length devs) = num ->
  (forall j, 0 <= j < num -> devs !! Z.to_nat j ≠ Some NULL) ->
  devs !! 0%nat = Some id0 ->
  err_null_or_unset err = true -> 0 < next w ->
  (properties ≠ NULL ->
   0 < properties < next w /\ heap w !! properties = Some (BArray pcells)) ->
  let synth := properties =? NULL in
  let ctx_props := if synth then next w + 2 + num else properties in
  let cells := if synth
               then synthesized_properties (env_device_platform env (trace w) id0)
               else pcells in
  let tr3 := trace w ++ (if synth then [EvDeviceInfo id0] else []) in
  let a := env_create_context env tr3 cells num (Some <$> devs) pfn_notify user_data in
  snd a = CL_SUCCESS ->
  wp (cl4_context_new_from_cldevices_full env properties num (Some devs)
        pfn_notify user_data err)
     (fun res w' =>
        res = (next w, err) /\
        trace w' = tr3 ++ [EvCreateContext ctx_props cells num (Some <$> devs)
                             pfn_notify user_data (fst a) CL_SUCCESS] /\
        built (heap w') (next w) (fst a) (next w + 1) (seqZ (next w + 2) num) devs /\
        (synth = true -> heap w' !! ctx_props = None) /\
        (forall p, p < next w -> heap w' !! p = heap w !! p) /\
        next w' = next w + 2 + num + (if synth then 1 else 0)) w.
Proof.
  intros Hnum Hlen Hnn Hid0 He Hnx Hprops synth ctx_props cells tr3 a Ha.
  eapply wp_new_from_cldevices; [done..|].
  intros w3 Hst Ht3 Hn3. cbn zeta. fold synth ctx_props cells tr3 a. rewrite Ha.
  cbn [Z.eqb CL_SUCCESS heap next trace].
  split; [done|]. split; [done|].
  split; [eapply staged_built; [done|lia|exact Hst]|].
  split; [|split; [|done]].
  - intros Hs. unfold free_default. subst synth. rewrite Hs. apply lookup_delete_eq.
  - intros p Hp. destruct Hst as (_ & _ & _ & _ & _ & Hrange & Hframe).
    destruct (decide (p = ctx_props)) as [->|Hne].
    + unfold free_default. fold synth. subst ctx_props. destruct synth; [lia|].
      rewrite lookup_insert_ne by lia. by apply Hframe.
    + rewrite free_default_lookup_ne by done. rewrite lookup_insert_ne by lia.
      by apply Hframe.
Qed.

Lemma wp_properties_default_free properties ctx_props b Q w :
  ((properties =? NULL) = true -> ctx_props ≠ NULL /\ heap w !! ctx_props = Some b) ->
  Q tt (mkWorld (free_default properties ctx_props (heap w)) (next w) (trace w)) ->
  wp (cl4_context_properties_default_free properties ctx_props) Q w.
Proof.
  intros Hp. unfold cl4_context_properties_default_free, free_default.
  destruct (properties =? NULL).
  - destruct Hp as [Hn Hb]; [done|]. intros HQ. by eapply wp_g_slice_free1.
  - rewrite world_eta. by apply wp_ret.
Qed.

(** The explicit-devices constructor when [clCreateContext] fails: NULL is
    returned with the error; the default properties are freed; when the
    runtime returned no context, the wrapper, its device array and its
    device wrappers stay allocated. *)
Lemma wp_new_from_cldevices_fails properties pcells num devs id0 pfn_notify user_data err w :
  0 < num -> Z.of_nat (length devs) = num ->
  (forall j, 0 <= j < num -> devs !! Z.to_nat j ≠ Some NULL) ->
  devs !! 0%nat = Some id0 ->
  err_null_or_unset err = true -> 0 < next w ->
  (properties ≠ NULL ->
   0 < properties < next w /\ heap w !! properties = Some (BArray pcells)) ->
  let synth := properties =? NULL in
  let ctx_props := if synth then next w + 2 + num else properties in
  let cells := if synth
               then synthesized_properties (env_device_platform env (trace w) id0)
               else pcells in
  let tr3 := trace w ++ (if synth then [EvDeviceInfo id0] else []) in
  let a := env_create_context env tr3 cells num (Some <$> devs) pfn_notify user_data in
  snd a ≠ CL_SUCCESS ->
  wp (cl4_context_new_from_cldevices_full env properties num (Some devs)
        pfn_notify user_data err)
     (fun res w' =>
        res = (NULL, propagated err
                       (create_error "cl4_context_new_from_cldevices_full" (snd a))) /\
        (exists evs,
            trace w' = tr3 ++ [EvCreateContext ctx_props cells num (Some <$> devs)
                                 pfn_notify user_data (fst a) (snd a)] ++ evs) /\
        (synth = true -> heap w' !! ctx_props = None) /\
        (forall p, p < next w -> heap w' !! p = heap w !! p) /\
        (fst a = NULL ->
         heap w' !! next w =
           Some (BContext (mkContext (mkWrapper NULL 0) NULL num (next w + 1))) /\
         heap w' !! (next w + 1) = Some (BArray (Some <$> seqZ (next w + 2) num)) /\
         wraps (heap w') (seqZ (next w + 2) num) devs)) w.
Proof.
  intros Hnum Hlen Hnn Hid0 He Hnx Hprops synth ctx_props cells tr3 a Ha.
  eapply wp_new_from_cldevices; [done..|].
  cbn zeta. fold synth ctx_props cells tr3 a.
  assert (ctx_props = if synth then next w + 2 + num else properties) as Ecp by done.
  assert (synth = (properties =? NULL)) as Es by done.
  clearbody a tr3 cells ctx_props synth.
  intros w3 Hst Ht3 Hn3.
  destruct (Z.eqb_spec CL_SUCCESS (snd a)) as [E|_]; [congruence|].
  pose proof Hst as (Hc & Harr & Hw & Hpn & Hp & Hrange & Hframe).
  assert (next w ≠ NULL) as Hn0 by (unfold NULL; lia).
  set (c4 := mkContext (mkWrapper (fst a) 1) NULL num (next w + 1)).
  set (w4 := mkWorld _ _ _).
  assert (heap w4 !! next w = Some (BContext c4)) as Hc4 by apply lookup_insert_eq.
  assert (forall p, p ≠ next w -> heap w4 !! p = heap w3 !! p) as Hf4.
  { intros p Hne. cbn. by rewrite lookup_insert_ne. }
  apply wp_bind.
  destruct (decide (fst a = NULL)) as [Hh|Hh].
  - eapply wp_cl4_context_destroy_no_object; [done|exact Hc4|done|].
    subst w4. cbn [heap next trace]. rewrite insert_insert_eq.
    apply wp_bind. eapply wp_properties_default_free.
    { intros _. split; [exact Hpn|]. cbn [heap]. rewrite lookup_insert_ne by lia. exact Hp. }
    apply wp_ret. cbn [heap next trace].
    split; [done|]. split; [by exists []|]. split; [|split].
    + intros Hs. unfold free_default. rewrite <- Es, Hs. apply lookup_delete_eq.
    + intros p Hplt. destruct (decide (p = ctx_props)) as [->|Hne].
      * unfold free_default. rewrite <- Es. destruct synth; [lia|].
        rewrite lookup_insert_ne by lia. by apply Hframe.
      * rewrite free_default_lookup_ne by done. rewrite lookup_insert_ne by lia.
        by apply Hframe.
    + intros _. split; [|split].
      * rewrite free_default_lookup_ne by lia. rewrite lookup_insert_eq.
        unfold set_ref_count. cbn. by rewrite Hh.
      * rewrite free_default_lookup_ne by lia. by rewrite lookup_insert_ne by lia.
      * eapply wraps_ext; [exact Hw|]. intros d [Hd1 Hd2]%elem_of_seqZ.
        rewrite free_default_lookup_ne by lia. by rewrite lookup_insert_ne by lia.
  - pose proof (staged_built w num devs ctx_props cells w3 (fst a) 1 Hnx ltac:(lia) Hst)
      as Hbuilt.
    change (free_default 1 ctx_props ?hp) with hp in Hbuilt.
    destruct (built_owns _ _ _ _ _ _ Hbuilt) as [Hod Hop].
    rewrite length_seqZ, Z2Nat.id in Hod, Hop by lia.
    eapply wp_mono.
    { eapply (wp_cl4_context_destroy_last (next w) c4 (seqZ (next w + 2) num) w4);
        [done|exact Hc4|done|done|exact Hod|exact Hop]. }
    intros _ w5 (Hn5 & Ht5 & Hc5 & Ha5 & Hd5 & _ & Hf5).
    assert (forall p, p < next w \/ next w + 2 + num <= p -> heap w5 !! p = heap w3 !! p)
      as Hf5'.
    { intros p Hpr. rewrite Hf5.
      - apply Hf4. lia.
      - intros [? ?]%elem_of_seqZ. lia.
      - lia.
      - left. cbn. lia.
      - by right. }
    apply wp_bind. eapply wp_properties_default_free.
    { intros _. split; [exact Hpn|]. rewrite Hf5' by lia. exact Hp. }
    apply wp_ret. cbn [heap next trace].
    split; [done|]. split; [|split; [|split]].
    + rewrite Ht5. cbn [trace w4]. rewrite <- !app_assoc. eauto.
    + intros Hs. unfold free_default. rewrite <- Es, Hs. apply lookup_delete_eq.
    + intros p Hplt. destruct (decide (p = ctx_props)) as [->|Hne].
      * unfold free_default. rewrite <- Es. destruct synth; [lia|].
        rewrite Hf5' by lia. by apply Hframe.
      * rewrite free_default_lookup_ne by done. rewrite Hf5' by lia. by apply Hframe.
    + done.
Qed.

(** *** The filtered constructor *)

Lemma wp_wrap_selected ids : forall w,
  wp (wrap_selected ids)
     (fun ds w' =>
        ds = seqZ (next w) (Z.of_nat (length ids)) /\
        next w' = next w + Z.of_nat (length ids) /\ trace w' = trace w /\
        (forall j id, ids !! j = Some id ->
           heap w' !! (next w + Z.of_nat j) =
             Some (BDevice (mkDevice (mkWrapper id 1) None))) /\
        (forall p, p < next w -> heap w' !! p = heap w !! p)) w.
Proof.
  induction ids as [|id ids IH]; intros w.
  - apply wp_ret. split; [done|]. split; [cbn; lia|]. split; [done|]. split; [|done].
    intros j id Hj. by rewrite lookup_nil in Hj.
  - cbn [wrap_selected]. apply wp_bind, wp_alloc. apply wp_bind.
    eapply wp_mono; [apply IH|]. cbn [heap next trace].
    intros ds w' (-> & Hn & Ht & Hd & Hf). apply wp_ret.
    split; [|split; [|split; [done|split]]].
    + rewrite (seqZ_cons (next w)) by (cbn [length]; lia). f_equal. f_equal; cbn [length]; lia.
    + cbn [length]. lia.
    + intros [|j] id' Hj.
      * injection Hj as <-. rewrite Hf by lia. rewrite Z.add_0_r. apply lookup_insert_eq.
      * cbn in Hj. rewrite <- (Hd j id' Hj). f_equal. lia.
    + intros p Hp. rewrite Hf by lia. by rewrite lookup_insert_ne by lia.
Qed.

(** The loop of the filtered constructor: every iteration finds the
    cached platform of the first device again, so no warning is logged, and
    stores the handle of device [i]. *)
Lemma wp_filters_unwrap_loop devs a cl_devices p_base ds ids d0 id0 count : forall i w cells,
  devs ≠ NULL -> heap w !! devs = Some (BPtrArray a) ->
  pdata a ≠ NULL -> heap w !! pdata a = Some (BArray (Some <$> ds)) ->
  ds !! 0%nat = Some d0 -> d0 ≠ NULL ->
  heap w !! d0 = Some (BDevice (mkDevice (mkWrapper id0 1) (Some p_base))) ->
  wraps (heap w) ds ids ->
  cl_devices ≠ NULL -> heap w !! cl_devices = Some (BArray cells) ->
  cl_devices ≠ pdata a ->
  0 <= i -> i + Z.of_nat count <= Z.of_nat (length ds) ->
  length cells = length ds ->
  wp (filters_unwrap_loop env devs cl_devices p_base i count)
     (fun r w' =>
        r = None /\
        exists cells',
          w' = mkWorld (<[cl_devices := BArray cells']> (heap w)) (next w) (trace w) /\
          length cells' = length cells /\
          (forall j, 0 <= j -> ~ (i <= j < i + Z.of_nat count) ->
                     cells' !! Z.to_nat j = cells !! Z.to_nat j) /\
          (forall j, i <= j < i + Z.of_nat count ->
                     cells' !! Z.to_nat j = Some <$> ids !! Z.to_nat j)) w.
Proof.
  induction count as [|k IH];
    intros i w cells Hdn Hdevs Hpn Hseg Hd0 Hd0n Hdv0 Hw Hcn Hcl Hne Hi Hlen Hcells.
  - apply wp_ret. split; [done|]. exists cells.
    split; [by rewrite insert_id, world_eta|]. split; [done|]. split; [done|intros; lia].
  - cbn [filters_unwrap_loop].
    apply wp_bind. eapply wp_load_ptr_array; [done..|].
    apply wp_bind. eapply wp_read_cell; [done|done|done| |].
    { change (Z.to_nat 0) with 0%nat. by rewrite list_lookup_fmap, Hd0. }
    apply wp_bind. eapply wp_cl4_device_info_value; [done..|].
    unfold platform_answer, cache_platform, query_events. cbn [dev_platform].
    rewrite app_nil_r, world_eta. rewrite Z.eqb_refl.
    apply wp_bind, wp_ret.
    destruct (ds !! Z.to_nat i) as [di|] eqn:Hdi; last first.
    { apply lookup_ge_None in Hdi. lia. }
    destruct Hw as [Hwl Hwd].
    destruct (ids !! Z.to_nat i) as [id|] eqn:Hid; last first.
    { apply lookup_ge_None in Hid. apply lookup_lt_Some in Hdi. lia. }
    destruct (Hwd _ _ _ Hdi Hid) as [Hdin [plat Hdib]].
    apply wp_bind. eapply wp_read_cell; [done|done|done| |].
    { by rewrite list_lookup_fmap, Hdi. }
    apply wp_bind. unfold cl4_device_unwrap. apply wp_bind.
    eapply wp_load_device; [done..|]. apply wp_ret. cbn [dev_base cl_object].
    apply wp_bind. eapply wp_write_cell; [done|done|lia|].
    assert (forall p b, p ≠ cl_devices -> heap w !! p = Some b ->
                        <[cl_devices := BArray (<[Z.to_nat i := Some id]> cells)]> (heap w) !! p
                        = Some b) as Hkeep.
    { intros p b Hp Hb. by rewrite lookup_insert_ne. }
    eapply wp_mono.
    { apply (IH (i + 1) _ (<[Z.to_nat i := Some id]> cells)); cbn [heap next trace];
        try done.
      - apply Hkeep; [|done]. intros E. rewrite E in Hdevs. congruence.
      - apply Hkeep; [|done]. congruence.
      - apply Hkeep; [|done]. intros E. rewrite E in Hdv0. congruence.
      - split; [done|]. intros j d id' Hj Hid'.
        destruct (Hwd _ _ _ Hj Hid') as [Hjn [plat' Hjb]]. split; [done|].
        exists plat'. apply Hkeep; [|done]. intros E. rewrite E in Hjb. congruence.
      - apply lookup_insert_eq.
      - lia.
      - lia.
      - by rewrite length_insert. }
    cbn [heap next trace].
    intros r w' (-> & cells' & -> & Hl' & Hout & Hin). split; [done|].
    exists cells'. split; [by rewrite insert_insert_eq|].
    split; [by rewrite Hl', length_insert|]. split.
    + intros j Hj0 Hj. rewrite Hout by lia. apply list_lookup_insert_ne. lia.
    + intros j Hj. destruct (decide (j = i)) as [->|Hji].
      * rewrite Hout by lia. rewrite list_lookup_insert_eq by lia. by rewrite Hid.
      * apply Hin. lia.
Qed.

(** The filtered constructor up to the determination of the properties,
    for a non-empty selection whose first device answers the platform
    query. *)
Lemma wp_new_from_filters_selected properties chain ids id0 p_base pfn_notify user_data
    err Q w :
  err_null_or_unset err = true -> 0 < next w ->
  env_select env (trace w) chain = inl ids -> ids !! 0%nat = Some id0 ->
  env_device_platform env (trace w ++ [EvSelect chain]) id0 = inl p_base ->
  let m := Z.of_nat (length ids) in
  (forall w2,
      filters_selected w ids p_base w2 ->
      next w2 = next w + 4 + m ->
      trace w2 = trace w ++ [EvSelect chain; EvDeviceInfo id0] ->
      wp (filters_create env properties (next w) (next w + 2 + m)
            (mkPtrArray (next w + 1 + m) m) (next w + 3 + m) pfn_notify user_data err)
         Q w2) ->
  wp (cl4_context_new_from_filters_full env properties (Some chain)
        pfn_notify user_data err) Q w.
Proof.
  intros He Hnx Hsel Hid0 Hplat m HQ.
  assert (0 < m) as Hm.
  { unfold m. apply lookup_lt_Some in Hid0. lia. }
  unfold cl4_context_new_from_filters_full. rewrite He. cbn [negb].
  apply wp_bind, wp_cl4_context_new_internal; [unfold NULL; lia|].
  apply wp_bind. unfold cl4_devsel_select.
  apply wp_bind, wp_get_trace. apply wp_bind, wp_emit. cbn [heap next trace].
  rewrite Hsel.
  apply wp_bind. eapply wp_mono; [apply wp_wrap_selected|]. cbn [heap next trace].
  intros ds w1 (-> & Hn1 & Ht1 & Hd1 & Hf1). fold m in Hn1 |- *.
  rewrite (seqZ_cons (next w + 1) m) by done.
  apply wp_bind, wp_alloc. apply wp_bind, wp_alloc, wp_ret.
  rewrite <- (seqZ_cons (next w + 1) m) by done.
  cbn [fst snd heap next trace]. rewrite length_seqZ, Z2Nat.id by lia.
  rewrite Hn1.
  replace (next w + 1 + m + 1) with (next w + 2 + m) by lia.
  assert (next w + 2 + m ≠ NULL) as Hdn by (unfold NULL; lia).
  apply wp_bind. eapply wp_load_ptr_array; [done|cbn; apply lookup_insert_eq|].
  cbn [len pdata]. destruct (Z.eqb_spec m 0); [lia|].
  apply wp_bind. unfold g_slice_alloc.
  destruct (Z.eqb_spec (m * sizeof_cl_device_id) 0) as [E|_];
    [unfold sizeof_cl_device_id in E; lia|].
  apply wp_alloc. cbn [heap next trace].
  replace (m * sizeof_cl_device_id / 8) with m
    by (unfold sizeof_cl_device_id; by rewrite Z.div_mul by lia).
  replace (next w + 2 + m + 1) with (next w + 3 + m) by lia.
  assert (seqZ (next w + 1) m !! 0%nat = Some (next w + 1)) as Hfirst.
  { rewrite lookup_seqZ_lt by lia. f_equal. lia. }
  set (h3 := <[next w + 3 + m := BArray (replicate (Z.to_nat m) None)]>
               (<[next w + 2 + m := BPtrArray (mkPtrArray (next w + 1 + m) m)]>
                  (<[next w + 1 + m := BArray (Some <$> seqZ (next w + 1) m)]> (heap w1)))).
  assert (forall p, p < next w + 1 + m -> h3 !! p = heap w1 !! p) as Hh3.
  { intros p Hp. unfold h3. by rewrite !lookup_insert_ne by lia. }
  assert (h3 !! (next w + 1 + m) = Some (BArray (Some <$> seqZ (next w + 1) m))) as Hseg.
  { unfold h3. rewrite !lookup_insert_ne by lia. apply lookup_insert_eq. }
  assert (h3 !! (next w + 2 + m) = Some (BPtrArray (mkPtrArray (next w + 1 + m) m))) as Harr.
  { unfold h3. rewrite lookup_insert_ne by lia. apply lookup_insert_eq. }
  assert (forall j id, ids !! j = Some id ->
            h3 !! (next w + 1 + Z.of_nat j) = Some (BDevice (mkDevice (mkWrapper id 1) None)))
    as Hd3.
  { intros j id Hj. rewrite Hh3; [by apply Hd1|]. apply lookup_lt_Some in Hj. lia. }
  apply wp_bind. eapply wp_read_cell; [unfold NULL; lia|exact Hseg|done| |].
  { change (Z.to_nat 0) with 0%nat. by rewrite list_lookup_fmap, Hfirst. }
  apply wp_bind. eapply wp_cl4_device_info_value; [unfold NULL; lia| |].
  { cbn [heap]. rewrite <- (Z.add_0_r (next w + 1)). by apply (Hd3 0%nat). }
  unfold platform_answer, cache_platform, query_events.
  cbn [dev_platform dev_base cl_object heap next trace]. rewrite Ht1, Hplat.
  set (dv0 := BDevice (mkDevice (mkWrapper id0 1) (Some p_base))).
  assert (wraps (<[next w + 1 := dv0]> h3) (seqZ (next w + 1) m) ids) as Hw.
  { split; [rewrite length_seqZ; lia|].
    intros j d id [-> Hj]%lookup_seqZ Hid. split; [unfold NULL; lia|].
    destruct (decide (j = 0%nat)) as [->|Hj0].
    - rewrite Hid0 in Hid. injection Hid as <-. exists (Some p_base).
      rewrite Z.add_0_r. apply lookup_insert_eq.
    - exists None. rewrite lookup_insert_ne by lia. by apply Hd3. }
  apply wp_bind. eapply wp_mono.
  { eapply (wp_filters_unwrap_loop (next w + 2 + m) (mkPtrArray (next w + 1 + m) m)
              (next w + 3 + m) p_base (seqZ (next w + 1) m) ids (next w + 1) id0
              (Z.to_nat m) 0 _ (replicate (Z.to_nat m) None));
      cbn [heap next trace pdata]; try done.
    - by rewrite lookup_insert_ne by lia.
    - unfold NULL; lia.
    - by rewrite lookup_insert_ne by lia.
    - unfold NULL; lia.
    - apply lookup_insert_eq.
    - unfold NULL; lia.
    - rewrite lookup_insert_ne by lia. unfold h3. apply lookup_insert_eq.
    - lia.
    - rewrite length_seqZ. lia.
    - by rewrite length_replicate, length_seqZ. }
  cbn [heap next trace].
  intros r w2 (-> & cells' & -> & Hl' & _ & Hin).
  assert (cells' = Some <$> ids) as ->.
  { apply list_eq. intros j. rewrite list_lookup_fmap.
    destruct (decide (Z.of_nat j < m)) as [Hj|Hj].
    - specialize (Hin (Z.of_nat j)). rewrite Nat2Z.id in Hin. apply Hin. lia.
    - rewrite lookup_ge_None_2 by (rewrite Hl', length_replicate; lia).
      rewrite lookup_ge_None_2 by lia. done. }
  apply HQ; cbn [heap next trace]; [|lia|by rewrite <- app_assoc].
  unfold filters_selected. fold m. cbn [heap next trace].
  split; [|split; [|split; [|split; [|split; [|split]]]]].
  - rewrite !lookup_insert_ne by lia. rewrite Hh3 by lia. rewrite Hf1 by lia.
    apply lookup_insert_eq.
  - eapply wraps_ext; [exact Hw|]. intros d [Hd1' Hd2']%elem_of_seqZ.
    by rewrite lookup_insert_ne by lia.
  - exists id0. split; [done|]. rewrite lookup_insert_ne by lia. apply lookup_insert_eq.
  - rewrite !lookup_insert_ne by lia. done.
  - rewrite !lookup_insert_ne by lia. done.
  - apply lookup_insert_eq.
  - intros p Hp. rewrite !lookup_insert_ne by lia. rewrite Hh3 by lia.
    rewrite Hf1 by lia. by rewrite lookup_insert_ne by lia.
Qed.

Lemma filters_selected_ext w ids p_base w2 w3 :
  0 < next w ->
  filters_selected w ids p_base w2 ->
  (forall p, next w <= p < next w + 4 + Z.of_nat (length ids) ->
             heap w3 !! p = heap w2 !! p) ->
  (forall p, p < next w -> heap w3 !! p = heap w2 !! p) ->
  filters_selected w ids p_base w3.
Proof.
  intros Hnx (Hc & Hw & (id0 & Hid0 & Hd0) & Hseg & Harr & Hcl & Hf) Hin Hout.
  assert (0 < Z.of_nat (length ids)) as Hm.
  { apply lookup_lt_Some in Hid0. lia. }
  unfold filters_selected. cbn zeta.
  split; [by rewrite Hin by lia|]. split.
  { eapply wraps_ext; [exact Hw|]. intros d [? ?]%elem_of_seqZ. apply Hin. lia. }
  split; [exists id0; split; [done|]; by rewrite Hin by lia|].
  split; [by rewrite Hin by lia|]. split; [by rewrite Hin by lia|].
  split; [by rewrite Hin by lia|]. intros p Hp. rewrite Hout by done. by apply Hf.
Qed.

(** The filtered constructor from the determination of the properties to
    the answer of [clCreateContext]. *)
Lemma wp_filters_create properties pcells ids p_base pfn_notify user_data err Q w w2
    synth ctx_props cells m :
  0 < next w -> err_null_or_unset err = true ->
  m = Z.of_nat (length ids) ->
  filters_selected w ids p_base w2 -> next w2 = next w + 4 + m ->
  (properties ≠ NULL ->
   0 < properties < next w /\ heap w !! properties = Some (BArray pcells)) ->
  synth = (properties =? NULL) ->
  ctx_props = (if synth then next w + 4 + m else properties) ->
  cells = (if synth then default_properties p_base else pcells) ->
  (forall w3,
      filters_selected w ids p_base w3 ->
      ctx_props ≠ NULL -> heap w3 !! ctx_props = Some (BArray cells) ->
      next w3 = next w + 4 + m + (if synth then 1 else 0) ->
      trace w3 = trace w2 ->
      forall h st,
        env_create_context env (trace w2) cells m (Some <$> ids) pfn_notify user_data
          = (h, st) ->
        let w4 := mkWorld (<[next w := BContext (set_cl_object h empty_context)]> (heap w3))
                    (next w3)
                    (trace w2 ++ [EvCreateContext ctx_props cells m (Some <$> ids)
                                    pfn_notify user_data h st]) in
        if CL_SUCCESS =? st
        then wp (update_context (next w) (set_num_devices m) ;;
                 update_context (next w) (set_devices (next w + 1 + m)) ;;
                 g_assert (err_null_or_unset err) "err == NULL || *err == NULL" ;;
                 filters_finish properties (next w) (next w + 2 + m) (next w + 3 + m)
                   ctx_props err)%cmd Q w4
        else wp (filters_error_handler properties (next w) (next w + 2 + m)
                   (next w + 3 + m) ctx_props
                   (propagated err
                      (create_error "cl4_context_new_from_filters_full" st))) Q w4) ->
  wp (filters_create env properties (next w) (next w + 2 + m)
        (mkPtrArray (next w + 1 + m) m) (next w + 3 + m) pfn_notify user_data err) Q w2.
Proof.
  intros Hnx He -> Hsel Hn2 Hprops -> -> -> HQ.
  set (m := Z.of_nat (length ids)) in *.
  pose proof Hsel as (Hc & Hw & (id0 & Hid0 & Hd0) & Hseg & Harr & Hcl & Hf).
  fold m in Hseg, Harr, Hcl, Hw.
  assert (0 < m) as Hm.
  { unfold m. apply lookup_lt_Some in Hid0. lia. }
  assert (seqZ (next w + 1) m !! 0%nat = Some (next w + 1)) as Hfirst.
  { rewrite lookup_seqZ_lt by lia. f_equal. lia. }
  unfold filters_create. cbn [pdata len].
  apply wp_bind. eapply wp_read_cell; [unfold NULL; lia|exact Hseg|done| |].
  { change (Z.to_nat 0) with 0%nat. by rewrite list_lookup_fmap, Hfirst. }
  apply wp_bind.
  destruct (Z.eqb_spec properties NULL) as [->|Hpn].
  - (* default properties, from the cached platform of the first device *)
    eapply wp_done.
    { apply (properties_default_synthesized (next w + 1)
               (mkDevice (mkWrapper id0 1) (Some p_base)) w2);
        [unfold NULL; lia|exact Hd0|lia|unfold NULL; lia]. }
    unfold platform_answer, cache_platform, query_events. cbn [dev_platform fst snd].
    rewrite app_nil_r, Hn2.
    set (w3 := mkWorld _ _ _).
    assert (filters_selected w ids p_base w3) as Hsel3.
    { eapply filters_selected_ext; [done|exact Hsel|..]; intros p Hp; cbn [heap w3];
        by rewrite lookup_insert_ne by (fold m in Hp; lia). }
    pose proof Hsel3 as (Hc3 & _ & _ & _ & _ & Hcl3 & _). fold m in Hcl3.
    apply wp_bind. eapply wp_load_array; [unfold NULL; lia|exact Hcl3|].
    apply wp_bind. eapply wp_clCreateContext;
      [unfold NULL; lia|cbn [heap w3]; apply lookup_insert_eq|].
    cbn zeta. cbn [heap next trace w3].
    destruct (env_create_context env (trace w2) (default_properties p_base) m
                (Some <$> ids) pfn_notify user_data) as [h st] eqn:Hcr.
    cbn [fst snd].
    apply wp_bind. eapply wp_update_context; [unfold NULL; lia|exact Hc3|].
    specialize (HQ w3 Hsel3 ltac:(unfold NULL; lia) ltac:(apply lookup_insert_eq)
                  ltac:(cbn; lia) eq_refl h st eq_refl).
    cbn zeta in HQ. cbn [heap next trace w3] in HQ |- *.
    destruct (CL_SUCCESS =? st); cbn [negb]; [exact HQ|].
    apply wp_bind, wp_g_set_error; [done|]. exact HQ.
  - (* the caller's properties *)
    destruct (Hprops Hpn) as [Hpr Hpb].
    eapply wp_done; [by apply properties_default_given; [|unfold NULL; lia]|].
    cbn [fst snd].
    apply wp_bind. eapply wp_load_array; [unfold NULL; lia|exact Hcl|].
    apply wp_bind. eapply wp_clCreateContext; [done|by rewrite Hf by lia|].
    cbn zeta.
    destruct (env_create_context env (trace w2) pcells m
                (Some <$> ids) pfn_notify user_data) as [h st] eqn:Hcr.
    cbn [fst snd heap next trace].
    apply wp_bind. eapply wp_update_context; [unfold NULL; lia|exact Hc|].
    specialize (HQ w2 Hsel Hpn ltac:(by rewrite Hf by lia) ltac:(lia) eq_refl h st eq_refl).
    cbn zeta in HQ.
    destruct (CL_SUCCESS =? st); cbn [negb]; [exact HQ|].
    apply wp_bind, wp_g_set_error; [done|]. exact HQ.
Qed.

(** The filtered constructor when [clCreateContext] succeeds: the wrapper
    adopts the selected device wrappers and their array; the candidate
    list object, the array of handles and the default properties are
    freed. *)
Lemma wp_new_from_filters_ok properties pcells chain ids id0 p_base pfn_notify user_data
    err w synth ctx_props cells m h :
  err_null_or_unset err = true -> 0 < next w ->
  env_select env (trace w) chain = inl ids -> ids !! 0%nat = Some id0 ->
  env_device_platform env (trace w ++ [EvSelect chain]) id0 = inl p_base ->
  m = Z.of_nat (length ids) ->
  (properties ≠ NULL ->
   0 < properties < next w /\ heap w !! properties = Some (BArray pcells)) ->
  synth = (properties =? NULL) ->
  ctx_props = (if synth then next w + 4 + m else properties) ->
  cells = (if synth then default_properties p_base else pcells) ->
  env_create_context env (trace w ++ [EvSelect chain; EvDeviceInfo id0]) cells m
    (Some <$> ids) pfn_notify user_data = (h, CL_SUCCESS) ->
  wp (cl4_context_new_from_filters_full env properties (Some chain)
        pfn_notify user_data err)
     (fun res w' =>
        res = (next w, err) /\
        trace w' = trace w ++ [EvSelect chain; EvDeviceInfo id0;
                               EvCreateContext ctx_props cells m (Some <$> ids)
                                 pfn_notify user_data h CL_SUCCESS] /\
        built (heap w') (next w) h (next w + 1 + m) (seqZ (next w + 1) m) ids /\
        (synth = true -> heap w' !! ctx_props = None) /\
        heap w' !! (next w + 2 + m) = None /\ heap w' !! (next w + 3 + m) = None /\
        (forall p, p < next w -> heap w' !! p = heap w !! p)) w.
Proof.
  intros He Hnx Hsel Hid0 Hplat Hm Hprops Hs Hcp Hcells Hcr.
  eapply wp_new_from_filters_selected; [done..|]. rewrite <- Hm.
  intros w2 Hsel2 Hn2 Ht2.
  eapply wp_filters_create; [done..|].
  intros w3 Hsel3 Hpn Hp3 Hn3 Ht3 h' st' Hcr'. rewrite Ht2, Hcr in Hcr'.
  injection Hcr' as <- <-. cbn zeta. cbn [CL_SUCCESS Z.eqb].
  pose proof Hsel3 as (Hc & Hw & _ & Hseg & Harr & Hcl & Hf). rewrite <- Hm in *.
  assert (0 < m) as Hmpos.
  { rewrite Hm. apply lookup_lt_Some in Hid0. lia. }
  assert (ctx_props < next w \/ next w + 4 + m <= ctx_props) as Hrange.
  { rewrite Hcp, Hs. destruct (Z.eqb_spec properties NULL) as [E|E]; [lia|].
    destruct (Hprops E). lia. }
  assert (next w ≠ NULL) as Hn0 by (unfold NULL; lia).
  apply wp_bind. eapply wp_update_context; [done|cbn; apply lookup_insert_eq|].
  cbn [heap next trace]. rewrite insert_insert_eq.
  apply wp_bind. eapply wp_update_context; [done|cbn; apply lookup_insert_eq|].
  cbn [heap next trace]. rewrite insert_insert_eq.
  apply wp_bind, wp_g_assert; [done|].
  unfold filters_finish.
  apply wp_bind. eapply wp_properties_default_free.
  { intros _. split; [done|]. cbn [heap]. rewrite lookup_insert_ne by lia. exact Hp3. }
  cbn [heap next trace].
  apply wp_bind. eapply wp_load_ptr_array; [unfold NULL; lia| |].
  { cbn [heap]. rewrite free_default_lookup_ne by lia.
    rewrite lookup_insert_ne by lia. exact Harr. }
  apply wp_bind. eapply wp_g_slice_free1; [unfold NULL; lia| |].
  { cbn [heap]. rewrite free_default_lookup_ne by lia.
    rewrite lookup_insert_ne by lia. exact Hcl. }
  apply wp_bind. eapply wp_g_ptr_array_free_segment_kept; [unfold NULL; lia| |].
  { cbn [heap]. rewrite lookup_delete_ne by lia. rewrite free_default_lookup_ne by lia.
    rewrite lookup_insert_ne by lia. exact Harr. }
  apply wp_ret. cbn [heap next trace].
  set (hp := free_default properties ctx_props _).
  assert (forall p, p ≠ next w + 2 + m -> p ≠ next w + 3 + m ->
                    p ≠ ctx_props -> p ≠ next w ->
                    delete (next w + 2 + m) (delete (next w + 3 + m) hp) !! p = heap w3 !! p)
    as Hkeep.
  { intros p H1 H2 H3 H4. rewrite !lookup_delete_ne by done. unfold hp.
    rewrite free_default_lookup_ne by done. by rewrite lookup_insert_ne. }
  split; [done|]. split; [by rewrite Ht2, <- app_assoc|].
  split; [|split; [|split; [|split]]].
  - unfold built. rewrite length_seqZ, Z2Nat.id by lia.
    split; [|split; [unfold NULL; lia|split; [|split; [apply NoDup_seqZ|]]]].
    + rewrite !lookup_delete_ne by lia. unfold hp.
      rewrite free_default_lookup_ne by lia. apply lookup_insert_eq.
    + rewrite Hkeep by lia. exact Hseg.
    + eapply wraps_ext; [exact Hw|]. intros d [? ?]%elem_of_seqZ. apply Hkeep; lia.
  - intros Hst. rewrite !lookup_delete_ne by lia. unfold hp, free_default.
    rewrite <- Hs, Hst. apply lookup_delete_eq.
  - apply lookup_delete_eq.
  - rewrite lookup_delete_ne by lia. apply lookup_delete_eq.
  - intros p Hp. destruct (decide (p = ctx_props)) as [->|Hne].
    + rewrite !lookup_delete_ne by lia. unfold hp, free_default. rewrite <- Hs.
      destruct synth; [lia|]. rewrite lookup_insert_ne by lia. by apply Hf.
    + rewrite Hkeep by lia. by apply Hf.
Qed.

(** The filtered constructor when [clCreateContext] fails: NULL is returned
    with the error; the element array, the candidate list object, the array
    of handles and the default properties are freed, but the selected
    device wrappers are not released, and when the runtime returned no
    context the wrapper object stays allocated too. *)
Lemma wp_new_from_filters_fails properties pcells chain ids id0 p_base pfn_notify user_data
    err w synth ctx_props cells m h st :
  err_null_or_unset err = true -> 0 < next w ->
  env_select env (trace w) chain = inl ids -> ids !! 0%nat = Some id0 ->
  env_device_platform env (trace w ++ [EvSelect chain]) id0 = inl p_base ->
  m = Z.of_nat (length ids) ->
  (properties ≠ NULL ->
   0 < properties < next w /\ heap w !! properties = Some (BArray pcells)) ->
  synth = (properties =? NULL) ->
  ctx_props = (if synth then next w + 4 + m else properties) ->
  cells = (if synth then default_properties p_base else pcells) ->
  env_create_context env (trace w ++ [EvSelect chain; EvDeviceInfo id0]) cells m
    (Some <$> ids) pfn_notify user_data = (h, st) ->
  st ≠ CL_SUCCESS ->
  wp (cl4_context_new_from_filters_full env properties (Some chain)
        pfn_notify user_data err)
     (fun res w' =>
        res = (NULL, propagated err
                       (create_error "cl4_context_new_from_filters_full" st)) /\
        (exists evs,
            trace w' = trace w ++ [EvSelect chain; EvDeviceInfo id0;
                                   EvCreateContext ctx_props cells m (Some <$> ids)
                                     pfn_notify user_data h st] ++ evs) /\
        (synth = true -> heap w' !! ctx_props = None) /\
        heap w' !! (next w + 1 + m) = None /\
        heap w' !! (next w + 2 + m) = None /\ heap w' !! (next w + 3 + m) = None /\
        wraps (heap w') (seqZ (next w + 1) m) ids /\
        (h = NULL -> heap w' !! next w =
                       Some (BContext (mkContext (mkWrapper NULL 0) NULL 0 NULL))) /\
        (forall p, p < next w -> heap w' !! p = heap w !! p)) w.
Proof.
  intros He Hnx Hsel Hid0 Hplat Hm Hprops Hs Hcp Hcells Hcr Hst.
  eapply wp_new_from_filters_selected; [done..|]. rewrite <- Hm.
  intros w2 Hsel2 Hn2 Ht2.
  eapply wp_filters_create; [done..|].
  intros w3 Hsel3 Hpn Hp3 Hn3 Ht3 h' st' Hcr'. rewrite Ht2, Hcr in Hcr'.
  injection Hcr' as <- <-. cbn zeta.
  destruct (Z.eqb_spec CL_SUCCESS st) as [E|_]; [congruence|].
  pose proof Hsel3 as (Hc & Hw & _ & Hseg & Harr & Hcl & Hf). rewrite <- Hm in *.
  assert (0 < m) as Hmpos.
  { rewrite Hm. apply lookup_lt_Some in Hid0. lia. }
  assert (ctx_props < next w \/ next w + 4 + m <= ctx_props) as Hrange.
  { rewrite Hcp, Hs. destruct (Z.eqb_spec properties NULL) as [E|E]; [lia|].
    destruct (Hprops E). lia. }
  assert (next w ≠ NULL) as Hn0 by (unfold NULL; lia).
  set (c4 := set_cl_object h empty_context).
  set (w4 := mkWorld _ _ _).
  unfold filters_error_handler.
  apply wp_bind, wp_g_assert; [apply propagated_null_or_set|].
  apply wp_bind.
  assert (wp (cl4_context_destroy (next w))
             (fun _ w5 =>
                next w5 = next w3 /\ (exists evs, trace w5 = trace w4 ++ evs) /\
                (forall p, p ≠ next w -> heap w5 !! p = heap w3 !! p) /\
                (h = NULL -> heap w5 !! next w =
                               Some (BContext (mkContext (mkWrapper NULL 0) NULL 0 NULL))))
             w4) as Hdestroy.
  { destruct (decide (h = NULL)) as [Hh|Hh].
    - eapply wp_cl4_context_destroy_no_object; [done|apply lookup_insert_eq|done|].
      cbn [heap next trace w4]. split; [done|]. split; [by exists []; rewrite app_nil_r|].
      split.
      + intros p Hp. by rewrite !lookup_insert_ne.
      + intros _. rewrite lookup_insert_eq. unfold c4. by rewrite Hh.
    - eapply wp_mono.
      { eapply (wp_cl4_context_destroy_last (next w) c4 [] w4);
          [done|apply lookup_insert_eq|done|done| |by intros ?].
        unfold owns_devices. cbn [devices c4 set_cl_object empty_context].
        rewrite decide_True by done. split; [done|]. split; [constructor|].
        by intros d ?%elem_of_nil. }
      intros _ w5 (Hn5 & Ht5 & Hc5 & _ & _ & _ & Hf5).
      split; [done|]. split; [by eauto|]. split; [|done].
      intros p Hp. rewrite Hf5; [|by intros ?%elem_of_nil|done|by right|by right].
      cbn [heap w4]. by rewrite lookup_insert_ne. }
  eapply wp_mono; [exact Hdestroy|]. clear Hdestroy.
  intros _ w5 (Hn5 & [evs Ht5] & Hf5 & Hleak).
  destruct (Z.eqb_spec (next w + 2 + m) NULL) as [E|_]; [unfold NULL in E; lia|].
  apply wp_bind, wp_bind. eapply wp_load_ptr_array; [unfold NULL; lia| |].
  { rewrite Hf5 by lia. exact Harr. }
  cbn [pdata]. eapply wp_g_free; [unfold NULL; lia| |].
  { rewrite Hf5 by lia. exact Hseg. }
  unfold filters_finish.
  apply wp_bind. eapply wp_properties_default_free.
  { intros _. split; [done|]. cbn [heap]. rewrite lookup_delete_ne by lia.
    rewrite Hf5 by lia. exact Hp3. }
  cbn [heap next trace].
  apply wp_bind. eapply wp_load_ptr_array; [unfold NULL; lia| |].
  { cbn [heap]. rewrite free_default_lookup_ne by lia.
    rewrite lookup_delete_ne by lia. rewrite Hf5 by lia. exact Harr. }
  apply wp_bind. eapply wp_g_slice_free1; [unfold NULL; lia| |].
  { cbn [heap]. rewrite free_default_lookup_ne by lia.
    rewrite lookup_delete_ne by lia. rewrite Hf5 by lia. exact Hcl. }
  apply wp_bind. eapply wp_g_ptr_array_free_segment_kept; [unfold NULL; lia| |].
  { cbn [heap]. rewrite lookup_delete_ne by lia. rewrite free_default_lookup_ne by lia.
    rewrite lookup_delete_ne by lia. rewrite Hf5 by lia. exact Harr. }
  apply wp_ret. cbn [heap next trace].
  set (hp := free_default properties ctx_props _).
  assert (forall p, p ≠ next w + 1 + m -> p ≠ next w + 2 + m -> p ≠ next w + 3 + m ->
                    p ≠ ctx_props ->
                    delete (next w + 2 + m) (delete (next w + 3 + m) hp) !! p = heap w5 !! p)
    as Hkeep.
  { intros p H1 H2 H3 H4. rewrite !lookup_delete_ne by done. unfold hp.
    rewrite free_default_lookup_ne by done. by rewrite lookup_delete_ne. }
  split; [done|]. split.
  { exists evs. rewrite Ht5. cbn [trace w4]. rewrite Ht2, <- !app_assoc. done. }
  split; [|split; [|split; [|split; [|split; [|split]]]]].
  - intros Hsy. rewrite !lookup_delete_ne by lia. unfold hp, free_default.
    rewrite <- Hs, Hsy. apply lookup_delete_eq.
  - rewrite !lookup_delete_ne by lia. unfold hp.
    rewrite free_default_lookup_ne by lia. apply lookup_delete_eq.
  - apply lookup_delete_eq.
  - rewrite lookup_delete_ne by lia. apply lookup_delete_eq.
  - eapply wraps_ext; [exact Hw|]. intros d [? ?]%elem_of_seqZ.
    rewrite Hkeep by lia. apply Hf5. lia.
  - intros Hh. rewrite Hkeep by lia. by apply Hleak.
  - intros p Hp. destruct (decide (p = ctx_props)) as [->|Hne].
    + rewrite !lookup_delete_ne by lia. unfold hp, free_default. rewrite <- Hs.
      destruct synth; [lia|]. rewrite lookup_delete_ne by lia.
      rewrite Hf5 by lia. by apply Hf.
    + rewrite Hkeep by lia. rewrite Hf5 by lia. by apply Hf.
Qed.

End Proofs.

(** ** The claims *)

(** C2: when the selection engine evaluates the filter chain to an empty
    candidate list, [cl4_context_new_from_filters_full] returns NULL and
    its error output, when there is one, receives the error
    [CL4_ERROR_DEVICE_NOT_FOUND]; no OpenCL context is created. *)
Theorem empty_selection_is_device_not_found env properties chain pfn_notify user_data err w :
  err_null_or_unset err = true -> 0 < next w ->
  env_select env (trace w) chain = inl [] ->
  exists w',
    cl4_context_new_from_filters_full env properties (Some chain) pfn_notify user_data err w
      = Done (NULL, propagated err device_not_found_error) w' /\
    code device_not_found_error = CL4_ERROR_DEVICE_NOT_FOUND /\
    trace w' = trace w ++ [EvSelect chain].
Proof.
  intros He Hn Hsel.
  enough (wp (cl4_context_new_from_filters_full env properties (Some chain)
                pfn_notify user_data err)
             (fun r w' => r = (NULL, propagated err device_not_found_error) /\
                          trace w' = trace w ++ [EvSelect chain]) w) as H.
  { apply wp_elim in H as (r & w' & Hrun & -> & Ht). by exists w'. }
  unfold cl4_context_new_from_filters_full. rewrite He. cbn [negb].
  apply wp_bind, wp_cl4_context_new_internal; [unfold NULL; lia|].
  apply wp_bind. unfold cl4_devsel_select.
  apply wp_bind, wp_get_trace. apply wp_bind, wp_emit. cbn [heap next trace].
  rewrite Hsel. cbn [wrap_selected].
  apply wp_bind, wp_ret. apply wp_bind, wp_ret. apply wp_bind, wp_alloc, wp_ret.
  cbn [fst snd heap next trace length Z.of_nat].
  assert (next w ≠ NULL /\ next w + 1 ≠ NULL) as [Hn0 Hn1] by (unfold NULL; lia).
  apply wp_bind. eapply wp_load_ptr_array; [done|cbn; apply lookup_insert_eq|].
  cbn [len Z.eqb].
  apply wp_bind, wp_g_set_error; [done|]. fold device_not_found_error.
  unfold filters_error_handler.
  apply wp_bind, wp_g_assert; [apply propagated_null_or_set|].
  apply wp_bind. eapply wp_cl4_context_destroy_no_object; [done| | |].
  { cbn. rewrite lookup_insert_ne by lia. apply lookup_insert_eq. }
  { done. }
  cbn [heap next trace].
  destruct (Z.eqb_spec (next w + 1) NULL); [done|].
  apply wp_bind, wp_bind. eapply wp_load_ptr_array; [done| |].
  { cbn. rewrite lookup_insert_ne by lia. apply lookup_insert_eq. }
  cbn [pdata]. apply wp_g_free_null.
  unfold filters_finish, cl4_context_properties_default_free.
  apply wp_bind.
  assert (forall Q (w0 : world),
             Q tt w0 ->
             wp (if properties =? NULL
                 then g_slice_free1 (3 * sizeof_cl_context_properties) NULL
                 else ret tt) Q w0) as Hfree.
  { intros Q w0 HQ. by destruct (properties =? NULL). }
  apply Hfree.
  apply wp_bind. eapply wp_load_ptr_array; [done| |].
  { cbn. rewrite lookup_insert_ne by lia. apply lookup_insert_eq. }
  apply wp_bind, wp_g_slice_free1_null.
  apply wp_bind. eapply wp_g_ptr_array_free_segment_kept; [done| |].
  { cbn. rewrite lookup_insert_ne by lia. apply lookup_insert_eq. }
  by apply wp_ret.
Qed.

Lemma empty_selection_is_device_not_found_witness :
  exists w',
    cl4_context_new_from_filters_full no_device_env
      NULL (Some [DepFilter cl4_devsel_dep_platform NULL]) NULL NULL (Some None)
      (mkWorld ∅ 1 [])
    = Done (NULL, Some (Some device_not_found_error)) w'.
Proof.
  destruct (empty_selection_is_device_not_found no_device_env
              NULL [DepFilter cl4_devsel_dep_platform NULL] NULL NULL (Some None)
              (mkWorld ∅ 1 []))
    as (w' & Hrun & _); [reflexivity|reflexivity|reflexivity|].
  exists w'. exact Hrun.
Defined.

(** C7: [cl4_context_destroy] decrements the reference count of the
    wrapper.  While the count stays above 0 nothing else changes: only the
    count field of the wrapper is written and no collaborator is called.
    When the count reaches 0, every slot of the device array is released
    once ([unref_events], in slot order), the device array is freed, the
    platform wrapper is released if there is one, the wrapper object is
    freed and the OpenCL context is released, once, as the last event.
    This holds for every wrapper that holds an OpenCL context and owns its
    devices and platform, which is what each constructor builds. *)
Theorem destroy_releases_on_last_reference ctx c ds w :
  ctx ≠ NULL -> heap w !! ctx = Some (BContext c) ->
  cl_object (base c) ≠ NULL ->
  owns_devices (heap w) c ds -> owns_platform (heap w) c ->
  (1 < ref_count (base c) ->
   cl4_context_destroy ctx w =
   Done tt (mkWorld (<[ctx := BContext (set_ref_count (ref_count (base c) - 1) c)]> (heap w))
                    (next w) (trace w))) /\
  (ref_count (base c) = 1 ->
   exists w',
     cl4_context_destroy ctx w = Done tt w' /\
     next w' = next w /\
     trace w' = trace w ++ concat (unref_events (heap w) <$> ds)
                  ++ platform_unref_events (heap w) (platform c)
                  ++ [EvReleaseContext (cl_object (base c))] /\
     heap w' !! ctx = None /\
     (devices c ≠ NULL -> heap w' !! devices c = None) /\
     (forall d, d ∈ ds -> d ≠ NULL -> heap w' !! d = unref_block (heap w) d) /\
     (platform c ≠ NULL ->
      heap w' !! platform c = unref_platform_block (heap w) (platform c)) /\
     (forall p, p ∉ ds -> p ≠ ctx ->
                p ≠ devices c \/ devices c = NULL ->
                p ≠ platform c \/ platform c = NULL ->
                heap w' !! p = heap w !! p)).
Proof.
  intros Hctx Hb Hobj Hdev Hplat. split.
  - intros Hrc. apply cl4_context_destroy_shared; [done..|lia].
  - intros Hrc.
    destruct (wp_elim _ _ _ (wp_cl4_context_destroy_last ctx c ds w Hctx Hb Hrc Hobj Hdev Hplat))
      as ([] & w' & Hrun & Hpost).
    by exists w'.
Qed.

Lemma destroy_releases_on_last_reference_witness :
  exists w',
    cl4_context_destroy 1 materialized_world = Done tt w' /\
    trace w' = [EvContextInfo 500; EvDeviceUnref 3; EvReleaseDevice 101;
                EvDeviceUnref 4; EvReleaseDevice 102; EvReleaseContext 500] /\
    heap w' !! 1 = None /\ heap w' !! 2 = None.
Proof.
  destruct (destroy_releases_on_last_reference 1
              (mkContext (mkWrapper 500 1) NULL 2 2) [3; 4] materialized_world)
    as [_ H]; [discriminate|reflexivity|discriminate|
               |intros Hp; exfalso; apply Hp; reflexivity|].
  { split; [split; reflexivity|]. split.
    - change (NoDup [3; 4]). apply NoDup_cons. split; [|apply NoDup_singleton].
      intros Hin%list_elem_of_In. destruct Hin as [Hin|[]]; discriminate.
    - intros d Hd _. apply list_elem_of_In in Hd.
      destruct Hd as [<-|[<-|[]]]; eexists; reflexivity. }
  destruct (H eq_refl) as (w' & Hrun & _ & Ht & Hc & Ha & _).
  exists w'. split; [exact Hrun|]. split; [exact Ht|]. split; [exact Hc|].
  apply Ha. discriminate.
Defined.



(** C1 (violated by the code): the loop of the filtered constructor asks
    for the platform of [devices->pdata[0]] in every iteration instead of
    [devices->pdata[i]], so the comparison with the base platform never
    fails.  Here the two selected devices 101 and 102 are on the different
    platforms 11 and 12: the constructor succeeds, as the claim says, but
    logs no warning, and the runtime is asked for the platform of device
    101 only. *)
Theorem mixed_platforms_are_not_noticed :
  let run := cl4_context_new_from_filters_full test_env NULL
               (Some [DepFilter cl4_devsel_dep_platform NULL]) NULL NULL (Some None)
               (mkWorld ∅ 1 []) in
  env_device_platform test_env [] 101 = inl 11 /\
  env_device_platform test_env [] 102 = inl 12 /\
  returned run = Some (1, Some None) /\
  List.filter is_warning (trace (final run)) = [] /\
  trace (final run) =
    [EvSelect [DepFilter cl4_devsel_dep_platform NULL]; EvDeviceInfo 101;
     EvCreateContext 7 [Some CL_CONTEXT_PLATFORM; Some 11; Some 0] 2
       [Some 101; Some 102] NULL NULL 500 CL_SUCCESS].
Proof. vm_compute. repeat split; reflexivity. Qed.

(** C3 (violated by the code): cleanup after a failed construction.
    When [clCreateContext] fails in the explicit-devices constructor, the
    wrapper holds no OpenCL context, so [cl4_context_destroy] only drops the
    count to 0: the wrapper (address 1), its device array (2) and the device
    wrappers (3, 4) stay allocated.  When the selection engine fails in the
    filtered constructor, [devices] is NULL and the code after [finish]
    reads [devices->len]: a NULL access. *)
Theorem failed_construction_leaks_and_faults :
  let run := cl4_context_new_from_cldevices_full create_fails_env NULL 2
               (Some [101; 102]) NULL NULL (Some None) (mkWorld ∅ 1 []) in
  returned run =
    Some (NULL, Some (Some (create_error "cl4_context_new_from_cldevices_full" (-5)))) /\
  heap (final run) !! 1 = Some (BContext (mkContext (mkWrapper NULL 0) NULL 2 2)) /\
  heap (final run) !! 2 = Some (BArray [Some 3; Some 4]) /\
  heap (final run) !! 3 = Some (BDevice (mkDevice (mkWrapper 101 1) (Some 11))) /\
  heap (final run) !! 4 = Some (BDevice (mkDevice (mkWrapper 102 1) None)) /\
  List.filter is_device_unref (trace (final run)) = [] /\
  exists w',
    cl4_context_new_from_filters_full select_fails_env NULL
      (Some [DepFilter cl4_devsel_dep_platform NULL]) NULL NULL (Some None)
      (mkWorld ∅ 1 []) = Fault NullDeref w'.
Proof. vm_compute. repeat split; try reflexivity. eexists. reflexivity. Qed.

(** C4 (violated by the code): the explicit-devices constructor does not
    look at the error of [cl4_context_properties_default].  Here the
    platform of the first device cannot be queried: the error is dropped,
    [clCreateContext] is given the uninitialised property list, and since
    the runtime accepts it the constructor returns a wrapper with the error
    output unset. *)
Theorem properties_error_is_dropped :
  let run := cl4_context_new_from_cldevices_full platform_fails_env NULL 2
               (Some [101; 102]) NULL NULL (Some None) (mkWorld ∅ 1 []) in
  env_device_platform platform_fails_env [] 101 = inr query_failed /\
  returned run = Some (1, Some None) /\
  trace (final run) =
    [EvDeviceInfo 101;
     EvCreateContext 5 [None; None; None] 2 [Some 101; Some 102] NULL NULL 500 CL_SUCCESS].
Proof. vm_compute. repeat split; reflexivity. Qed.

(** C8: both the explicit-devices and the filtered constructor hand the
    caller's property list to [clCreateContext] as it is when [properties]
    is not NULL, and leave it allocated.  When [properties] is NULL they
    build a list of three entries (the key [CL_CONTEXT_PLATFORM], the
    platform [p] of the first device, and 0), hand that to
    [clCreateContext], and free it before returning, whether the creation
    succeeds or not. *)
Theorem properties_used_and_freed env properties pcells p pfn_notify user_data err w
    num devs id0 chain ids sid0 :
  err_null_or_unset err = true -> 0 < next w ->
  (properties ≠ NULL ->
   0 < properties < next w /\ heap w !! properties = Some (BArray pcells)) ->
  0 < num -> Z.of_nat (length devs) = num ->
  (forall j, 0 <= j < num -> devs !! Z.to_nat j ≠ Some NULL) ->
  devs !! 0%nat = Some id0 ->
  env_device_platform env (trace w) id0 = inl p ->
  env_select env (trace w) chain = inl ids -> ids !! 0%nat = Some sid0 ->
  env_device_platform env (trace w ++ [EvSelect chain]) sid0 = inl p ->
  let cells := if properties =? NULL
               then [Some CL_CONTEXT_PLATFORM; Some p; Some 0]
               else pcells in
  let handled (ctx_props : Z) (w' : world) :=
    if properties =? NULL
    then heap w' !! ctx_props = None
    else ctx_props = properties /\ heap w' !! properties = Some (BArray pcells) in
  (exists res w' ctx_props h st,
      cl4_context_new_from_cldevices_full env properties num (Some devs)
        pfn_notify user_data err w = Done res w' /\
      EvCreateContext ctx_props cells num (Some <$> devs) pfn_notify user_data h st
        ∈ trace w' /\
      handled ctx_props w') /\
  (exists res w' ctx_props h st,
      cl4_context_new_from_filters_full env properties (Some chain)
        pfn_notify user_data err w = Done res w' /\
      EvCreateContext ctx_props cells (Z.of_nat (length ids)) (Some <$> ids)
        pfn_notify user_data h st ∈ trace w' /\
      handled ctx_props w').
Proof.
  intros He Hnx Hprops Hnum Hlen Hnn Hid0 Hplat Hsel Hsid0 Hsplat cells handled.
  assert (forall ctx_props w',
             ((properties =? NULL) = true -> heap w' !! ctx_props = None) ->
             ctx_props = (if properties =? NULL then ctx_props else properties) ->
             (forall q, q < next w -> heap w' !! q = heap w !! q) ->
             handled ctx_props w') as Hhandled.
  { intros ctx_props w' Hfreed Hcp Hframe. unfold handled.
    destruct (Z.eqb_spec properties NULL) as [E|E]; [by apply Hfreed|].
    split; [done|]. destruct (Hprops E) as [Hr Hb]. by rewrite Hframe by lia. }
  split.
  - pose (a := env_create_context env
                 (trace w ++ (if properties =? NULL then [EvDeviceInfo id0] else []))
                 cells num (Some <$> devs) pfn_notify user_data).
    destruct (decide (snd a = CL_SUCCESS)) as [Hst|Hst].
    + pose proof (wp_new_from_cldevices_ok env properties pcells num devs id0 pfn_notify
                    user_data err w Hnum Hlen Hnn Hid0 He Hnx Hprops) as H.
      cbn zeta in H. rewrite Hplat in H. specialize (H Hst).
      apply wp_elim in H as (res & w' & Hrun & _ & Ht & _ & Hfreed & Hframe & _).
      eexists res, w', _, _, _. split; [exact Hrun|]. split.
      * rewrite Ht. apply elem_of_app. right. apply list_elem_of_singleton. reflexivity.
      * apply Hhandled; [done| |done]. by destruct (properties =? NULL).
    + pose proof (wp_new_from_cldevices_fails env properties pcells num devs id0 pfn_notify
                    user_data err w Hnum Hlen Hnn Hid0 He Hnx Hprops) as H.
      cbn zeta in H. rewrite Hplat in H. specialize (H Hst).
      apply wp_elim in H as (res & w' & Hrun & _ & [evs Ht] & Hfreed & Hframe & _).
      eexists res, w', _, _, _. split; [exact Hrun|]. split.
      * rewrite Ht. apply elem_of_app. right. apply elem_of_app. left.
        apply list_elem_of_singleton. reflexivity.
      * apply Hhandled; [done| |done]. by destruct (properties =? NULL).
  - destruct (env_create_context env (trace w ++ [EvSelect chain; EvDeviceInfo sid0])
                cells (Z.of_nat (length ids)) (Some <$> ids) pfn_notify user_data)
      as [h st] eqn:Hcr.
    destruct (decide (st = CL_SUCCESS)) as [->|Hst].
    + pose proof (wp_new_from_filters_ok env properties pcells chain ids sid0 p pfn_notify
                    user_data err w _ _ cells _ h He Hnx Hsel Hsid0 Hsplat eq_refl Hprops
                    eq_refl eq_refl eq_refl Hcr) as H.
      apply wp_elim in H as (res & w' & Hrun & _ & Ht & _ & Hfreed & _ & _ & Hframe).
      eexists res, w', _, _, _. split; [exact Hrun|]. split.
      * rewrite Ht. apply elem_of_app. right. repeat constructor.
      * apply Hhandled; [done| |done]. by destruct (properties =? NULL).
    + pose proof (wp_new_from_filters_fails env properties pcells chain ids sid0 p pfn_notify
                    user_data err w _ _ cells _ h st He Hnx Hsel Hsid0 Hsplat eq_refl Hprops
                    eq_refl eq_refl eq_refl Hcr Hst) as H.
      apply wp_elim in H
        as (res & w' & Hrun & _ & [evs Ht] & Hfreed & _ & _ & _ & _ & _ & Hframe).
      eexists res, w', _, _, _. split; [exact Hrun|]. split.
      * rewrite Ht. apply elem_of_app. right. repeat constructor.
      * apply Hhandled; [done| |done]. by destruct (properties =? NULL).
Qed.

Lemma properties_used_and_freed_witness :
  exists res w' ctx_props h st,
    cl4_context_new_from_cldevices_full test_env NULL 2 (Some [101; 102]) NULL NULL
      (Some None) (mkWorld ∅ 1 []) = Done res w' /\
    EvCreateContext ctx_props [Some CL_CONTEXT_PLATFORM; Some 11; Some 0] 2
      [Some 101; Some 102] NULL NULL h st ∈ trace w' /\
    heap w' !! ctx_props = None.
Proof.
  destruct (properties_used_and_freed test_env NULL [] 11 NULL NULL (Some None)
              (mkWorld ∅ 1 []) 2 [101; 102] 101 [] [101; 102] 101) as [H _].
  - reflexivity.
  - reflexivity.
  - intros Hne. exfalso. apply Hne. reflexivity.
  - reflexivity.
  - reflexivity.
  - intros j Hj. assert (j = 0 \/ j = 1) as [-> | ->] by lia; discriminate.
  - reflexivity.
  - reflexivity.
  - reflexivity.
  - reflexivity.
  - reflexivity.
  - exact H.
Defined.

(** C10: when the lazy materialisation of the device list fails because the
    native device-list query returns an error, [cl4_context_num_devices]
    returns 0 and [cl4_context_get_device] returns NULL, each with the error
    in its error output, and the heap is unchanged ([devices] still unset,
    [num_devices] still 0).  The failure is not cached: the next call asks
    the runtime again, and reports its error or, when the query now
    succeeds, materialises the device list. *)
Theorem failed_materialization_is_not_cached env ctx c err e w :
  0 < ctx < next w -> heap w !! ctx = Some (BContext c) ->
  devices c = NULL -> num_devices c = 0 ->
  err_null_or_unset err = true ->
  env_context_devices env (trace w) (cl_object (base c)) = inr e ->
  let query := EvContextInfo (cl_object (base c)) in
  let w' := mkWorld (heap w) (next w) (trace w ++ [query]) in
  cl4_context_num_devices env ctx err w = Done (0, propagated err e) w' /\
  (forall index,
      cl4_context_get_device env ctx index err w = Done (NULL, propagated err e) w') /\
  (forall err2 e2,
      err_null_or_unset err2 = true ->
      env_context_devices env (trace w') (cl_object (base c)) = inr e2 ->
      cl4_context_num_devices env ctx err2 w' =
      Done (0, propagated err2 e2) (mkWorld (heap w) (next w) (trace w' ++ [query]))) /\
  (forall err2 info,
      err_null_or_unset err2 = true ->
      env_context_devices env (trace w') (cl_object (base c)) = inl info ->
      let n := to_cl_uint (size info / sizeof_cl_device_id) in
      n <= Z.of_nat (length (value info)) ->
      (exists w'', cl4_context_num_devices env ctx err2 w' = Done (n, err2) w'' /\
                   trace w'' = trace w' ++ [query] /\
                   materialized w' ctx c (value info) n w'') /\
      (forall index, 0 <= index < n ->
         exists w'', cl4_context_get_device env ctx index err2 w' =
                       Done (next w + 1 + index, err2) w'' /\
                     trace w'' = trace w' ++ [query])).
Proof.
  intros Hp Hb Hd Hn He Hq query w'.
  assert (ctx ≠ NULL) as Hctx by (unfold NULL; lia).
  split; [|split; [|split]].
  - rewrite <- Hn. by apply num_devices_lazy_fails.
  - intros index. by apply get_device_lazy_fails.
  - intros err2 e2 He2 Hq2. rewrite <- Hn.
    by apply (num_devices_lazy_fails env ctx c err2 e2 w').
  - intros err2 info He2 Hq2 n Hlen. split.
    + destruct (wp_elim _ _ _ (wp_num_devices_lazy env ctx c err2 info w' Hp Hb Hd He2 Hq2 Hlen))
        as (r & w'' & Hrun & -> & Ht & Hm).
      by exists w''.
    + intros index Hi.
      assert (0 <= index) as Hi0 by lia.
      destruct (wp_elim _ _ _ (wp_get_device_lazy env ctx c index err2 info w'
                                 Hp Hb Hd He2 Hq2 Hlen Hi0))
        as (r & w'' & Hrun & Hr & Ht & _).
      fold n in Hr, Ht. destruct (Z.ltb_spec index n); [|lia].
      exists w''. rewrite Hrun, Hr. split; [done|]. rewrite Ht. by rewrite app_nil_r.
Qed.

Lemma failed_materialization_is_not_cached_witness :
  cl4_context_num_devices flaky_env 1 (Some None) lazy_world =
    Done (0, Some (Some query_failed))
         (mkWorld (heap lazy_world) 2 [EvContextInfo 500]) /\
  exists w'',
    cl4_context_num_devices flaky_env 1 (Some None)
      (mkWorld (heap lazy_world) 2 [EvContextInfo 500]) = Done (2, Some None) w''.
Proof.
  destruct (failed_materialization_is_not_cached flaky_env 1
              (mkContext (mkWrapper 500 1) NULL 0 NULL) (Some None) query_failed lazy_world)
    as (H1 & _ & _ & H4); [vm_compute; split; reflexivity|reflexivity..|].
  split; [exact H1|].
  destruct (H4 (Some None) (mkInfo [101; 102] 16)) as [(w'' & Hrun & _) _];
    [reflexivity|reflexivity|vm_compute; discriminate|].
  exists w''. exact Hrun.
Defined.

(** C5: a context wrapper built from an external native context has no
    device list at first ([devices] is NULL, [num_devices] is 0).  The first
    call of [cl4_context_num_devices] or [cl4_context_get_device] asks the
    native context for its devices, sets [num_devices] to the returned size
    in bytes divided by the size of a device handle, wraps every returned
    handle in a new device wrapper and keeps the array of wrappers, whose
    length is that device count; a later call answers from the wrapper
    without asking again. *)
Theorem lazy_device_list_materialization env context err w :
  context ≠ NULL -> err_null_or_unset err = true -> 0 < next w ->
  env_retain_context env (trace w) context = CL_SUCCESS ->
  let ctx := next w in
  let c := mkContext (mkWrapper context 1) NULL 0 NULL in
  exists w1,
    cl4_context_new_from_clcontext env context err w = Done (ctx, err) w1 /\
    heap w1 !! ctx = Some (BContext c) /\
    forall info err1,
      err_null_or_unset err1 = true ->
      env_context_devices env (trace w1) context = inl info ->
      size info = sizeof_cl_device_id * Z.of_nat (length (value info)) ->
      Z.of_nat (length (value info)) < 2 ^ 32 ->
      let n := size info / sizeof_cl_device_id in
      n = Z.of_nat (length (value info)) /\
      (exists w2,
          cl4_context_num_devices env ctx err1 w1 = Done (n, err1) w2 /\
          trace w2 = trace w1 ++ [EvContextInfo context] /\
          materialized w1 ctx c (value info) n w2 /\
          (n ≠ 0 -> forall err2, err_null_or_unset err2 = true ->
                    cl4_context_num_devices env ctx err2 w2 = Done (n, err2) w2)) /\
      (forall index, 0 <= index < n ->
         exists w2,
           cl4_context_get_device env ctx index err1 w1 =
             Done (next w1 + 1 + index, err1) w2 /\
           trace w2 = trace w1 ++ [EvContextInfo context] /\
           materialized w1 ctx c (value info) n w2 /\
           forall err2, err_null_or_unset err2 = true ->
             cl4_context_get_device env ctx index err2 w2 =
               Done (next w1 + 1 + index, err2) w2).
Proof.
  intros Hc He Hn Hr ctx c.
  set (w1 := mkWorld (<[next w := BContext (set_cl_object context empty_context)]> (heap w))
                     (next w + 1) (trace w ++ [EvRetainContext context CL_SUCCESS])).
  exists w1. split; [by apply new_from_clcontext_ok|].
  split; [apply lookup_insert_eq|].
  intros info err1 He1 Hq Hsize Hbound n.
  assert (n = Z.of_nat (length (value info))) as Hnlen.
  { unfold n. rewrite Hsize. unfold sizeof_cl_device_id.
    rewrite Z.mul_comm, Z.div_mul by lia. done. }
  assert (to_cl_uint n = n) as Hwrap.
  { unfold to_cl_uint. apply Z.mod_small. lia. }
  assert (0 < ctx < next w1) as Hp by (unfold ctx, w1; cbn; lia).
  assert (heap w1 !! ctx = Some (BContext c)) as Hb by apply lookup_insert_eq.
  assert (to_cl_uint (size info / sizeof_cl_device_id) <= Z.of_nat (length (value info)))
    as Hlen by (fold n; lia).
  split; [done|]. split.
  - destruct (wp_elim _ _ _ (wp_num_devices_lazy env ctx c err1 info w1 Hp Hb eq_refl He1 Hq Hlen))
      as (r & w2 & Hrun & Hres & Ht & Hm).
    fold n in Hres, Hm. rewrite Hwrap in Hres, Hm. subst r.
    exists w2. split; [done|]. split; [done|]. split; [done|].
    intros Hn0 err2 He2. destruct Hm as (Hc2 & _).
    rewrite decide_False in Hc2 by done.
    apply (num_devices_cached env ctx (mkContext (base c) (platform c) n (next w1)) err2 w2);
      [unfold NULL; lia|done| |done].
    cbn. unfold NULL. cbn in Hp. lia.
  - intros index Hi. assert (0 <= index) as Hi0 by lia.
    destruct (wp_elim _ _ _ (wp_get_device_lazy env ctx c index err1 info w1
                               Hp Hb eq_refl He1 Hq Hlen Hi0))
      as (r & w2 & Hrun & Hres & Ht & w3 & Hm & Hh & Hnx).
    fold n in Hres, Ht, Hm. rewrite Hwrap in Hres, Ht, Hm.
    destruct (Z.ltb_spec index n); [|lia]. rewrite app_nil_r in Ht. subst r.
    assert (materialized w1 ctx c (value info) n w2) as Hm2.
    { destruct Hm as (H1 & H2 & H3 & H4 & H5). unfold materialized.
      rewrite Hh, Hnx. done. }
    exists w2. split; [done|]. split; [done|]. split; [done|].
    intros err2 He2. destruct Hm2 as (Hc2 & Ha2 & _).
    rewrite decide_False in Hc2, Ha2 by lia.
    eapply (get_device_cached_in_range env ctx (mkContext (base c) (platform c) n (next w1)));
      [unfold NULL; lia|done| |done|done|apply Ha2; lia|].
    + cbn. unfold NULL. cbn in Hp. lia.
    + rewrite list_lookup_fmap, lookup_seqZ_lt by lia. rewrite Z2Nat.id by lia. done.
Qed.

Lemma lazy_device_list_materialization_witness :
  exists w1,
    cl4_context_new_from_clcontext test_env 500 (Some None) (mkWorld ∅ 1 [])
      = Done (1, Some None) w1 /\
    exists w2, cl4_context_num_devices test_env 1 (Some None) w1 = Done (2, Some None) w2.
Proof.
  destruct (lazy_device_list_materialization test_env 500 (Some None)
              (mkWorld ∅ 1 []))
    as (w1 & Hnew & Hb & Hlazy); [discriminate|reflexivity|reflexivity|reflexivity|].
  exists w1. split; [exact Hnew|].
  destruct (Hlazy (mkInfo [101; 102] 16) (Some None)) as (_ & (w2 & Hrun & _) & _);
    [reflexivity..|].
  exists w2. exact Hrun.
Defined.

(** C6 (corrected): an index that is not below the number of devices of
    the context (as [cl4_context_num_devices] reports it without error)
    makes [cl4_context_get_device] fail, but not by a hard assertion: the
    check [index < ctx->num_devices] is a [g_return_val_if_fail], which logs
    a critical message and ends the call with a normal return of NULL.  The
    error output is left as it was, so no recoverable error is reported for
    the index. *)
Theorem get_device_out_of_range env ctx index err w n w1 :
  ctx ≠ NULL -> err_null_or_unset err = true ->
  cl4_context_num_devices env ctx (Some None) w = Done (n, Some None) w1 ->
  n <= index ->
  cl4_context_get_device env ctx index err w =
  Done (NULL, err)
       (mkWorld (heap w1) (next w1) (trace w1 ++ [EvCritical "index < ctx->num_devices"])).
Proof.
  intros Hctx He Hnum Hi.
  unfold cl4_context_num_devices in Hnum.
  destruct (Z.eqb_spec ctx NULL); [done|]. cbn [negb err_null_or_unset] in Hnum.
  apply bind_inv in Hnum as (c & w0 & Hload & Hnum).
  apply bind_inv in Hnum as (e & w2 & Hinit & Hnum).
  apply bind_inv in Hnum as (c2 & w3 & Hload2 & [= Hn2 He2 Hw2]). subst e n w3.
  unfold cl4_context_get_device.
  destruct (Z.eqb_spec ctx NULL); [done|]. rewrite He. cbn [negb].
  rewrite (bind_done _ _ _ _ _ Hload).
  rewrite (bind_done _ _ _ _ _ Hinit).
  rewrite (bind_done _ _ _ _ _ Hload2).
  destruct (Z.ltb_spec index (num_devices c2)); [lia|]. done.
Qed.

Lemma get_device_out_of_range_witness :
  cl4_context_get_device test_env 1 2 (Some None) materialized_world =
  Done (NULL, Some None)
       (mkWorld (heap materialized_world) 5
                [EvContextInfo 500; EvCritical "index < ctx->num_devices"]).
Proof.
  apply (get_device_out_of_range test_env 1 2 (Some None) materialized_world 2
           materialized_world); [discriminate|reflexivity|reflexivity|lia].
Defined.

(** C6, counterexample to the claim as worded ("raised as a hard
    assertion/abort"): on the wrapper of [materialized_world], which has 2
    devices, the index 5 does not abort.  The call returns NULL with the
    error output unset after logging the critical message, and the program
    goes on: the same wrapper still answers index 1 afterwards.  A hard
    assertion, [g_assert] of the same condition, does not return. *)
Lemma get_device_out_of_range_is_not_an_abort :
  let run := cl4_context_get_device test_env 1 5 (Some None) materialized_world in
  returned run = Some (NULL, Some None) /\
  trace (final run) = [EvContextInfo 500; EvCritical "index < ctx->num_devices"] /\
  heap (final run) = heap materialized_world /\
  cl4_context_get_device test_env 1 1 (Some None) (final run)
    = Done (4, Some None) (final run) /\
  g_assert (5 <? 2) "index < ctx->num_devices" materialized_world
    = Fault (AssertFailed "index < ctx->num_devices") materialized_world.
Proof. vm_compute. repeat split; reflexivity. Qed.

(** ** Further properties of [context.c] *)

(** X1: [cl4_context_destroy] on a wrapper that holds no OpenCL object only
    decrements the reference count.  Whatever the count becomes, also 0,
    the device wrappers, the device array and the wrapper object stay
    allocated and no release function is called. *)
Theorem destroy_without_object_frees_nothing ctx c w :
  ctx ≠ NULL -> heap w !! ctx = Some (BContext c) -> cl_object (base c) = NULL ->
  cl4_context_destroy ctx w =
  Done tt (mkWorld (<[ctx := BContext (set_ref_count (ref_count (base c) - 1) c)]> (heap w))
                   (next w) (trace w)).
Proof.
  intros Hp Hb Ho. apply wp_eq.
  eapply wp_cl4_context_destroy_no_object; [done..|]. done.
Qed.

Lemma destroy_without_object_frees_nothing_witness :
  cl4_context_destroy 1
    (mkWorld {[ 1 := BContext (mkContext (mkWrapper NULL 1) NULL 1 2);
                2 := BArray [Some 3];
                3 := BDevice (mkDevice (mkWrapper 101 1) None) ]} 4 []) =
  Done tt
    (mkWorld (<[ 1 := BContext (mkContext (mkWrapper NULL 0) NULL 1 2) ]>
                {[ 1 := BContext (mkContext (mkWrapper NULL 1) NULL 1 2);
                   2 := BArray [Some 3];
                   3 := BDevice (mkDevice (mkWrapper 101 1) None) ]}) 4 []).
Proof.
  apply (destroy_without_object_frees_nothing 1
           (mkContext (mkWrapper NULL 1) NULL 1 2)); [discriminate|reflexivity|reflexivity].
Defined.

(** X2: When [clRetainContext] fails, [cl4_context_new_from_clcontext] returns
    NULL with a [CL4_ERROR_OCL] error that carries the status.  The wrapper
    it had allocated is freed again, so the heap is as before, and the
    OpenCL context is released once although it was not retained. *)
Theorem retain_failure_releases_context env context err w :
  context ≠ NULL -> err_null_or_unset err = true -> 0 < next w ->
  heap w !! next w = None ->
  env_retain_context env (trace w) context ≠ CL_SUCCESS ->
  let st := env_retain_context env (trace w) context in
  exists w',
    cl4_context_new_from_clcontext env context err w =
      Done (NULL, propagated err (retain_error st)) w' /\
    code (retain_error st) = CL4_ERROR_OCL /\
    message_args (retain_error st) =
      [ArgStr "cl4_context_new_from_clcontext"; ArgInt st; ArgOclErr st] /\
    heap w' = heap w /\
    trace w' = trace w ++ [EvRetainContext context st; EvReleaseContext context].
Proof.
  intros Hc He Hn Hfresh Hst st.
  eexists. split; [by apply new_from_clcontext_fails|].
  split; [done|]. split; [done|]. split; [|done].
  cbn [heap]. by apply delete_id.
Qed.

Lemma retain_failure_releases_context_witness :
  exists w',
    cl4_context_new_from_clcontext retain_fails_env 500 (Some None) (mkWorld ∅ 1 []) =
      Done (NULL, Some (Some (retain_error (-34)))) w' /\
    heap w' = ∅ /\
    trace w' = [EvRetainContext 500 (-34); EvReleaseContext 500].
Proof.
  destruct (retain_failure_releases_context retain_fails_env 500 (Some None)
              (mkWorld ∅ 1 []))
    as (w' & Hrun & _ & _ & Hh & Ht);
    [discriminate|reflexivity|reflexivity|reflexivity|discriminate|].
  exists w'. split; [exact Hrun|]. split; [exact Hh|exact Ht].
Defined.

(** X3: [cl4_context_new_from_indep_filter] is the filtered constructor on the
    chain made of the given independent filter, if there is one, followed
    by the same-platform filter, with NULL properties and callback; the
    wrapper is returned as it is and an error is propagated to the caller's
    error output. *)
Theorem indep_filter_is_filtered_constructor env filter data err w ctx oe w' :
  err_null_or_unset err = true ->
  cl4_context_new_from_filters_full env NULL (Some (indep_filter_chain filter data))
    NULL NULL (Some None) w = Done (ctx, Some oe) w' ->
  cl4_context_new_from_indep_filter env filter data err w =
  Done (ctx, if oe is Some e then propagated err e else err) w'.
Proof.
  intros He Hrun. unfold cl4_context_new_from_indep_filter. rewrite He. cbn [negb].
  unfold cl4_context_new_from_filters.
  assert ((match filter with
           | Some f => [] ++ [IndepFilter f data]
           | None => []
           end ++ [DepFilter cl4_devsel_dep_platform NULL])
          = indep_filter_chain filter data) as -> by by destruct filter.
  rewrite (bind_done _ _ _ _ _ Hrun). cbn [fst snd].
  destruct oe as [e|].
  - apply wp_eq. apply wp_bind, wp_g_propagate_error; [done|].
    apply wp_bind, wp_g_assert; [apply propagated_null_or_set|]. by apply wp_ret.
  - apply wp_eq. apply wp_bind, wp_g_assert; [done|]. by apply wp_ret.
Qed.

Lemma indep_filter_is_filtered_constructor_witness :
  exists w',
    cl4_context_new_from_indep_filter no_device_env (Some (devsel_fn 77)) 11 (Some None)
      (mkWorld ∅ 1 []) = Done (NULL, Some (Some device_not_found_error)) w'.
Proof.
  eexists.
  apply (indep_filter_is_filtered_constructor no_device_env (Some (devsel_fn 77)) 11
           (Some None) (mkWorld ∅ 1 []) NULL (Some device_not_found_error));
    [reflexivity|vm_compute; reflexivity].
Defined.

(** *** Accessors on a built wrapper *)

Lemma built_accessors env w ctx h arr ds ids err :
  built (heap w) ctx h arr ds ids -> ctx ≠ NULL -> err_null_or_unset err = true ->
  cl4_context_unwrap ctx w = Done h w /\
  cl4_context_num_devices env ctx err w = Done (Z.of_nat (length ids), err) w /\
  forall index, 0 <= index < Z.of_nat (length ids) ->
    exists d id plat,
      ids !! Z.to_nat index = Some id /\
      cl4_context_get_device env ctx index err w = Done (d, err) w /\
      d ≠ NULL /\
      heap w !! d = Some (BDevice (mkDevice (mkWrapper id 1) plat)) /\
      cl4_device_unwrap d w = Done id w.
Proof.
  intros (Hc & Harr & Ha & _ & Hlen & Hw) Hctx He.
  split; [|split].
  - apply wp_eq. apply wp_bind. eapply wp_load_context; [done..|]. by apply wp_ret.
  - rewrite <- Hlen.
    apply (num_devices_cached env ctx
             (mkContext (mkWrapper h 1) NULL (Z.of_nat (length ds)) arr) err w); done.
  - intros index Hi.
    destruct (lookup_lt_is_Some_2 ids (Z.to_nat index)) as [id Hid]; [lia|].
    destruct (lookup_lt_is_Some_2 ds (Z.to_nat index)) as [d Hd]; [lia|].
    destruct (Hw _ _ _ Hd Hid) as (Hdn & plat & Hdb).
    exists d, id, plat. split; [done|]. split; [|split; [done|split; [done|]]].
    + eapply (get_device_cached_in_range env ctx
                (mkContext (mkWrapper h 1) NULL (Z.of_nat (length ds)) arr));
        [done|done|done|done|cbn; lia|exact Ha|].
      by rewrite list_lookup_fmap, Hd.
    + apply wp_eq. apply wp_bind. eapply wp_load_device; [done..|]. by apply wp_ret.
Qed.

(** X4: Round trip of the explicit-devices constructor: the wrapper it returns
    has reference count 1 and unwraps to the OpenCL context the runtime
    created; [cl4_context_num_devices] answers the number of devices given
    and [cl4_context_get_device] at index [i] answers a device wrapper with
    reference count 1 that unwraps to the [i]-th handle given.  These
    accessors neither call the runtime nor change the heap. *)
Theorem explicit_devices_round_trip env properties pcells num devs id0 pfn_notify
    user_data err w :
  0 < num -> Z.of_nat (length devs) = num ->
  (forall j, 0 <= j < num -> devs !! Z.to_nat j ≠ Some NULL) ->
  devs !! 0%nat = Some id0 ->
  err_null_or_unset err = true -> 0 < next w ->
  (properties ≠ NULL ->
   0 < properties < next w /\ heap w !! properties = Some (BArray pcells)) ->
  let synth := properties =? NULL in
  let cells := if synth
               then synthesized_properties (env_device_platform env (trace w) id0)
               else pcells in
  let tr3 := trace w ++ (if synth then [EvDeviceInfo id0] else []) in
  let a := env_create_context env tr3 cells num (Some <$> devs) pfn_notify user_data in
  snd a = CL_SUCCESS ->
  exists ctx w1,
    cl4_context_new_from_cldevices_full env properties num (Some devs)
      pfn_notify user_data err w = Done (ctx, err) w1 /\
    ctx ≠ NULL /\
    (exists c, heap w1 !! ctx = Some (BContext c) /\ ref_count (base c) = 1) /\
    cl4_context_unwrap ctx w1 = Done (fst a) w1 /\
    cl4_context_num_devices env ctx err w1 = Done (num, err) w1 /\
    forall index, 0 <= index < num ->
      exists d id plat,
        devs !! Z.to_nat index = Some id /\
        cl4_context_get_device env ctx index err w1 = Done (d, err) w1 /\
        d ≠ NULL /\
        heap w1 !! d = Some (BDevice (mkDevice (mkWrapper id 1) plat)) /\
        cl4_device_unwrap d w1 = Done id w1.
Proof.
  intros Hnum Hlen Hnn Hid0 He Hnx Hprops synth cells tr3 a Hst.
  destruct (wp_elim _ _ _
              (wp_new_from_cldevices_ok env properties pcells num devs id0 pfn_notify
                 user_data err w Hnum Hlen Hnn Hid0 He Hnx Hprops Hst))
    as (r1 & w1 & Hrun1 & -> & _ & Hbuilt & _).
  fold synth cells tr3 a in Hbuilt.
  assert (next w ≠ NULL) as Hctx by (unfold NULL; lia).
  destruct (built_accessors env w1 _ _ _ _ _ err Hbuilt Hctx He) as (Hu & Hn & Hg).
  rewrite Hlen in Hn, Hg.
  exists (next w), w1. split; [done|]. split; [done|]. split.
  { destruct Hbuilt as (Hc & _). eexists. split; [exact Hc|done]. }
  done.
Qed.

Lemma explicit_devices_round_trip_witness :
  exists ctx w1,
    cl4_context_new_from_cldevices_full test_env NULL 2 (Some [101; 102]) NULL NULL
      (Some None) (mkWorld ∅ 1 []) = Done (ctx, Some None) w1 /\
    cl4_context_num_devices test_env ctx (Some None) w1 = Done (2, Some None) w1 /\
    exists d, cl4_context_get_device test_env ctx 1 (Some None) w1 = Done (d, Some None) w1 /\
              cl4_device_unwrap d w1 = Done 102 w1.
Proof.
  destruct (explicit_devices_round_trip test_env NULL [] 2 [101; 102] 101 NULL NULL
              (Some None) (mkWorld ∅ 1 []))
    as (ctx & w1 & Hrun & _ & _ & _ & Hn & Hg).
  - lia.
  - reflexivity.
  - intros j Hj. assert (j = 0 \/ j = 1) as [-> | ->] by lia; discriminate.
  - reflexivity.
  - reflexivity.
  - reflexivity.
  - intros Hne. exfalso. apply Hne. reflexivity.
  - reflexivity.
  - exists ctx, w1. split; [exact Hrun|]. split; [exact Hn|].
    destruct (Hg 1) as (d & id & plat & Hid & Hget & _ & _ & Hun); [lia|].
    exists d. split; [exact Hget|].
    injection Hid as <-. exact Hun.
Defined.

(** X5: Round trip of the filtered constructor: the wrapper it returns has
    reference count 1 and holds the created OpenCL context; its number of
    devices is the number of selected devices, and
    [cl4_context_get_device] at index [i] answers a device wrapper with
    reference count 1 that unwraps to the [i]-th selected device. *)
Theorem filtered_round_trip env properties pcells chain ids id0 p_base pfn_notify
    user_data err w h :
  err_null_or_unset err = true -> 0 < next w ->
  env_select env (trace w) chain = inl ids -> ids !! 0%nat = Some id0 ->
  env_device_platform env (trace w ++ [EvSelect chain]) id0 = inl p_base ->
  (properties ≠ NULL ->
   0 < properties < next w /\ heap w !! properties = Some (BArray pcells)) ->
  let cells := if properties =? NULL then default_properties p_base else pcells in
  env_create_context env (trace w ++ [EvSelect chain; EvDeviceInfo id0]) cells
    (Z.of_nat (length ids)) (Some <$> ids) pfn_notify user_data = (h, CL_SUCCESS) ->
  exists ctx w1,
    cl4_context_new_from_filters_full env properties (Some chain)
      pfn_notify user_data err w = Done (ctx, err) w1 /\
    ctx ≠ NULL /\
    (exists c, heap w1 !! ctx = Some (BContext c) /\ ref_count (base c) = 1) /\
    cl4_context_unwrap ctx w1 = Done h w1 /\
    cl4_context_num_devices env ctx err w1 = Done (Z.of_nat (length ids), err) w1 /\
    forall index, 0 <= index < Z.of_nat (length ids) ->
      exists d id plat,
        ids !! Z.to_nat index = Some id /\
        cl4_context_get_device env ctx index err w1 = Done (d, err) w1 /\
        d ≠ NULL /\
        heap w1 !! d = Some (BDevice (mkDevice (mkWrapper id 1) plat)) /\
        cl4_device_unwrap d w1 = Done id w1.
Proof.
  intros He Hnx Hsel Hid0 Hplat Hprops cells Hcr.
  destruct (wp_elim _ _ _
              (wp_new_from_filters_ok env properties pcells chain ids id0 p_base pfn_notify
                 user_data err w _ _ cells _ h He Hnx Hsel Hid0 Hplat eq_refl Hprops
                 eq_refl eq_refl eq_refl Hcr))
    as (r1 & w1 & Hrun1 & -> & _ & Hbuilt & _).
  assert (next w ≠ NULL) as Hctx by (unfold NULL; lia).
  destruct (built_accessors env w1 _ _ _ _ _ err Hbuilt Hctx He) as (Hu & Hn & Hg).
  exists (next w), w1. split; [done|]. split; [done|]. split.
  { destruct Hbuilt as (Hc & _). eexists. split; [exact Hc|done]. }
  done.
Qed.

Lemma filtered_round_trip_witness :
  exists ctx w1,
    cl4_context_new_from_filters_full test_env NULL
      (Some [DepFilter cl4_devsel_dep_platform NULL]) NULL NULL (Some None)
      (mkWorld ∅ 1 []) = Done (ctx, Some None) w1 /\
    cl4_context_num_devices test_env ctx (Some None) w1 = Done (2, Some None) w1 /\
    exists d, cl4_context_get_device test_env ctx 1 (Some None) w1 = Done (d, Some None) w1 /\
              cl4_device_unwrap d w1 = Done 102 w1.
Proof.
  destruct (filtered_round_trip test_env NULL [] [DepFilter cl4_devsel_dep_platform NULL]
              [101; 102] 101 11 NULL NULL (Some None) (mkWorld ∅ 1 []) 500)
    as (ctx & w1 & Hrun & _ & _ & _ & Hn & Hg).
  - reflexivity.
  - reflexivity.
  - reflexivity.
  - reflexivity.
  - reflexivity.
  - intros Hne. exfalso. apply Hne. reflexivity.
  - reflexivity.
  - exists ctx, w1. split; [exact Hrun|]. split; [exact Hn|].
    destruct (Hg 1) as (d & id & plat & Hid & Hget & _ & _ & Hun); [cbn; lia|].
    exists d. split; [exact Hget|].
    injection Hid as <-. exact Hun.
Defined.

(** X6: A context whose device-list query answers fewer bytes than one device
    handle has 0 devices: [g_new0] of 0 elements is NULL, so [devices]
    stays NULL and nothing is cached.  [cl4_context_num_devices] returns 0
    without error, [cl4_context_get_device] fails its index check for every
    index, and each later call asks the runtime again. *)
Theorem empty_device_list_is_queried_again env ctx c err info w :
  0 < ctx < next w -> heap w !! ctx = Some (BContext c) -> devices c = NULL ->
  err_null_or_unset err = true ->
  env_context_devices env (trace w) (cl_object (base c)) = inl info ->
  to_cl_uint (size info / sizeof_cl_device_id) = 0 ->
  let query := EvContextInfo (cl_object (base c)) in
  (forall index, 0 <= index ->
     exists w1, cl4_context_get_device env ctx index err w = Done (NULL, err) w1 /\
                trace w1 = trace w ++ [query; EvCritical "index < ctx->num_devices"]) /\
  exists w',
    cl4_context_num_devices env ctx err w = Done (0, err) w' /\
    trace w' = trace w ++ [query] /\ next w' = next w /\
    heap w' !! ctx = Some (BContext (mkContext (base c) (platform c) 0 NULL)) /\
    (forall p, p < next w -> p ≠ ctx -> heap w' !! p = heap w !! p) /\
    (forall err2 e2,
        err_null_or_unset err2 = true ->
        env_context_devices env (trace w') (cl_object (base c)) = inr e2 ->
        exists w'', cl4_context_num_devices env ctx err2 w' = Done (0, propagated err2 e2) w'' /\
                    trace w'' = trace w' ++ [query]) /\
    (forall err2 info2,
        err_null_or_unset err2 = true ->
        env_context_devices env (trace w') (cl_object (base c)) = inl info2 ->
        let n2 := to_cl_uint (size info2 / sizeof_cl_device_id) in
        n2 <= Z.of_nat (length (value info2)) ->
        exists w'', cl4_context_num_devices env ctx err2 w' = Done (n2, err2) w'' /\
                    trace w'' = trace w' ++ [query]).
Proof.
  intros Hp Hb Hd He Hq Hz query.
  assert (to_cl_uint (size info / sizeof_cl_device_id) <= Z.of_nat (length (value info)))
    as Hlen by lia.
  assert (ctx ≠ NULL) as Hctx by (unfold NULL; lia).
  split.
  - intros index Hi.
    destruct (wp_elim _ _ _ (wp_get_device_lazy env ctx c index err info w
                               Hp Hb Hd He Hq Hlen Hi))
      as (r & w1 & Hrun & Hr & Ht & _).
    rewrite Hz in Hr, Ht. destruct (Z.ltb_spec index 0); [lia|].
    exists w1. rewrite Hrun, Hr. done.
  - destruct (wp_elim _ _ _ (wp_num_devices_lazy env ctx c err info w Hp Hb Hd He Hq Hlen))
      as (r & w' & Hrun & Hr & Ht & Hm).
    rewrite Hz in Hr, Hm. subst r. destruct Hm as (Hc' & _ & _ & Hframe & Hn').
    rewrite decide_True in Hc', Hn' by done.
    exists w'. split; [done|]. split; [done|]. split; [done|]. split; [done|].
    split; [done|]. split.
    + intros err2 e2 He2 Hq2. eexists. split.
      * apply (num_devices_lazy_fails env ctx
                 (mkContext (base c) (platform c) 0 NULL) err2 e2 w'); done.
      * done.
    + intros err2 info2 He2 Hq2 n2 Hlen2.
      destruct (wp_elim _ _ _
                  (wp_num_devices_lazy env ctx (mkContext (base c) (platform c) 0 NULL)
                     err2 info2 w' ltac:(lia) Hc' eq_refl He2 Hq2 Hlen2))
        as (r & w'' & Hrun2 & -> & Ht2 & _).
      by exists w''.
Qed.

Lemma empty_device_list_is_queried_again_witness :
  exists w' w'',
    cl4_context_num_devices zero_device_env 1 (Some None) lazy_world
      = Done (0, Some None) w' /\
    trace w' = [EvContextInfo 500] /\
    cl4_context_num_devices zero_device_env 1 (Some None) w' = Done (0, Some None) w'' /\
    trace w'' = [EvContextInfo 500; EvContextInfo 500].
Proof.
  destruct (empty_device_list_is_queried_again zero_device_env 1
              (mkContext (mkWrapper 500 1) NULL 0 NULL) (Some None) (mkInfo [] 0) lazy_world)
    as (_ & w' & Hrun & Ht & _ & _ & _ & _ & Hagain);
    [vm_compute; split; reflexivity|reflexivity..|].
  destruct (Hagain (Some None) (mkInfo [] 0)) as (w'' & Hrun2 & Ht2);
    [reflexivity|reflexivity|vm_compute; discriminate|].
  exists w', w''. split; [exact Hrun|]. split; [exact Ht|]. split; [exact Hrun2|].
  rewrite Ht2, Ht. reflexivity.
Defined.

(** *** A NULL handle in the device list *)

Lemma cldevices_wrap_loop_null_at ctx devs sz rest k : forall i w,
  0 <= i ->
  (forall j, i <= j < i + Z.of_nat k -> devs !! Z.to_nat j ≠ Some NULL) ->
  devs !! Z.to_nat (i + Z.of_nat k) = Some NULL ->
  cldevices_wrap_loop ctx devs i (k + S rest) w =
  (init_devices_loop ctx (mkInfo devs sz) i k ;;
   g_critical "devices[i] != NULL" ;; ret false)%cmd w.
Proof.
  induction k as [|k IH]; intros i w Hi Hnn Hnull.
  - cbn [Nat.add cldevices_wrap_loop init_devices_loop].
    rewrite Z.add_0_r in Hnull. rewrite Hnull. reflexivity.
  - cbn [Nat.add cldevices_wrap_loop init_devices_loop value].
    destruct (devs !! Z.to_nat i) as [id|] eqn:Hid; [|done].
    destruct (Z.eqb_spec id NULL) as [->|Hne].
    { exfalso. apply (Hnn i); [lia|done]. }
    rewrite bind_assoc. apply bind_ext. intros d w1.
    rewrite bind_assoc. apply bind_ext. intros c w2.
    rewrite bind_assoc. apply bind_ext. intros _ w3.
    apply IH; [lia| |].
    + intros j Hj. apply Hnn. lia.
    + rewrite <- Hnull. f_equal. lia.
Qed.

(** X7: The explicit-devices constructor checks each handle only when its loop
    reaches it.  When the handle at index [k] is the first NULL one, the
    constructor logs a critical message and returns NULL at once, with the
    error output untouched and without calling the runtime; the context
    wrapper, its device array and the [k] device wrappers made so far stay
    allocated. *)
Theorem null_device_handle_returns_early env properties num devs k pfn_notify
    user_data err w :
  0 <= k < num -> num <= Z.of_nat (length devs) ->
  devs !! Z.to_nat k = Some NULL ->
  (forall j, 0 <= j < k -> devs !! Z.to_nat j ≠ Some NULL) ->
  err_null_or_unset err = true -> 0 < next w ->
  exists w',
    cl4_context_new_from_cldevices_full env properties num (Some devs)
      pfn_notify user_data err w = Done (NULL, err) w' /\
    trace w' = trace w ++ [EvCritical "devices[i] != NULL"] /\
    heap w' !! next w =
      Some (BContext (mkContext (mkWrapper NULL 1) NULL num (next w + 1))) /\
    (exists cells, heap w' !! (next w + 1) = Some (BArray cells) /\
                   length cells = Z.to_nat num) /\
    (forall j, 0 <= j < k ->
       exists id, devs !! Z.to_nat j = Some id /\
         heap w' !! (next w + 2 + j) = Some (BDevice (mkDevice (mkWrapper id 1) None))) /\
    (forall p, p < next w -> heap w' !! p = heap w !! p).
Proof.
  intros Hk Hlen Hnull Hnn He Hnx.
  enough (wp (cl4_context_new_from_cldevices_full env properties num (Some devs)
                pfn_notify user_data err)
             (fun r w' =>
                r = (NULL, err) /\
                trace w' = trace w ++ [EvCritical "devices[i] != NULL"] /\
                heap w' !! next w =
                  Some (BContext (mkContext (mkWrapper NULL 1) NULL num (next w + 1))) /\
                (exists cells, heap w' !! (next w + 1) = Some (BArray cells) /\
                               length cells = Z.to_nat num) /\
                (forall j, 0 <= j < k ->
                   exists id, devs !! Z.to_nat j = Some id /\
                     heap w' !! (next w + 2 + j) =
                       Some (BDevice (mkDevice (mkWrapper id 1) None))) /\
                (forall p, p < next w -> heap w' !! p = heap w !! p)) w) as H.
  { apply wp_elim in H as (r & w' & Hrun & -> & H). by exists w'. }
  unfold cl4_context_new_from_cldevices_full.
  destruct (Z.ltb_spec 0 num); [|lia]. cbn [negb]. rewrite He. cbn [negb].
  assert (next w ≠ NULL) as Hn0 by (unfold NULL; lia).
  apply wp_bind, wp_cl4_context_new_internal; [done|].
  apply wp_bind. eapply wp_update_context; [done|cbn; apply lookup_insert_eq|].
  cbn [heap next trace]. rewrite insert_insert_eq.
  apply wp_bind. unfold cl4_context_device_wrappers_new, g_new0.
  destruct (Z.eqb_spec num 0); [lia|]. apply wp_alloc. cbn [heap next trace].
  apply wp_bind. eapply wp_update_context; [done| |].
  { cbn. rewrite lookup_insert_ne by lia. apply lookup_insert_eq. }
  cbn [heap next trace set_devices set_num_devices empty_context base platform
       num_devices devices].
  apply wp_bind. eapply wp_ext.
  { replace (Z.to_nat num) with (Z.to_nat k + S (Z.to_nat (num - k - 1)))%nat by lia.
    apply (cldevices_wrap_loop_null_at _ _ 0 _ _ 0); [done| |].
    - intros j Hj. apply Hnn. lia.
    - rewrite <- Hnull. f_equal. lia. }
  apply wp_bind. eapply wp_mono.
  { eapply (wp_init_devices_loop (next w)
              (mkContext (mkWrapper NULL 1) NULL num (next w + 1))
              (mkInfo devs 0) (Z.to_nat k) 0 _ (replicate (Z.to_nat num) (Some 0)));
      cbn [heap next trace devices value]; try lia.
    - unfold NULL; lia.
    - apply lookup_insert_eq.
    - rewrite lookup_insert_ne by lia. apply lookup_insert_eq.
    - rewrite length_replicate. lia. }
  cbn [heap next trace devices value].
  intros _ w' (Hn' & Ht' & (cells' & Hc' & Hl' & _ & Hin) & Hdev & Hframe).
  apply wp_bind, wp_emit, wp_ret. cbn [negb]. apply wp_ret. cbn [heap next trace].
  split; [done|]. split; [by rewrite Ht'|]. split; [|split; [|split]].
  - rewrite Hframe by lia. apply lookup_insert_eq.
  - exists cells'. split; [done|]. by rewrite Hl', length_replicate.
  - intros j Hj. destruct (Hdev j) as (id & Hid & Hd'); [lia|].
    exists id. split; [done|]. rewrite <- Hd'. f_equal. lia.
  - intros p Hp'. rewrite Hframe by lia.
    rewrite !lookup_insert_ne by lia. done.
Qed.

Lemma null_device_handle_returns_early_witness :
  exists w',
    cl4_context_new_from_cldevices_full test_env NULL 2 (Some [101; NULL]) NULL NULL
      (Some None) (mkWorld ∅ 1 []) = Done (NULL, Some None) w' /\
    trace w' = [EvCritical "devices[i] != NULL"] /\
    heap w' !! 1 = Some (BContext (mkContext (mkWrapper NULL 1) NULL 2 2)).
Proof.
  destruct (null_device_handle_returns_early test_env NULL 2 [101; NULL] 1 NULL NULL
              (Some None) (mkWorld ∅ 1 []))
    as (w' & Hrun & Ht & Hc & _).
  - lia.
  - cbn. lia.
  - reflexivity.
  - intros j Hj. assert (j = 0) as -> by lia. discriminate.
  - reflexivity.
  - reflexivity.
  - exists w'. split; [exact Hrun|]. split; [exact Ht|exact Hc].
Defined.

(** *** The heap stays below the allocation counter *)

Lemma kb_ret {A} (a : A) : keeps_bound (ret a).
Proof. intros w a' w' Hb [= <- <-]. split; [done|lia]. Qed.

Lemma kb_fail {A} f : keeps_bound (@fail A f).
Proof. intros w a' w' Hb [=]. Qed.

Lemma kb_bind {A B} (m : M A) (k : A -> M B) :
  keeps_bound m -> (forall a, keeps_bound (k a)) -> keeps_bound (bind m k).
Proof.
  intros Hm Hk w b w' Hb Hrun. apply bind_inv in Hrun as (a & w0 & H1 & H2).
  destruct (Hm _ _ _ Hb H1) as [Hb0 Hn0].
  destruct (Hk a _ _ _ Hb0 H2) as [Hb' Hn']. split; [done|lia].
Qed.

Lemma kb_emit e : keeps_bound (emit e).
Proof. intros w a' w' Hb [= _ <-]. split; [exact Hb|cbn; lia]. Qed.

Lemma kb_get_trace : keeps_bound get_trace.
Proof. intros w a' w' Hb [= <- <-]. split; [done|lia]. Qed.

Lemma kb_load p : keeps_bound (load p).
Proof.
  intros w a' w' Hb Hrun. unfold load in Hrun.
  destruct (p =? NULL); [done|]. destruct (heap w !! p); [|done].
  injection Hrun as <- <-. split; [done|lia].
Qed.

Lemma kb_alloc b : keeps_bound (alloc b).
Proof.
  intros w a' w' Hb [= <- <-]. split; [|cbn; lia].
  intros p Hp. cbn in *. rewrite lookup_insert_ne by lia. apply Hb. lia.
Qed.

Lemma kb_dealloc p : keeps_bound (dealloc p).
Proof.
  intros w a' w' Hb Hrun. unfold dealloc in Hrun.
  destruct (heap w !! p); [|done]. injection Hrun as _ <-. split; [|cbn; lia].
  intros q Hq. cbn in *. destruct (decide (q = p)) as [->|Hne].
  - apply lookup_delete_eq.
  - rewrite lookup_delete_ne by done. by apply Hb.
Qed.

(** A store to an address that was just loaded stays below the counter. *)
Lemma kb_load_store {A} p (k : block -> M A) :
  (forall b w, heap w !! p = Some b ->
     forall a w', heap_bounded w -> k b w = Done a w' -> heap_bounded w' /\ next w <= next w') ->
  keeps_bound (bind (load p) k).
Proof.
  intros Hk w a w' Hb Hrun. unfold bind, load in Hrun.
  destruct (p =? NULL); [done|]. destruct (heap w !! p) as [b|] eqn:E; [|done].
  by eapply Hk.
Qed.

Lemma bounded_store w p b0 b :
  heap_bounded w -> heap w !! p = Some b0 ->
  heap_bounded (mkWorld (<[p := b]> (heap w)) (next w) (trace w)).
Proof.
  intros Hb E q Hq. cbn in *. rewrite lookup_insert_ne; [by apply Hb|].
  intros ->. rewrite Hb in E by done. done.
Qed.

Lemma load_inv p w b w' : load p w = Done b w' -> w' = w /\ heap w !! p = Some b.
Proof.
  unfold load. destruct (p =? NULL); [done|].
  destruct (heap w !! p); [|done]. by intros [= <- <-].
Qed.

Lemma load_context_inv p w c w' :
  load_context p w = Done c w' -> w' = w /\ heap w !! p = Some (BContext c).
Proof.
  intros (b & w0 & [-> Hb]%load_inv & H)%bind_inv. destruct b; try done.
  by injection H as <- <-.
Qed.

Lemma load_device_inv p w d w' :
  load_device p w = Done d w' -> w' = w /\ heap w !! p = Some (BDevice d).
Proof.
  intros (b & w0 & [-> Hb]%load_inv & H)%bind_inv. destruct b; try done.
  by injection H as <- <-.
Qed.

Lemma load_platform_inv p w d w' :
  load_platform p w = Done d w' -> w' = w /\ heap w !! p = Some (BPlatform d).
Proof.
  intros (b & w0 & [-> Hb]%load_inv & H)%bind_inv. destruct b; try done.
  by injection H as <- <-.
Qed.

Lemma load_array_inv p w l w' :
  load_array p w = Done l w' -> w' = w /\ heap w !! p = Some (BArray l).
Proof.
  intros (b & w0 & [-> Hb]%load_inv & H)%bind_inv. destruct b; try done.
  by injection H as <- <-.
Qed.

Lemma kb_store_live p b w a w' b0 :
  heap_bounded w -> heap w !! p = Some b0 -> store p b w = Done a w' ->
  heap_bounded w' /\ next w <= next w'.
Proof.
  intros Hb E [= _ <-]. split; [by eapply bounded_store|cbn; lia].
Qed.

Lemma kb_update_context ctx f : keeps_bound (update_context ctx f).
Proof.
  intros w a w' Hb (c & w0 & [-> E]%load_context_inv & H)%bind_inv.
  by eapply kb_store_live.
Qed.

Lemma kb_write_cell p i v : keeps_bound (write_cell p i v).
Proof.
  intros w a w' Hb (c & w0 & [-> E]%load_array_inv & H)%bind_inv.
  destruct ((i <? 0) || (Z.of_nat (length c) <=? i)); [done|].
  by eapply kb_store_live.
Qed.

Create HintDb kb.
#[local] Hint Resolve kb_ret kb_fail kb_emit kb_get_trace kb_load kb_alloc kb_dealloc
  kb_update_context kb_write_cell : kb.

Ltac kb :=
  repeat first
    [ solve [auto with kb]
    | apply kb_bind; [|intros ?]
    | match goal with
      | |- keeps_bound (if ?b then _ else _) => destruct b
      | |- keeps_bound (match ?x with _ => _ end) => destruct x
      end ].

Lemma kb_load_context p : keeps_bound (load_context p).
Proof. unfold load_context. kb. Qed.

Lemma kb_load_device p : keeps_bound (load_device p).
Proof. unfold load_device. kb. Qed.

Lemma kb_load_platform p : keeps_bound (load_platform p).
Proof. unfold load_platform. kb. Qed.

Lemma kb_load_ptr_array p : keeps_bound (load_ptr_array p).
Proof. unfold load_ptr_array. kb. Qed.

Lemma kb_load_array p : keeps_bound (load_array p).
Proof. unfold load_array. kb. Qed.

#[local] Hint Resolve kb_load_context kb_load_device kb_load_platform kb_load_ptr_array
  kb_load_array : kb.

Lemma kb_read_cell p i : keeps_bound (read_cell p i).
Proof. unfold read_cell. kb. Qed.

Lemma kb_g_critical s : keeps_bound (g_critical s).
Proof. unfold g_critical. kb. Qed.

Lemma kb_g_warn_if_fail c s : keeps_bound (g_warn_if_fail c s).
Proof. unfold g_warn_if_fail. kb. Qed.

Lemma kb_g_assert c s : keeps_bound (g_assert c s).
Proof. unfold g_assert. kb. Qed.

Lemma kb_g_new0 n : keeps_bound (g_new0 n).
Proof. unfold g_new0. kb. Qed.

Lemma kb_g_slice_alloc n : keeps_bound (g_slice_alloc n).
Proof. unfold g_slice_alloc. kb. Qed.

Lemma kb_g_free p : keeps_bound (g_free p).
Proof. unfold g_free. kb. Qed.

Lemma kb_g_slice_free1 n p : keeps_bound (g_slice_free1 n p).
Proof. unfold g_slice_free1. kb. Qed.

Lemma kb_g_slice_free p : keeps_bound (g_slice_free p).
Proof. unfold g_slice_free. kb. Qed.

#[local] Hint Resolve kb_read_cell kb_g_critical kb_g_warn_if_fail kb_g_assert kb_g_new0
  kb_g_slice_alloc kb_g_free kb_g_slice_free1 kb_g_slice_free : kb.

Lemma kb_g_ptr_array_free p b : keeps_bound (g_ptr_array_free p b).
Proof. unfold g_ptr_array_free. kb. Qed.

Lemma kb_g_propagate_error err e : keeps_bound (g_propagate_error err e).
Proof. unfold g_propagate_error. kb. Qed.

Lemma kb_g_set_error err d c msg args : keeps_bound (g_set_error err d c msg args).
Proof. unfold g_set_error. apply kb_g_propagate_error. Qed.

Lemma kb_cl4_wrapper_unref p : keeps_bound (cl4_wrapper_unref p).
Proof.
  unfold cl4_wrapper_unref. destruct (p =? NULL); [kb|].
  intros w a w' Hb (c & w0 & [-> E]%load_context_inv & H)%bind_inv.
  cbn zeta in H. apply bind_inv in H as (u & w1 & Hs & H).
  destruct (kb_store_live _ _ _ _ _ _ Hb E Hs) as [Hb1 Hn1].
  assert (w' = w1) as ->; [|done].
  by destruct (ref_count (base c) - 1 =? 0); injection H as _ <-.
Qed.

Lemma kb_cl4_wrapper_release_cl_object p : keeps_bound (cl4_wrapper_release_cl_object p).
Proof. unfold cl4_wrapper_release_cl_object. kb. Qed.

Lemma kb_cl4_device_new id : keeps_bound (cl4_device_new id).
Proof. unfold cl4_device_new. kb. Qed.

Lemma kb_cl4_device_unwrap d : keeps_bound (cl4_device_unwrap d).
Proof. unfold cl4_device_unwrap. kb. Qed.

Lemma kb_cl4_device_unref d : keeps_bound (cl4_device_unref d).
Proof.
  unfold cl4_device_unref. apply kb_bind; [kb|]. intros _.
  intros w a w' Hb (c & w0 & [-> E]%load_device_inv & H)%bind_inv.
  cbn zeta in H. destruct (ref_count (dev_base c) - 1 =? 0).
  - exact (kb_bind _ _ (kb_dealloc _) (fun _ => kb_emit _) _ _ _ Hb H).
  - by eapply kb_store_live.
Qed.

Lemma kb_cl4_platform_unref d : keeps_bound (cl4_platform_unref d).
Proof.
  unfold cl4_platform_unref. apply kb_bind; [kb|]. intros _.
  intros w a w' Hb (c & w0 & [-> E]%load_platform_inv & H)%bind_inv.
  cbn zeta in H. destruct (ref_count c - 1 =? 0).
  - exact (kb_bind _ _ (kb_dealloc _) (fun _ => kb_emit _) _ _ _ Hb H).
  - by eapply kb_store_live.
Qed.

#[local] Hint Resolve kb_g_ptr_array_free kb_g_propagate_error kb_g_set_error
  kb_cl4_wrapper_unref kb_cl4_wrapper_release_cl_object kb_cl4_device_new
  kb_cl4_device_unwrap kb_cl4_device_unref kb_cl4_platform_unref : kb.

Section Bounded.
Variable env : Env.

Lemma kb_cl4_device_info_value d : keeps_bound (cl4_device_info_value env d).
Proof.
  unfold cl4_device_info_value.
  intros w a w' Hb (c & w0 & [-> E]%load_device_inv & H)%bind_inv.
  destruct (dev_platform c); [by injection H as _ <-|].
  apply bind_inv in H as (tr & w1 & [= <- <-] & H).
  apply bind_inv in H as (u & w2 & [= _ <-] & H).
  destruct (env_device_platform env (trace w) (cl_object (dev_base c))).
  - apply bind_inv in H as (u' & w3 & Hs & [= _ <-]).
    eapply (kb_store_live _ _ (mkWorld (heap w) (next w) _)); [exact Hb|exact E|exact Hs].
  - injection H as _ <-. split; [exact Hb|cbn; lia].
Qed.

Lemma kb_cl4_context_info ctx : keeps_bound (cl4_context_info env ctx).
Proof. unfold cl4_context_info. kb. Qed.

Lemma kb_wrap_selected ids : keeps_bound (wrap_selected ids).
Proof. induction ids as [|id ids IH]; cbn [wrap_selected]; kb. Qed.

#[local] Hint Resolve kb_cl4_device_info_value kb_cl4_context_info kb_wrap_selected : kb.

Lemma kb_cl4_devsel_select chain : keeps_bound (cl4_devsel_select env chain).
Proof. unfold cl4_devsel_select. kb. Qed.

Lemma kb_clCreateContext p n devs f u : keeps_bound (clCreateContext env p n devs f u).
Proof. unfold clCreateContext. kb. Qed.

Lemma kb_clRetainContext c : keeps_bound (clRetainContext env c).
Proof. unfold clRetainContext. kb. Qed.

Lemma kb_cl4_context_new_internal : keeps_bound cl4_context_new_internal.
Proof. unfold cl4_context_new_internal. kb. Qed.

Lemma kb_properties_default_free p q :
  keeps_bound (cl4_context_properties_default_free p q).
Proof. unfold cl4_context_properties_default_free. kb. Qed.

#[local] Hint Resolve kb_cl4_devsel_select kb_clCreateContext kb_clRetainContext
  kb_cl4_context_new_internal kb_properties_default_free : kb.

Lemma kb_properties_default p d err :
  keeps_bound (cl4_context_properties_default env p d err).
Proof. unfold cl4_context_properties_default. kb. Qed.

Lemma kb_init_devices_loop ctx info count : forall i,
  keeps_bound (init_devices_loop ctx info i count).
Proof.
  induction count as [|k IH]; intros i; cbn [init_devices_loop]; [kb|].
  destruct (value info !! Z.to_nat i); [|kb].
  apply kb_bind; [kb|]. intros d. apply kb_bind; [kb|]. intros c.
  apply kb_bind; [kb|]. intros _. apply IH.
Qed.

#[local] Hint Resolve kb_properties_default kb_init_devices_loop : kb.

Lemma kb_cl4_context_init_devices ctx err :
  keeps_bound (cl4_context_init_devices env ctx err).
Proof. unfold cl4_context_init_devices, cl4_context_device_wrappers_new. kb. Qed.

Lemma kb_destroy_devices_loop ctx count : forall i,
  keeps_bound (destroy_devices_loop ctx i count).
Proof.
  induction count as [|k IH]; intros i; cbn [destroy_devices_loop]; [kb|].
  apply kb_bind; [kb|]. intros c. apply kb_bind; [kb|]. intros d.
  apply kb_bind; [kb|]. intros _. apply IH.
Qed.

#[local] Hint Resolve kb_cl4_context_init_devices kb_destroy_devices_loop : kb.

Lemma kb_cl4_context_destroy ctx : keeps_bound (cl4_context_destroy ctx).
Proof. unfold cl4_context_destroy. kb. Qed.

#[local] Hint Resolve kb_cl4_context_destroy : kb.

Lemma kb_filters_finish p ctx devs cl ctx_props err :
  keeps_bound (filters_finish p ctx devs cl ctx_props err).
Proof. unfold filters_finish. kb. Qed.

#[local] Hint Resolve kb_filters_finish : kb.

Lemma kb_filters_error_handler p ctx devs cl ctx_props err :
  keeps_bound (filters_error_handler p ctx devs cl ctx_props err).
Proof. unfold filters_error_handler. kb. Qed.

Lemma kb_filters_unwrap_loop devs cl p_base count : forall i,
  keeps_bound (filters_unwrap_loop env devs cl p_base i count).
Proof.
  induction count as [|k IH]; intros i; cbn [filters_unwrap_loop]; [kb|].
  apply kb_bind; [kb|]. intros a. apply kb_bind; [kb|]. intros d0.
  apply kb_bind; [kb|]. intros [p_cmp|e]; [|kb].
  apply kb_bind; [kb|]. intros _. apply kb_bind; [kb|]. intros di.
  apply kb_bind; [kb|]. intros id. apply kb_bind; [kb|]. intros _. apply IH.
Qed.

#[local] Hint Resolve kb_filters_error_handler kb_filters_unwrap_loop : kb.

Lemma kb_filters_create p ctx devs a cl f u err :
  keeps_bound (filters_create env p ctx devs a cl f u err).
Proof. unfold filters_create. kb. Qed.

#[local] Hint Resolve kb_filters_create : kb.

Lemma kb_new_from_filters_full p filters f u err :
  keeps_bound (cl4_context_new_from_filters_full env p filters f u err).
Proof. unfold cl4_context_new_from_filters_full. kb. Qed.

Lemma kb_cldevices_wrap_loop ctx devs count : forall i,
  keeps_bound (cldevices_wrap_loop ctx devs i count).
Proof.
  induction count as [|k IH]; intros i; cbn [cldevices_wrap_loop]; [kb|].
  destruct (devs !! Z.to_nat i) as [id|]; [|kb].
  destruct (id =? NULL); [kb|].
  apply kb_bind; [kb|]. intros d. apply kb_bind; [kb|]. intros c.
  apply kb_bind; [kb|]. intros _. apply IH.
Qed.

#[local] Hint Resolve kb_cldevices_wrap_loop : kb.

Lemma kb_cldevices_create p ctx num devs f u err :
  keeps_bound (cldevices_create env p ctx num devs f u err).
Proof. unfold cldevices_create. kb. Qed.

#[local] Hint Resolve kb_cldevices_create : kb.


Lemma kb_new_from_clcontext c err :
  keeps_bound (cl4_context_new_from_clcontext env c err).
Proof. unfold cl4_context_new_from_clcontext. kb. Qed.

Lemma kb_cl4_context_num_devices ctx err :
  keeps_bound (cl4_context_num_devices env ctx err).
Proof. unfold cl4_context_num_devices. kb. Qed.

Lemma kb_cl4_context_get_device ctx index err :
  keeps_bound (cl4_context_get_device env ctx index err).
Proof. unfold cl4_context_get_device. kb. Qed.

End Bounded.

(** *** Construct, then destroy *)

Lemma release_events_spec hp ids : forall b,
  (forall j id, ids !! j = Some id ->
     b + Z.of_nat j ≠ NULL /\
     exists plat, hp !! (b + Z.of_nat j) = Some (BDevice (mkDevice (mkWrapper id 1) plat))) ->
  concat (unref_events hp <$> seqZ b (Z.of_nat (length ids))) = release_events b ids.
Proof.
  induction ids as [|id ids IH]; intros b H; [done|].
  cbn [length release_events]. rewrite seqZ_cons by lia.
  cbn [fmap list_fmap concat].
  replace (Z.pred (Z.of_nat (S (length ids)))) with (Z.of_nat (length ids)) by lia.
  change (list_fmap Z (list event) (unref_events hp))
    with (fmap (M := list) (unref_events hp)).
  rewrite IH.
  - destruct (H 0%nat id eq_refl) as (Hn & plat & Hb). rewrite Z.add_0_r in Hn, Hb.
    unfold unref_events. destruct (Z.eqb_spec b NULL); [done|]. rewrite Hb. done.
  - intros j id' Hj. destruct (H (S j) id' Hj) as (Hn & plat & Hb).
    replace (Z.succ b + Z.of_nat j) with (b + Z.of_nat (S j)) by lia. eauto.
Qed.

Lemma wraps_release_events hp b ids :
  0 < b -> wraps hp (seqZ b (Z.of_nat (length ids))) ids ->
  concat (unref_events hp <$> seqZ b (Z.of_nat (length ids))) = release_events b ids.
Proof.
  intros Hb [_ Hw]. apply release_events_spec. intros j id Hj.
  apply (Hw j); [|done]. apply lookup_seqZ_lt.
  apply lookup_lt_Some in Hj. lia.
Qed.

Lemma wraps_unref_block hp ds ids d :
  wraps hp ds ids -> d ∈ ds -> unref_block hp d = None.
Proof.
  intros [Hl Hw] (j & Hj)%list_elem_of_lookup.
  destruct (lookup_lt_is_Some_2 ids j) as [id Hid].
  { rewrite <- Hl. by eapply lookup_lt_Some. }
  destruct (Hw _ _ _ Hj Hid) as (_ & plat & Hb).
  unfold unref_block. rewrite Hb. done.
Qed.

(** Destroying a wrapper just built, with reference count 1, over the
    device wrappers [ds]: everything the wrapper owns is freed. *)
Lemma destroy_built w ctx h arr ds ids :
  ctx ≠ NULL -> h ≠ NULL -> built (heap w) ctx h arr ds ids ->
  exists w',
    cl4_context_destroy ctx w = Done tt w' /\
    next w' = next w /\
    trace w' = trace w ++ concat (unref_events (heap w) <$> ds) ++ [EvReleaseContext h] /\
    heap w' !! ctx = None /\ heap w' !! arr = None /\
    (forall d, d ∈ ds -> heap w' !! d = None) /\
    (forall p, p ∉ ds -> p ≠ ctx -> p ≠ arr -> heap w' !! p = heap w !! p).
Proof.
  intros Hctx Hh Hbuilt. destruct (built_owns _ _ _ _ _ _ Hbuilt) as [Hod Hop].
  pose proof Hbuilt as (Hc & Harr & Ha & Hnd & Hw).
  destruct (wp_elim _ _ _
              (wp_cl4_context_destroy_last ctx _ ds w Hctx Hc eq_refl Hh Hod Hop))
    as ([] & w' & Hrun & Hn & Ht & Hfc & Hfa & Hfd & _ & Hframe).
  cbn [base platform devices cl_object] in *.
  exists w'. split; [done|]. split; [done|]. split.
  { rewrite Ht. unfold platform_unref_events. done. }
  split; [done|]. split; [by apply Hfa|]. split.
  - intros d Hd. rewrite Hfd; [by eapply wraps_unref_block|done|].
    destruct Hw as [Hl Hw]. apply list_elem_of_lookup in Hd as [j Hj].
    destruct (lookup_lt_is_Some_2 ids j) as [id Hid].
    { rewrite <- Hl. by eapply lookup_lt_Some. }
    by destruct (Hw _ _ _ Hj Hid).
  - intros p Hp Hpc Hpa. apply Hframe; auto.
Qed.



(** The allocation counter after a successful filtered construction: the
    wrapper, one device wrapper per selected device, the element array, the
    candidate list object, the array of handles and, when synthesized, the
    default properties. *)
Lemma wp_new_from_filters_ok_next env properties pcells chain ids id0 p_base pfn_notify
    user_data err w synth ctx_props cells m h :
  err_null_or_unset err = true -> 0 < next w ->
  env_select env (trace w) chain = inl ids -> ids !! 0%nat = Some id0 ->
  env_device_platform env (trace w ++ [EvSelect chain]) id0 = inl p_base ->
  m = Z.of_nat (length ids) ->
  (properties ≠ NULL ->
   0 < properties < next w /\ heap w !! properties = Some (BArray pcells)) ->
  synth = (properties =? NULL) ->
  ctx_props = (if synth then next w + 4 + m else properties) ->
  cells = (if synth then default_properties p_base else pcells) ->
  env_create_context env (trace w ++ [EvSelect chain; EvDeviceInfo id0]) cells m
    (Some <$> ids) pfn_notify user_data = (h, CL_SUCCESS) ->
  wp (cl4_context_new_from_filters_full env properties (Some chain)
        pfn_notify user_data err)
     (fun _ w' => next w' = next w + 4 + m + (if synth then 1 else 0)) w.
Proof.
  intros He Hnx Hsel Hid0 Hplat Hm Hprops Hs Hcp Hcells Hcr.
  eapply wp_new_from_filters_selected; [done..|]. rewrite <- Hm.
  intros w2 Hsel2 Hn2 Ht2.
  eapply wp_filters_create; [done..|].
  intros w3 Hsel3 Hpn Hp3 Hn3 Ht3 h' st' Hcr'. rewrite Ht2, Hcr in Hcr'.
  injection Hcr' as <- <-. cbn zeta. cbn [CL_SUCCESS Z.eqb].
  pose proof Hsel3 as (Hc & Hw & _ & Hseg & Harr & Hcl & Hf). rewrite <- Hm in *.
  assert (0 < m) as Hmpos.
  { rewrite Hm. apply lookup_lt_Some in Hid0. lia. }
  assert (ctx_props < next w \/ next w + 4 + m <= ctx_props) as Hrange.
  { rewrite Hcp, Hs. destruct (Z.eqb_spec properties NULL) as [E|E]; [lia|].
    destruct (Hprops E). lia. }
  assert (next w ≠ NULL) as Hn0 by (unfold NULL; lia).
  apply wp_bind. eapply wp_update_context; [done|cbn; apply lookup_insert_eq|].
  cbn [heap next trace]. rewrite insert_insert_eq.
  apply wp_bind. eapply wp_update_context; [done|cbn; apply lookup_insert_eq|].
  cbn [heap next trace]. rewrite insert_insert_eq.
  apply wp_bind, wp_g_assert; [done|].
  unfold filters_finish.
  apply wp_bind. eapply wp_properties_default_free.
  { intros _. split; [done|]. cbn [heap]. rewrite lookup_insert_ne by lia. exact Hp3. }
  cbn [heap next trace].
  apply wp_bind. eapply wp_load_ptr_array; [unfold NULL; lia| |].
  { cbn [heap]. rewrite free_default_lookup_ne by lia.
    rewrite lookup_insert_ne by lia. exact Harr. }
  apply wp_bind. eapply wp_g_slice_free1; [unfold NULL; lia| |].
  { cbn [heap]. rewrite free_default_lookup_ne by lia.
    rewrite lookup_insert_ne by lia. exact Hcl. }
  apply wp_bind. eapply wp_g_ptr_array_free_segment_kept; [unfold NULL; lia| |].
  { cbn [heap]. rewrite lookup_delete_ne by lia. rewrite free_default_lookup_ne by lia.
    rewrite lookup_insert_ne by lia. exact Harr. }
  apply wp_ret. cbn [heap next trace]. exact Hn3.
Qed.

(** X9: The filtered constructor followed by [cl4_context_destroy] leaves the
    heap exactly as it was: besides what the wrapper owns, the candidate
    list object, the array of unwrapped handles and the default properties
    were already freed by the constructor.  Every selected device is
    released once, in selection order, and the created OpenCL context is
    released once, last. *)
Theorem filtered_construct_destroy env properties pcells chain ids id0 p_base pfn_notify
    user_data err w h :
  err_null_or_unset err = true -> 0 < next w -> heap_bounded w ->
  env_select env (trace w) chain = inl ids -> ids !! 0%nat = Some id0 ->
  env_device_platform env (trace w ++ [EvSelect chain]) id0 = inl p_base ->
  (properties ≠ NULL ->
   0 < properties < next w /\ heap w !! properties = Some (BArray pcells)) ->
  let cells := if properties =? NULL then default_properties p_base else pcells in
  env_create_context env (trace w ++ [EvSelect chain; EvDeviceInfo id0]) cells
    (Z.of_nat (length ids)) (Some <$> ids) pfn_notify user_data = (h, CL_SUCCESS) ->
  h ≠ NULL ->
  exists ctx w1 w2,
    cl4_context_new_from_filters_full env properties (Some chain)
      pfn_notify user_data err w = Done (ctx, err) w1 /\
    cl4_context_destroy ctx w1 = Done tt w2 /\
    heap w2 = heap w /\
    trace w2 = trace w1 ++ release_events (next w + 1) ids ++ [EvReleaseContext h].
Proof.
  intros He Hnx Hbd Hsel Hid0 Hplat Hprops cells Hcr Hh.
  pose proof (wp_new_from_filters_ok env properties pcells chain ids id0 p_base pfn_notify
                user_data err w _ _ cells _ h He Hnx Hsel Hid0 Hplat eq_refl Hprops
                eq_refl eq_refl eq_refl Hcr) as H1.
  pose proof (wp_new_from_filters_ok_next env properties pcells chain ids id0 p_base
                pfn_notify user_data err w _ _ cells _ h He Hnx Hsel Hid0 Hplat eq_refl
                Hprops eq_refl eq_refl eq_refl Hcr) as H2.
  apply wp_elim in H1 as (r1 & w1 & Hrun1 & -> & _ & Hbuilt & Hfreed & Hfl & Hfc & Hframe1).
  apply wp_elim in H2 as (r2 & w1' & Hrun1' & Hn1).
  rewrite Hrun1 in Hrun1'. injection Hrun1' as <- <-.
  destruct (kb_new_from_filters_full env _ _ _ _ _ _ _ _ Hbd Hrun1) as [Hbd1 _].
  assert (next w ≠ NULL) as Hctx by (unfold NULL; lia).
  set (m := Z.of_nat (length ids)) in *.
  destruct (destroy_built w1 _ _ _ _ _ Hctx Hh Hbuilt)
    as (w2 & Hrun2 & Hn2 & Ht2 & Hfcx & Hfa & Hfd & Hframe2).
  exists (next w), w1, w2. split; [done|]. split; [done|]. split.
  - apply map_eq. intros p.
    destruct (decide (p < next w)) as [Hlt|Hge].
    { rewrite Hframe2; [by apply Hframe1| |lia..].
      intros [? ?]%elem_of_seqZ. lia. }
    rewrite (Hbd p) by lia.
    destruct (decide (p = next w)) as [->|Hpc]; [done|].
    destruct (decide (p = next w + 1 + m)) as [->|Hpa]; [done|].
    destruct (decide (p ∈ seqZ (next w + 1) m)) as [Hin|Hnin]; [by apply Hfd|].
    rewrite Hframe2 by done.
    assert (next w + 2 + m <= p) as Hp.
    { destruct (decide (next w + 1 + m <= p)); [lia|].
      exfalso. apply Hnin. apply elem_of_seqZ. lia. }
    destruct (decide (p = next w + 2 + m)) as [->|Hp2]; [done|].
    destruct (decide (p = next w + 3 + m)) as [->|Hp3]; [done|].
    destruct (properties =? NULL) eqn:Hs.
    + destruct (decide (p = next w + 4 + m)) as [->|Hne]; [by apply Hfreed|].
      apply Hbd1. lia.
    + apply Hbd1. lia.
  - rewrite Ht2. do 2 f_equal. destruct Hbuilt as (_ & _ & _ & _ & Hw).
    apply wraps_release_events; [lia|done].
Qed.

Lemma filtered_construct_destroy_witness :
  exists ctx w1 w2,
    cl4_context_new_from_filters_full test_env NULL
      (Some [DepFilter cl4_devsel_dep_platform NULL]) NULL NULL (Some None)
      (mkWorld ∅ 1 []) = Done (ctx, Some None) w1 /\
    cl4_context_destroy ctx w1 = Done tt w2 /\
    heap w2 = ∅ /\
    trace w2 = trace w1 ++ [EvDeviceUnref 2; EvReleaseDevice 101;
                            EvDeviceUnref 3; EvReleaseDevice 102; EvReleaseContext 500].
Proof.
  apply (filtered_construct_destroy test_env NULL [] [DepFilter cl4_devsel_dep_platform NULL]
           [101; 102] 101 11 NULL NULL (Some None) (mkWorld ∅ 1 []) 500).
  - reflexivity.
  - reflexivity.
  - intros p _. reflexivity.
  - reflexivity.
  - reflexivity.
  - reflexivity.
  - intros Hne. exfalso. apply Hne. reflexivity.
  - reflexivity.
  - discriminate.
Defined.

(** X10: Wrapping an external OpenCL context, asking for its number of devices
    and destroying the wrapper leaves the heap exactly as it was.  The
    retain of the constructor is matched by one release of the context,
    which comes last, after each device of the materialised list was
    released once; the runtime is asked for the device list once.  The same
    holds without the accessor call: the wrapper alone is freed. *)
Theorem wrap_materialize_destroy env context err info w :
  context ≠ NULL -> err_null_or_unset err = true -> 0 < next w -> heap_bounded w ->
  env_retain_context env (trace w) context = CL_SUCCESS ->
  env_context_devices env (trace w ++ [EvRetainContext context CL_SUCCESS]) context
    = inl info ->
  size info = sizeof_cl_device_id * Z.of_nat (length (value info)) ->
  Z.of_nat (length (value info)) < 2 ^ 32 ->
  exists ctx w1,
    cl4_context_new_from_clcontext env context err w = Done (ctx, err) w1 /\
    (exists w2,
        cl4_context_destroy ctx w1 = Done tt w2 /\ heap w2 = heap w /\
        trace w2 = trace w ++ [EvRetainContext context CL_SUCCESS;
                               EvReleaseContext context]) /\
    (exists w2 w3,
        cl4_context_num_devices env ctx err w1 =
          Done (Z.of_nat (length (value info)), err) w2 /\
        cl4_context_destroy ctx w2 = Done tt w3 /\ heap w3 = heap w /\
        trace w3 = trace w ++ [EvRetainContext context CL_SUCCESS; EvContextInfo context]
                     ++ release_events (next w + 2) (value info)
                     ++ [EvReleaseContext context]).
Proof.
  intros Hc He Hnx Hbd Hret Hq Hsize Hbound.
  pose proof (new_from_clcontext_ok env context err w Hc He Hnx Hret) as Hrun1.
  set (c := mkContext (mkWrapper context 1) NULL 0 NULL).
  set (w1 := mkWorld (<[next w := BContext c]> (heap w)) (next w + 1)
                     (trace w ++ [EvRetainContext context CL_SUCCESS])).
  change (cl4_context_new_from_clcontext env context err w = Done (next w, err) w1)
    in Hrun1.
  assert (next w ≠ NULL) as Hctx by (unfold NULL; lia).
  assert (heap w1 !! next w = Some (BContext c)) as Hb1 by apply lookup_insert_eq.
  destruct (kb_new_from_clcontext env _ _ _ _ _ Hbd Hrun1) as [Hbd1 _].
  exists (next w), w1. split; [done|]. split.
  - destruct (wp_elim _ _ _
                (wp_cl4_context_destroy_last (next w) c [] w1 Hctx Hb1 eq_refl Hc
                   ltac:(repeat split; [apply NoDup_nil_2|intros d []%elem_of_nil])
                   ltac:(intros []; reflexivity)))
      as ([] & w2 & Hrun2 & Hn2 & Ht2 & Hfc & _ & _ & _ & Hframe).
    exists w2. split; [done|]. split.
    + apply map_eq. intros p. destruct (decide (p = next w)) as [->|Hne].
      * rewrite Hfc. symmetry. apply Hbd. lia.
      * rewrite Hframe; [|apply not_elem_of_nil|done|by right..].
        cbn. by rewrite lookup_insert_ne.
    + rewrite Ht2. cbn. by rewrite <- app_assoc.
  - set (n := Z.of_nat (length (value info))) in *.
    assert (to_cl_uint (size info / sizeof_cl_device_id) = n) as Hn.
    { rewrite Hsize. unfold sizeof_cl_device_id.
      rewrite Z.mul_comm, Z.div_mul by lia. unfold to_cl_uint. apply Z.mod_small. lia. }
    destruct (wp_elim _ _ _
                (wp_num_devices_lazy env (next w) c err info w1
                   ltac:(cbn; lia) Hb1 eq_refl He Hq ltac:(rewrite Hn; lia)))
      as (r & w2 & Hrun2 & Hr & Ht2 & Hm).
    rewrite Hn in Hr, Hm. subst r.
    destruct (kb_cl4_context_num_devices env _ _ _ _ _ Hbd1 Hrun2) as [Hbd2 _].
    pose proof (materialized_owns_devices w1 (next w) c (value info) n w2
                  ltac:(lia) ltac:(cbn; lia) Hm) as Hod.
    destruct Hm as (Hc2 & _ & Hdev & Hframe2 & Hn2).
    cbn [base platform c next w1] in Hc2, Hod, Hdev, Hframe2, Hn2.
    remember (if decide (n = 0) then NULL else next w + 1) as arr eqn:Earr.
    assert (n = 0 -> arr = NULL) as Harr0 by (intros E; by rewrite Earr, decide_True).
    assert (n ≠ 0 -> arr = next w + 1) as Harr1
      by (intros E; by rewrite Earr, decide_False).
    clear Earr.
    destruct (wp_elim _ _ _
                (wp_cl4_context_destroy_last (next w) _ _ w2 Hctx Hc2 eq_refl Hc Hod
                   ltac:(intros []; reflexivity)))
      as ([] & w3 & Hrun3 & Hn3 & Ht3 & Hfc & Hfa & Hfd & _ & Hframe3).
    cbn [base platform devices cl_object] in Ht3, Hfa, Hfd, Hframe3.
    exists w2, w3. split; [done|]. split; [done|]. split.
    + apply map_eq. intros p.
      destruct (decide (p = next w)) as [->|Hpc].
      { rewrite Hfc. symmetry. apply Hbd. lia. }
      destruct (decide (p ∈ seqZ (next w + 1 + 1) n)) as [Hin|Hnin].
      { pose proof Hin as [? ?]%elem_of_seqZ.
        rewrite Hfd; [|done|unfold NULL; lia].
        destruct (Hdev (p - (next w + 1 + 1))) as (id & _ & Hd); [lia|].
        replace (next w + 1 + 1 + (p - (next w + 1 + 1))) with p in Hd by lia.
        unfold unref_block. rewrite Hd. cbn. symmetry. apply Hbd. lia. }
      destruct (decide (p < next w)) as [Hlt|Hge].
      { rewrite Hframe3; [|done|done| |by right].
        - rewrite Hframe2 by lia. cbn. by rewrite lookup_insert_ne.
        - destruct (decide (n = 0)) as [Hz|Hnz]; [right; auto|left].
          rewrite (Harr1 Hnz). lia. }
      rewrite (Hbd p) by lia.
      destruct (decide (n = 0)) as [Hz|Hnz].
      * rewrite Hframe3; [|done|done|right; auto|by right]. apply Hbd2.
        lia.
      * destruct (decide (p = next w + 1)) as [->|Hpa].
        { rewrite <- (Harr1 Hnz). apply Hfa. rewrite (Harr1 Hnz). unfold NULL. lia. }
        rewrite Hframe3; [|done|done|left; rewrite (Harr1 Hnz); done|by right].
        apply Hbd2.
        destruct (decide (next w + 1 + 1 + n <= p)); [lia|].
        exfalso. apply Hnin. apply elem_of_seqZ. lia.
    + rewrite Ht3, Ht2. cbn [trace w1 platform_unref_events NULL Z.eqb app].
      rewrite <- !app_assoc. cbn [app]. do 3 f_equal.
      replace (next w + 2) with (next w + 1 + 1) by lia.
      f_equal. apply release_events_spec. intros j id Hj.
      split; [unfold NULL; lia|].
      destruct (Hdev (Z.of_nat j)) as (id' & Hid' & Hd).
      { apply lookup_lt_Some in Hj. lia. }
      rewrite Nat2Z.id, Hj in Hid'. injection Hid' as <-. eauto.
Qed.

Lemma wrap_materialize_destroy_witness :
  exists ctx w1 w2 w3,
    cl4_context_new_from_clcontext test_env 500 (Some None) (mkWorld ∅ 1 [])
      = Done (ctx, Some None) w1 /\
    cl4_context_num_devices test_env ctx (Some None) w1 = Done (2, Some None) w2 /\
    cl4_context_destroy ctx w2 = Done tt w3 /\ heap w3 = ∅ /\
    trace w3 = [EvRetainContext 500 CL_SUCCESS; EvContextInfo 500;
                EvDeviceUnref 3; EvReleaseDevice 101;
                EvDeviceUnref 4; EvReleaseDevice 102; EvReleaseContext 500].
Proof.
  destruct (wrap_materialize_destroy test_env 500 (Some None) (mkInfo [101; 102] 16)
              (mkWorld ∅ 1 []))
    as (ctx & w1 & Hrun & _ & w2 & w3 & Hn & Hd & Hh & Ht).
  - discriminate.
  - reflexivity.
  - reflexivity.
  - intros p _. reflexivity.
  - reflexivity.
  - reflexivity.
  - reflexivity.
  - reflexivity.
  - exists ctx, w1, w2, w3. split; [exact Hrun|]. split; [exact Hn|].
    split; [exact Hd|]. split; [exact Hh|exact Ht].
Defined.

(** X11: When the platform of the first selected device cannot be queried, the
    filtered constructor propagates that error to the caller's error
    output and returns NULL, before any context is created.  The candidate
    list object, its element array and the array of handles are freed; the
    wrapper object (its count dropped to 0) and the selected device
    wrappers stay allocated. *)
Theorem filtered_platform_query_failure env properties chain ids id0 e pfn_notify
    user_data err w :
  err_null_or_unset err = true -> 0 < next w ->
  env_select env (trace w) chain = inl ids -> ids !! 0%nat = Some id0 ->
  env_device_platform env (trace w ++ [EvSelect chain]) id0 = inr e ->
  let m := Z.of_nat (length ids) in
  exists w',
    cl4_context_new_from_filters_full env properties (Some chain)
      pfn_notify user_data err w = Done (NULL, propagated err e) w' /\
    trace w' = trace w ++ [EvSelect chain; EvDeviceInfo id0] /\
    heap w' !! next w = Some (BContext (mkContext (mkWrapper NULL 0) NULL 0 NULL)) /\
    (forall j id, ids !! j = Some id ->
       heap w' !! (next w + 1 + Z.of_nat j) =
         Some (BDevice (mkDevice (mkWrapper id 1) None))) /\
    heap w' !! (next w + 1 + m) = None /\
    heap w' !! (next w + 2 + m) = None /\
    heap w' !! (next w + 3 + m) = None /\
    (forall p, p < next w -> heap w' !! p = heap w !! p).
Proof.
  intros He Hnx Hsel Hid0 Hplat m.
  enough (wp (cl4_context_new_from_filters_full env properties (Some chain)
                pfn_notify user_data err)
             (fun r w' =>
                r = (NULL, propagated err e) /\
                trace w' = trace w ++ [EvSelect chain; EvDeviceInfo id0] /\
                heap w' !! next w =
                  Some (BContext (mkContext (mkWrapper NULL 0) NULL 0 NULL)) /\
                (forall j id, ids !! j = Some id ->
                   heap w' !! (next w + 1 + Z.of_nat j) =
                     Some (BDevice (mkDevice (mkWrapper id 1) None))) /\
                heap w' !! (next w + 1 + m) = None /\
                heap w' !! (next w + 2 + m) = None /\
                heap w' !! (next w + 3 + m) = None /\
                (forall p, p < next w -> heap w' !! p = heap w !! p)) w) as H.
  { apply wp_elim in H as (r & w' & Hrun & -> & H). by exists w'. }
  assert (0 < m) as Hm.
  { unfold m. apply lookup_lt_Some in Hid0. lia. }
  unfold cl4_context_new_from_filters_full. rewrite He. cbn [negb].
  apply wp_bind, wp_cl4_context_new_internal; [unfold NULL; lia|].
  apply wp_bind. unfold cl4_devsel_select.
  apply wp_bind, wp_get_trace. apply wp_bind, wp_emit. cbn [heap next trace].
  rewrite Hsel.
  apply wp_bind. eapply wp_mono; [apply wp_wrap_selected|]. cbn [heap next trace].
  intros ds w1 (-> & Hn1 & Ht1 & Hd1 & Hf1). fold m in Hn1 |- *.
  rewrite (seqZ_cons (next w + 1) m) by done.
  apply wp_bind, wp_alloc. apply wp_bind, wp_alloc, wp_ret.
  rewrite <- (seqZ_cons (next w + 1) m) by done.
  cbn [fst snd heap next trace]. rewrite length_seqZ, Z2Nat.id by lia.
  rewrite Hn1.
  replace (next w + 1 + m + 1) with (next w + 2 + m) by lia.
  assert (next w + 2 + m ≠ NULL) as Hdn by (unfold NULL; lia).
  apply wp_bind. eapply wp_load_ptr_array; [done|cbn; apply lookup_insert_eq|].
  cbn [len pdata]. destruct (Z.eqb_spec m 0); [lia|].
  apply wp_bind. unfold g_slice_alloc.
  destruct (Z.eqb_spec (m * sizeof_cl_device_id) 0) as [E|_];
    [unfold sizeof_cl_device_id in E; lia|].
  apply wp_alloc. cbn [heap next trace].
  replace (next w + 2 + m + 1) with (next w + 3 + m) by lia.
  assert (seqZ (next w + 1) m !! 0%nat = Some (next w + 1)) as Hfirst.
  { rewrite lookup_seqZ_lt by lia. f_equal. lia. }
  set (h3 := <[next w + 3 + m := BArray _]>
               (<[next w + 2 + m := BPtrArray (mkPtrArray (next w + 1 + m) m)]>
                  (<[next w + 1 + m := BArray (Some <$> seqZ (next w + 1) m)]> (heap w1)))).
  assert (forall p, p < next w + 1 + m -> h3 !! p = heap w1 !! p) as Hh3.
  { intros p Hp. unfold h3. by rewrite !lookup_insert_ne by lia. }
  assert (h3 !! (next w + 1 + m) = Some (BArray (Some <$> seqZ (next w + 1) m))) as Hseg.
  { unfold h3. rewrite !lookup_insert_ne by lia. apply lookup_insert_eq. }
  assert (h3 !! (next w + 2 + m) = Some (BPtrArray (mkPtrArray (next w + 1 + m) m))) as Harr.
  { unfold h3. rewrite lookup_insert_ne by lia. apply lookup_insert_eq. }
  assert (exists cl, h3 !! (next w + 3 + m) = Some (BArray cl)) as [cl Hcl].
  { eexists. unfold h3. apply lookup_insert_eq. }
  assert (h3 !! next w = Some (BContext empty_context)) as Hcx.
  { rewrite Hh3 by lia. rewrite Hf1 by lia. apply lookup_insert_eq. }
  assert (forall j id, ids !! j = Some id ->
            h3 !! (next w + 1 + Z.of_nat j) = Some (BDevice (mkDevice (mkWrapper id 1) None)))
    as Hd3.
  { intros j id Hj. rewrite Hh3; [by apply Hd1|]. apply lookup_lt_Some in Hj. lia. }
  clearbody h3.
  apply wp_bind. eapply wp_read_cell; [unfold NULL; lia|exact Hseg|done| |].
  { change (Z.to_nat 0) with 0%nat. by rewrite list_lookup_fmap, Hfirst. }
  apply wp_bind. eapply wp_cl4_device_info_value; [unfold NULL; lia| |].
  { cbn [heap]. rewrite <- (Z.add_0_r (next w + 1)). by apply (Hd3 0%nat). }
  unfold platform_answer, cache_platform, query_events.
  cbn [dev_platform dev_base cl_object heap next trace]. rewrite Ht1, Hplat.
  apply wp_bind, wp_g_propagate_error; [done|].
  unfold filters_error_handler.
  apply wp_bind, wp_g_assert; [apply propagated_null_or_set|].
  apply wp_bind. eapply wp_cl4_context_destroy_no_object;
    [unfold NULL; lia|exact Hcx|done|].
  cbn [heap next trace empty_context set_ref_count base platform num_devices devices
       ref_count cl_object Z.sub Z.add Z.opp Z.pos_sub].
  destruct (Z.eqb_spec (next w + 2 + m) NULL) as [E|_]; [done|].
  apply wp_bind, wp_bind. eapply wp_load_ptr_array; [done| |].
  { cbn [heap]. rewrite lookup_insert_ne by lia. exact Harr. }
  cbn [pdata]. eapply wp_g_free; [unfold NULL; lia| |].
  { cbn [heap]. rewrite lookup_insert_ne by lia. exact Hseg. }
  unfold filters_finish, cl4_context_properties_default_free.
  apply wp_bind.
  assert (forall Q (w0 : world),
             Q tt w0 ->
             wp (if properties =? NULL
                 then g_slice_free1 (3 * sizeof_cl_context_properties) NULL
                 else ret tt) Q w0) as Hfree.
  { intros Q w0 HQ. by destruct (properties =? NULL). }
  apply Hfree. cbn [heap next trace].
  apply wp_bind. eapply wp_load_ptr_array; [done| |].
  { cbn [heap]. rewrite lookup_delete_ne by lia. rewrite lookup_insert_ne by lia.
    exact Harr. }
  apply wp_bind. eapply wp_g_slice_free1; [unfold NULL; lia| |].
  { cbn [heap]. rewrite lookup_delete_ne by lia. rewrite lookup_insert_ne by lia.
    exact Hcl. }
  apply wp_bind. eapply wp_g_ptr_array_free_segment_kept; [done| |].
  { cbn [heap]. rewrite !lookup_delete_ne by lia. rewrite lookup_insert_ne by lia.
    exact Harr. }
  apply wp_ret. cbn [heap next trace].
  split; [done|]. split; [by rewrite <- app_assoc|].
  split; [|split; [|split; [|split; [|split]]]].
  - rewrite !lookup_delete_ne by lia. apply lookup_insert_eq.
  - intros j id Hj. pose proof (lookup_lt_Some _ _ _ Hj).
    rewrite !lookup_delete_ne by lia. rewrite lookup_insert_ne by lia. by apply Hd3.
  - rewrite !lookup_delete_ne by lia. apply lookup_delete_eq.
  - apply lookup_delete_eq.
  - rewrite lookup_delete_ne by lia. apply lookup_delete_eq.
  - intros p Hp. rewrite !lookup_delete_ne by lia. rewrite lookup_insert_ne by lia.
    rewrite Hh3 by lia. rewrite Hf1 by lia. by rewrite lookup_insert_ne by lia.
Qed.

Lemma filtered_platform_query_failure_witness :
  exists w',
    cl4_context_new_from_filters_full platform_fails_env NULL
      (Some [DepFilter cl4_devsel_dep_platform NULL]) NULL NULL (Some None)
      (mkWorld ∅ 1 []) = Done (NULL, Some (Some query_failed)) w' /\
    trace w' = [EvSelect [DepFilter cl4_devsel_dep_platform NULL]; EvDeviceInfo 101].
Proof.
  destruct (filtered_platform_query_failure platform_fails_env NULL
              [DepFilter cl4_devsel_dep_platform NULL] [101; 102] 101 query_failed
              NULL NULL (Some None) (mkWorld ∅ 1 []))
    as (w' & Hrun & Ht & _); [reflexivity..|].
  exists w'. split; [exact Hrun|exact Ht].
Defined.

(** X12: When [clCreateContext] fails and returns no context, both constructors
    return NULL with a [CL4_ERROR_OCL] error that names the constructor and
    carries the status.  The default properties are freed (and, in the
    filtered constructor, the candidate list object, its element array and
    the array of handles), the caller's heap is untouched, but the wrapper
    object, its count dropped to 0, and the device wrappers, each still
    holding its handle with count 1, stay allocated. *)
Theorem create_failure_leaves_wrappers env properties pcells pfn_notify user_data err w :
  err_null_or_unset err = true -> 0 < next w ->
  (properties ≠ NULL ->
   0 < properties < next w /\ heap w !! properties = Some (BArray pcells)) ->
  let synth := properties =? NULL in
  (forall num devs id0 p st,
      0 < num -> Z.of_nat (length devs) = num ->
      (forall j, 0 <= j < num -> devs !! Z.to_nat j ≠ Some NULL) ->
      devs !! 0%nat = Some id0 ->
      env_device_platform env (trace w) id0 = inl p ->
      let cells := if synth then default_properties p else pcells in
      env_create_context env (trace w ++ (if synth then [EvDeviceInfo id0] else []))
        cells num (Some <$> devs) pfn_notify user_data = (NULL, st) ->
      st ≠ CL_SUCCESS ->
      exists w',
        cl4_context_new_from_cldevices_full env properties num (Some devs)
          pfn_notify user_data err w =
          Done (NULL, propagated err
                        (create_error "cl4_context_new_from_cldevices_full" st)) w' /\
        (synth = true -> heap w' !! (next w + 2 + num) = None) /\
        (forall q, q < next w -> heap w' !! q = heap w !! q) /\
        heap w' !! next w =
          Some (BContext (mkContext (mkWrapper NULL 0) NULL num (next w + 1))) /\
        heap w' !! (next w + 1) = Some (BArray (Some <$> seqZ (next w + 2) num)) /\
        wraps (heap w') (seqZ (next w + 2) num) devs) /\
  (forall chain ids sid0 p st,
      env_select env (trace w) chain = inl ids -> ids !! 0%nat = Some sid0 ->
      env_device_platform env (trace w ++ [EvSelect chain]) sid0 = inl p ->
      let cells := if synth then default_properties p else pcells in
      let m := Z.of_nat (length ids) in
      env_create_context env (trace w ++ [EvSelect chain; EvDeviceInfo sid0])
        cells m (Some <$> ids) pfn_notify user_data = (NULL, st) ->
      st ≠ CL_SUCCESS ->
      exists w',
        cl4_context_new_from_filters_full env properties (Some chain)
          pfn_notify user_data err w =
          Done (NULL, propagated err
                        (create_error "cl4_context_new_from_filters_full" st)) w' /\
        (synth = true -> heap w' !! (next w + 4 + m) = None) /\
        (forall q, q < next w -> heap w' !! q = heap w !! q) /\
        heap w' !! (next w + 1 + m) = None /\
        heap w' !! (next w + 2 + m) = None /\ heap w' !! (next w + 3 + m) = None /\
        heap w' !! next w = Some (BContext (mkContext (mkWrapper NULL 0) NULL 0 NULL)) /\
        wraps (heap w') (seqZ (next w + 1) m) ids).
Proof.
  intros He Hnx Hprops synth. split.
  - intros num devs id0 p st Hnum Hlen Hnn Hid0 Hplat cells Hcr Hst.
    pose proof (wp_new_from_cldevices_fails env properties pcells num devs id0 pfn_notify
                  user_data err w Hnum Hlen Hnn Hid0 He Hnx Hprops) as H.
    cbn zeta in H. rewrite Hplat in H. cbn [synthesized_properties] in H.
    fold synth cells in H. rewrite Hcr in H. cbn [fst snd] in H. specialize (H Hst).
    apply wp_elim in H as (res & w' & Hrun & -> & _ & Hfreed & Hframe & Hleak).
    destruct (Hleak eq_refl) as (Hc & Ha & Hw).
    exists w'. split; [done|]. split; [|done].
    intros Hs. specialize (Hfreed Hs). by rewrite Hs in Hfreed.
  - intros chain ids sid0 p st Hsel Hsid0 Hsplat cells m Hcr Hst.
    pose proof (wp_new_from_filters_fails env properties pcells chain ids sid0 p pfn_notify
                  user_data err w _ _ cells _ NULL st He Hnx Hsel Hsid0 Hsplat eq_refl
                  Hprops eq_refl eq_refl eq_refl Hcr Hst) as H.
    apply wp_elim in H
      as (res & w' & Hrun & -> & _ & Hfreed & Hseg & Harr & Hcl & Hw & Hleak & Hframe).
    exists w'. split; [done|]. split.
    { intros Hs. specialize (Hfreed Hs). fold synth in Hfreed. by rewrite Hs in Hfreed. }
    split; [done|]. split; [done|]. split; [done|]. split; [done|]. split; [|done].
    by apply Hleak.
Qed.

Lemma create_failure_leaves_wrappers_witness :
  (exists w',
      cl4_context_new_from_cldevices_full create_fails_env NULL 2 (Some [101; 102])
        NULL NULL (Some None) (mkWorld ∅ 1 []) =
        Done (NULL, Some (Some (create_error "cl4_context_new_from_cldevices_full" (-5)))) w' /\
      heap w' !! 1 = Some (BContext (mkContext (mkWrapper NULL 0) NULL 2 2)) /\
      wraps (heap w') [3; 4] [101; 102]) /\
  (exists w',
      cl4_context_new_from_filters_full create_fails_env NULL
        (Some [DepFilter cl4_devsel_dep_platform NULL]) NULL NULL (Some None)
        (mkWorld ∅ 1 []) =
        Done (NULL, Some (Some (create_error "cl4_context_new_from_filters_full" (-5)))) w' /\
      heap w' !! 1 = Some (BContext (mkContext (mkWrapper NULL 0) NULL 0 NULL)) /\
      wraps (heap w') [2; 3] [101; 102]).
Proof.
  destruct (create_failure_leaves_wrappers create_fails_env NULL [] NULL NULL (Some None)
              (mkWorld ∅ 1 [])) as [H1 H2].
  - reflexivity.
  - reflexivity.
  - intros Hne. exfalso. apply Hne. reflexivity.
  - split.
    + destruct (H1 2 [101; 102] 101 11 (-5)) as (w' & Hrun & _ & _ & Hc & _ & Hw).
      * lia.
      * reflexivity.
      * intros j Hj. assert (j = 0 \/ j = 1) as [-> | ->] by lia; discriminate.
      * reflexivity.
      * reflexivity.
      * reflexivity.
      * discriminate.
      * exists w'. split; [exact Hrun|]. split; [exact Hc|exact Hw].
    + destruct (H2 [DepFilter cl4_devsel_dep_platform NULL] [101; 102] 101 11 (-5))
        as (w' & Hrun & _ & _ & _ & _ & _ & Hc & Hw).
      * reflexivity.
      * reflexivity.
      * reflexivity.
      * reflexivity.
      * discriminate.
      * exists w'. split; [exact Hrun|]. split; [exact Hc|exact Hw].
Defined.

(** X13: Missing or empty input is rejected before anything happens: a device
    count of 0, a NULL device list, a NULL filter set, a NULL OpenCL
    context or a NULL wrapper make the function log one critical message
    and return NULL (0 for [cl4_context_num_devices]).  Nothing is
    allocated, the runtime is not called, and the error output is left as
    it was, so no error is reported through it. *)
Theorem rejected_arguments_have_no_effect env properties num pfn_notify user_data err
    index w :
  num <= 0 -> err_null_or_unset err = true ->
  let logged check := mkWorld (heap w) (next w) (trace w ++ [EvCritical check]) in
  (forall devs,
      cl4_context_new_from_cldevices_full env properties num devs pfn_notify user_data err w
      = Done (NULL, err) (logged "num_devices > 0")) /\
  (forall num', 0 < num' ->
      cl4_context_new_from_cldevices_full env properties num' None pfn_notify user_data err w
      = Done (NULL, err) (logged "devices != NULL")) /\
  cl4_context_new_from_filters_full env properties None pfn_notify user_data err w
    = Done (NULL, err) (logged "filters != NULL") /\
  cl4_context_new_from_clcontext env NULL err w
    = Done (NULL, err) (logged "context != NULL") /\
  cl4_context_destroy NULL w = Done tt (logged "ctx != NULL") /\
  cl4_context_get_device env NULL index err w = Done (NULL, err) (logged "ctx != NULL") /\
  cl4_context_num_devices env NULL err w = Done (0, err) (logged "ctx != NULL").
Proof.
  intros Hnum He logged. repeat split.
  - intros devs. unfold cl4_context_new_from_cldevices_full.
    destruct (Z.ltb_spec 0 num); [lia|]. reflexivity.
  - intros num' Hnum'. unfold cl4_context_new_from_cldevices_full.
    destruct (Z.ltb_spec 0 num'); [|lia]. reflexivity.
  - unfold cl4_context_get_device. rewrite He. reflexivity.
Qed.

Lemma rejected_arguments_have_no_effect_witness :
  cl4_context_new_from_cldevices_full test_env NULL 0 (Some []) NULL NULL (Some None)
    (mkWorld ∅ 1 []) = Done (NULL, Some None) (mkWorld ∅ 1 [EvCritical "num_devices > 0"]).
Proof.
  destruct (rejected_arguments_have_no_effect test_env NULL 0 NULL NULL (Some None) 0
              (mkWorld ∅ 1 [])) as [H _]; [lia|reflexivity|].
  exact (H (Some [])).
Defined.

(** X14: What a successful constructor asks of its collaborators, in order.  The
    explicit-devices constructor queries the platform of the first device
    only when it has to synthesize the properties, and then calls
    [clCreateContext] with the handles as given.  The filtered constructor
    runs the selection, queries the platform of the first selected device,
    once, whatever the number of devices and whether or not properties were
    given, and calls [clCreateContext] with the handles in selection order.
    Nothing else is called and no warning or critical message is logged. *)
Theorem constructors_call_the_runtime_once env properties pcells pfn_notify user_data err w :
  err_null_or_unset err = true -> 0 < next w ->
  (properties ≠ NULL ->
   0 < properties < next w /\ heap w !! properties = Some (BArray pcells)) ->
  let synth := properties =? NULL in
  (forall num devs id0 p h,
      0 < num -> Z.of_nat (length devs) = num ->
      (forall j, 0 <= j < num -> devs !! Z.to_nat j ≠ Some NULL) ->
      devs !! 0%nat = Some id0 ->
      env_device_platform env (trace w) id0 = inl p ->
      let cells := if synth then default_properties p else pcells in
      env_create_context env (trace w ++ (if synth then [EvDeviceInfo id0] else []))
        cells num (Some <$> devs) pfn_notify user_data = (h, CL_SUCCESS) ->
      exists res w',
        cl4_context_new_from_cldevices_full env properties num (Some devs)
          pfn_notify user_data err w = Done res w' /\
        trace w' = trace w ++ (if synth then [EvDeviceInfo id0] else [])
                     ++ [EvCreateContext (if synth then next w + 2 + num else properties)
                           cells num (Some <$> devs) pfn_notify user_data h CL_SUCCESS]) /\
  (forall chain ids sid0 p h,
      env_select env (trace w) chain = inl ids -> ids !! 0%nat = Some sid0 ->
      env_device_platform env (trace w ++ [EvSelect chain]) sid0 = inl p ->
      let cells := if synth then default_properties p else pcells in
      let m := Z.of_nat (length ids) in
      env_create_context env (trace w ++ [EvSelect chain; EvDeviceInfo sid0])
        cells m (Some <$> ids) pfn_notify user_data = (h, CL_SUCCESS) ->
      exists res w',
        cl4_context_new_from_filters_full env properties (Some chain)
          pfn_notify user_data err w = Done res w' /\
        trace w' = trace w ++ [EvSelect chain; EvDeviceInfo sid0;
                               EvCreateContext (if synth then next w + 4 + m else properties)
                                 cells m (Some <$> ids) pfn_notify user_data h CL_SUCCESS]).
Proof.
  intros He Hnx Hprops synth. split.
  - intros num devs id0 p h Hnum Hlen Hnn Hid0 Hplat cells Hcr.
    pose proof (wp_new_from_cldevices_ok env properties pcells num devs id0 pfn_notify
                  user_data err w Hnum Hlen Hnn Hid0 He Hnx Hprops) as H.
    cbn zeta in H. rewrite Hplat in H. cbn [synthesized_properties] in H.
    fold synth cells in H. rewrite Hcr in H. cbn [fst snd] in H. specialize (H eq_refl).
    apply wp_elim in H as (res & w' & Hrun & _ & Ht & _).
    exists res, w'. split; [done|]. by rewrite Ht, <- app_assoc.
  - intros chain ids sid0 p h Hsel Hsid0 Hsplat cells m Hcr.
    pose proof (wp_new_from_filters_ok env properties pcells chain ids sid0 p pfn_notify
                  user_data err w _ _ cells _ h He Hnx Hsel Hsid0 Hsplat eq_refl Hprops
                  eq_refl eq_refl eq_refl Hcr) as H.
    apply wp_elim in H as (res & w' & Hrun & _ & Ht & _).
    by exists res, w'.
Qed.

Lemma constructors_call_the_runtime_once_witness :
  (exists res w',
      cl4_context_new_from_cldevices_full test_env NULL 2 (Some [101; 102]) NULL NULL
        (Some None) (mkWorld ∅ 1 []) = Done res w' /\
      trace w' = [EvDeviceInfo 101;
                  EvCreateContext 5 [Some CL_CONTEXT_PLATFORM; Some 11; Some 0] 2
                    [Some 101; Some 102] NULL NULL 500 CL_SUCCESS]) /\
  (exists res w',
      cl4_context_new_from_filters_full test_env NULL
        (Some [DepFilter cl4_devsel_dep_platform NULL]) NULL NULL (Some None)
        (mkWorld ∅ 1 []) = Done res w' /\
      trace w' = [EvSelect [DepFilter cl4_devsel_dep_platform NULL]; EvDeviceInfo 101;
                  EvCreateContext 7 [Some CL_CONTEXT_PLATFORM; Some 11; Some 0] 2
                    [Some 101; Some 102] NULL NULL 500 CL_SUCCESS]).
Proof.
  destruct (constructors_call_the_runtime_once test_env NULL [] NULL NULL (Some None)
              (mkWorld ∅ 1 [])) as [H1 H2].
  - reflexivity.
  - reflexivity.
  - intros Hne. exfalso. apply Hne. reflexivity.
  - split.
    + apply (H1 2 [101; 102] 101 11 500).
      * lia.
      * reflexivity.
      * intros j Hj. assert (j = 0 \/ j = 1) as [-> | ->] by lia; discriminate.
      * reflexivity.
      * reflexivity.
      * reflexivity.
    + apply (H2 [DepFilter cl4_devsel_dep_platform NULL] [101; 102] 101 11 500);
        reflexivity.
Defined.
